(** * A Rocq model of [scripts/push-to-anki.py]

    The script turns quiz cards (JSON) into Anki notes (HTML fragments in a
    fixed nine-field model) and pushes them through the AnkiConnect HTTP API.

    The model is a shallow embedding:
    - a Python [str] is a list of Unicode code points ([pystr]);
    - a value produced by [json.loads] is a [json] tree;
    - an exception is a value of [exn], a fallible computation returns
      [result];
    - a call to AnkiConnect goes through a small state and error monad [io]
      that threads the log of the requests issued so far; the server is a
      parameter.

    Python built-ins whose tables are not part of the script (Unicode case
    mapping, [str()] of a value that is not a string) are parameters of the
    main section. *)

From Stdlib Require Import ZArith NArith List String Ascii Bool Lia PeanoNat.
From Stdlib Require Import Permutation.
From Stdlib Require Import Floats.PrimFloat.
Import ListNotations.

Set Warnings "-register-all".
Set Implicit Arguments.

(* ================================================================= *)
(** ** Python strings *)

Definition codepoint := N.
Definition pystr := list codepoint.

(** Template literals are written as Rocq strings. Two characters that do not
    occur anywhere in the script's literals stand for the two characters a
    Rocq literal cannot hold conveniently: the backquote (96) stands for the
    double quote (34) and the tilde (126) for the line feed (10). *)
Definition code_of_ascii (a : ascii) : codepoint :=
  match N_of_ascii a with
  | 96%N => 34%N
  | 126%N => 10%N
  | n => n
  end.

Definition lit (s : string) : pystr := map code_of_ascii (list_ascii_of_string s).
Arguments lit s%_string.

Fixpoint pystr_eqb (a b : pystr) : bool :=
  match a, b with
  | [], [] => true
  | x :: a', y :: b' => N.eqb x y && pystr_eqb a' b'
  | _, _ => false
  end.

(** [s.startswith(p)] *)
Fixpoint starts_with (p s : pystr) : bool :=
  match p, s with
  | [], _ => true
  | x :: p', y :: s' => N.eqb x y && starts_with p' s'
  | _ :: _, [] => false
  end.

(** [needle in hay] for two strings *)
Fixpoint contains (needle hay : pystr) : bool :=
  starts_with needle hay ||
  match hay with
  | [] => false
  | _ :: rest => contains needle rest
  end.

(** [s.replace(old, new)] for a non-empty [old]: occurrences are replaced from
    left to right and do not overlap. [skip] counts the characters of the
    occurrence just replaced that are still to be passed over. *)
Fixpoint str_replace_from (old new s : pystr) (skip : nat) : pystr :=
  match s with
  | [] => []
  | c :: rest =>
      match skip with
      | S k => str_replace_from old new rest k
      | O =>
          if starts_with old s
          then new ++ str_replace_from old new rest (List.length old - 1)
          else c :: str_replace_from old new rest 0
      end
  end.

Definition str_replace (old new s : pystr) : pystr := str_replace_from old new s 0.

(** Decimal notation of integers, as [str(n)] and [f"{n}"] give it. *)
Fixpoint digits_of_uint (u : Decimal.uint) : pystr :=
  match u with
  | Decimal.Nil => []
  | Decimal.D0 r => 48%N :: digits_of_uint r
  | Decimal.D1 r => 49%N :: digits_of_uint r
  | Decimal.D2 r => 50%N :: digits_of_uint r
  | Decimal.D3 r => 51%N :: digits_of_uint r
  | Decimal.D4 r => 52%N :: digits_of_uint r
  | Decimal.D5 r => 53%N :: digits_of_uint r
  | Decimal.D6 r => 54%N :: digits_of_uint r
  | Decimal.D7 r => 55%N :: digits_of_uint r
  | Decimal.D8 r => 56%N :: digits_of_uint r
  | Decimal.D9 r => 57%N :: digits_of_uint r
  end.

Definition str_of_nat (n : nat) : pystr := digits_of_uint (Nat.to_uint n).

(** [f"{n:2d}"]: right-aligned in a field of width two. *)
Definition format_2d (n : nat) : pystr :=
  let d := str_of_nat n in repeat 32%N (2 - List.length d) ++ d.

(** ASCII case mapping: what [str.lower] and [str.upper] do on ASCII text. *)
Definition ascii_lower_code (c : codepoint) : codepoint :=
  if (65 <=? c)%N && (c <=? 90)%N then (c + 32)%N else c.
Definition ascii_upper_code (c : codepoint) : codepoint :=
  if (97 <=? c)%N && (c <=? 122)%N then (c - 32)%N else c.
Definition ascii_lower (s : pystr) : pystr := map ascii_lower_code s.
Definition ascii_upper (s : pystr) : pystr := map ascii_upper_code s.

(* ================================================================= *)
(** ** JSON values, exceptions, results *)

Inductive json : Type :=
| JNull
| JBool (b : bool)
| JInt (z : Z)
| JFloat (f : float)
| JStr (s : pystr)
| JList (items : list json)
| JDict (entries : list (pystr * json)).

(** The text of the exceptions the script raises itself, kept structured:
    the formatted values are stored, not their rendering. *)
Inductive message : Type :=
| AnkiConnect_error (error : json)
    (* AnkiConnect error: {error} *)
| Card_missing_required_fields (card_id : json) (missing : list pystr)
    (* Card {card_id} missing required fields: {missing} *)
| Card_answer_must_be_a_list_of (card_id : json) (card_type : pystr) (what : pystr)
    (* Card {card_id}: {card_type} answer must be a list of {what} *)
| Unknown_card_type (card_type : json)
    (* Unknown card type: {card_type} *)
| chr_arg_not_in_range.

Inductive exn : Type :=
| RuntimeError (m : message)
| ValueError (m : message)
| KeyError (key : json)
| TypeError
| AttributeError
| IndexError
| OSError
| UnicodeEncodeError.

Inductive result (A : Type) : Type :=
| Ok (a : A)
| Err (e : exn).
Arguments Ok {A} a.
Arguments Err {A} e.

Definition bind {A B : Type} (r : result A) (k : A -> result B) : result B :=
  match r with
  | Ok a => k a
  | Err e => Err e
  end.

Definition res_map {A B : Type} (f : A -> B) (r : result A) : result B :=
  bind r (fun a => Ok (f a)).

Declare Scope result_scope.
Delimit Scope result_scope with result.
Notation "x <- r ;; k" := (bind r (fun x => k))
  (at level 61, r at next level, right associativity) : result_scope.
Notation "' p <- r ;; k" := (bind r (fun p => k))
  (at level 61, p strict pattern, r at next level, right associativity) : result_scope.
Notation "r ;;; k" := (bind r (fun _ => k))
  (at level 61, right associativity) : result_scope.
Local Open Scope result_scope.

(** A [for] loop that adds to an accumulator and may raise. *)
Fixpoint for_each {A S : Type} (body : S -> A -> result S) (l : list A) (acc : S)
  : result S :=
  match l with
  | [] => Ok acc
  | x :: rest => acc' <- body acc x ;; for_each body rest acc'
  end.

(** [enumerate(l)] *)
Definition enumerate {A : Type} (l : list A) : list (nat * A) :=
  combine (seq 0 (List.length l)) l.

(* ================================================================= *)
(** ** Dynamic operations on JSON values *)

Fixpoint dict_get (d : list (pystr * json)) (k : pystr) : option json :=
  match d with
  | [] => None
  | (k', v) :: rest => if pystr_eqb k' k then Some v else dict_get rest k
  end.

Definition has_key (d : list (pystr * json)) (k : pystr) : bool :=
  match dict_get d k with
  | Some _ => true
  | None => false
  end.

(** The keys of a dict, each once (an entry shadowed by an earlier one with
    the same key is not part of the dict). *)
Fixpoint dict_keys (d : list (pystr * json)) : list pystr :=
  match d with
  | [] => []
  | (k, _) :: rest => k :: filter (fun k' => negb (pystr_eqb k k')) (dict_keys rest)
  end.

(** [v.get(k, dflt)]: only a dict has the method. *)
Definition py_get (v : json) (k : pystr) (dflt : json) : result json :=
  match v with
  | JDict d => Ok (match dict_get d k with Some x => x | None => dflt end)
  | _ => Err AttributeError
  end.

(** [v[k]] for a string key [k]. *)
Definition py_getitem_key (v : json) (k : pystr) : result json :=
  match v with
  | JDict d =>
      match dict_get d k with
      | Some x => Ok x
      | None => Err (KeyError (JStr k))
      end
  | _ => Err TypeError
  end.

(** Truth value of a JSON value ([if v:], [not v]). *)
Definition truthy (v : json) : bool :=
  match v with
  | JNull => false
  | JBool b => b
  | JInt z => negb (Z.eqb z 0)
  | JFloat f => negb (PrimFloat.eqb f 0%float)
  | JStr s => negb (Nat.eqb (List.length s) 0)
  | JList l => negb (Nat.eqb (List.length l) 0)
  | JDict d => negb (Nat.eqb (List.length d) 0)
  end.

Definition is_list (v : json) : bool :=
  match v with JList _ => true | _ => false end.

(** [isinstance(a, str)] *)
Definition is_str (v : json) : bool :=
  match v with JStr _ => true | _ => false end.

(** [isinstance(a, int)]: [bool] is a subclass of [int]. *)
Definition is_int (v : json) : bool :=
  match v with JInt _ | JBool _ => true | _ => false end.

(** [v == s] for a string literal [s]. *)
Definition eq_str (v : json) (s : pystr) : bool :=
  match v with JStr t => pystr_eqb t s | _ => false end.

(** The receiver of a [str] method ([lower], [upper], [startswith]): no other
    JSON value has these attributes. *)
Definition as_str (v : json) : result pystr :=
  match v with JStr s => Ok s | _ => Err AttributeError end.

(** Iteration ([for x in v], [enumerate(v)], a generator over [v]). *)
Definition py_iter (v : json) : result (list json) :=
  match v with
  | JList l => Ok l
  | JStr s => Ok (map (fun c => JStr [c]) s)
  | JDict d => Ok (map JStr (dict_keys d))
  | _ => Err TypeError
  end.

(** [len(v)] *)
Definition py_len (v : json) : result nat :=
  match v with
  | JList l => Ok (List.length l)
  | JStr s => Ok (List.length s)
  | JDict d => Ok (List.length (dict_keys d))
  | _ => Err TypeError
  end.

(** [l[i]] on a Python sequence of length [n]: a negative index counts from
    the end, and an index outside [-n, n) raises IndexError. *)
Definition seq_index {A : Type} (l : list A) (i : Z) : result A :=
  let n := Z.of_nat (List.length l) in
  let j := if (i <? 0)%Z then (i + n)%Z else i in
  if (0 <=? j)%Z && (j <? n)%Z then
    match nth_error l (Z.to_nat j) with
    | Some x => Ok x
    | None => Err IndexError
    end
  else Err IndexError.

(** [v[i]] for an integer [i]. A dict decoded from JSON has string keys only,
    so an integer key is never found. *)
Definition py_getitem_int (v : json) (i : Z) : result json :=
  match v with
  | JList l => seq_index l i
  | JStr s => seq_index (map (fun c => JStr [c]) s) i
  | JDict _ => Err (KeyError (JInt i))
  | _ => Err TypeError
  end.

(** [chr(n)] *)
Definition py_chr (n : nat) : result codepoint :=
  if (N.of_nat n <=? 1114111)%N then Ok (N.of_nat n)
  else Err (ValueError chr_arg_not_in_range).

(** [ord(s)]: the argument must be a string of length one. *)
Definition py_ord (s : pystr) : result Z :=
  match s with
  | [c] => Ok (Z.of_N c)
  | _ => Err TypeError
  end.

(** A stand-in for [str()] of a value that is not a string, used to run the
    model on examples: None, True, False and non-negative ints as Python
    prints them, a question mark for the values whose rendering the model
    does not describe. The examples embed strings only. *)
Definition sample_str_other (v : json) : pystr :=
  match v with
  | JNull => lit "None"
  | JBool true => lit "True"
  | JBool false => lit "False"
  | JInt (Zneg p) => 45%N :: str_of_nat (Pos.to_nat p)
  | JInt z => str_of_nat (Z.to_nat z)
  | _ => lit "?"
  end.

(** Standard output in UTF-8: every character but the surrogates. *)
Definition utf8_stdout (c : codepoint) : bool :=
  negb ((55296 <=? c)%N && (c <=? 57343)%N).

(** A stand-in for the summary of card types that are not strings, which no
    example has. *)
Definition sample_other_summary (keys : list json) : pystr := lit "?".

(** Cards, notes and answers used to run the model on examples. *)
Definition sample_common : list (pystr * json) :=
  [ (lit "question", JStr (lit "Which tier supports <slots> & scaling?"));
    (lit "explanation", JStr (lit "Standard and above."));
    (lit "keyPoints", JList [JStr (lit "Slots need Standard"); JStr (lit "a < b")]);
    (lit "reference", JStr (lit "https://learn.microsoft.com/azure")) ].

Definition sample_single : json :=
  JDict ([ (lit "id", JStr (lit "q1"));
           (lit "options", JList [JStr (lit "Free"); JStr (lit "Standard"); JStr (lit "Basic")]);
           (lit "answer", JStr (lit "B")) ] ++ sample_common).

Definition sample_multi : json :=
  JDict ([ (lit "id", JStr (lit "q2")); (lit "type", JStr (lit "multi-select"));
           (lit "options", JList [JStr (lit "Free"); JStr (lit "Standard"); JStr (lit "Premium")]);
           (lit "answer", JList [JStr (lit "B"); JStr (lit "C")]) ] ++ sample_common).

Definition sample_ordering : json :=
  JDict ([ (lit "id", JStr (lit "q3")); (lit "type", JStr (lit "ordering"));
           (lit "orderItems", JList [JStr (lit "Create plan"); JStr (lit "Create app")]);
           (lit "answer", JList [JInt 0; JInt 1]) ] ++ sample_common).

Definition sample_code : json :=
  JDict ([ (lit "id", JStr (lit "q4")); (lit "type", JStr (lit "code-hotarea"));
           (lit "codeLines", JList [JStr (lit "az group create"); JStr (lit "az webapp <up>")]);
           (lit "language", JStr (lit "bash"));
           (lit "answer", JList [JInt 1]) ] ++ sample_common).

(** A card of an unknown type that has the required fields, the same card
    without them, and a card that lacks keyPoints. *)
Definition sample_essay_entries : list (pystr * json) :=
  [ (lit "id", JStr (lit "q5")); (lit "type", JStr (lit "essay")) ] ++ sample_common.

Definition sample_essay : json := JDict sample_essay_entries.

Definition sample_essay_bare : json :=
  JDict [ (lit "type", JStr (lit "essay")) ].

Definition sample_no_key_points : list (pystr * json) :=
  [ (lit "id", JStr (lit "q7"));
    (lit "question", JStr (lit "Q?"));
    (lit "explanation", JStr (lit "E."));
    (lit "reference", JStr (lit "https://example.org")) ].

Definition sample_deck : json :=
  JDict [ (lit "deckName", JStr (lit "AZ-204::01"));
          (lit "cards", JList [sample_single; JDict sample_no_key_points]) ].

(** Answers of the server: a plain error, a per-note error list, a result
    that is a list of two note ids, and an empty result. *)
Definition sample_error_body : list (pystr * json) :=
  [ (lit "result", JNull); (lit "error", JStr (lit "deck was not found")) ].

Definition sample_batch_error_body : list (pystr * json) :=
  [ (lit "result", JList [JNull]);
    (lit "error", JList [JStr (lit "cannot create note because it is a duplicate")]) ].

Definition sample_found_body : list (pystr * json) :=
  [ (lit "result", JList [JInt 11; JInt 12]); (lit "error", JNull) ].

Definition sample_empty_error_body : list (pystr * json) :=
  [ (lit "result", JInt 6); (lit "error", JStr []) ].

(** A deck whose cards all convert, and a file system that holds it under
    one path and nothing elsewhere. *)
Definition sample_good_deck : json :=
  JDict [ (lit "deckName", JStr (lit "AZ-204::02"));
          (lit "cards", JList [sample_single; sample_multi]) ].

(** The good deck under a name that is a lone surrogate. *)
Definition sample_surrogate_deck : json :=
  JDict [ (lit "deckName", JStr [55296%N]);
          (lit "cards", JList [sample_single; sample_multi]) ].

(** A deck whose card list holds a value that is not an object. *)
Definition sample_bad_deck : json :=
  JDict [ (lit "deckName", JStr (lit "AZ-204::03"));
          (lit "cards", JList [sample_single; JStr (lit "oops")]) ].

Definition sample_argv : list pystr :=
  [ lit "push-to-anki.py"; lit "missing.json"; lit "deck.json" ].

(** An answer whose result is a string of one lone surrogate, which UTF-8
    cannot encode. *)
Definition sample_surrogate_body : list (pystr * json) :=
  [ (lit "result", JStr [55296%N]); (lit "error", JNull) ].

(** Twenty-five notes; those at even positions have null tags. *)
Definition sample_notes : list json :=
  map (fun k => JDict [ (lit "tags", if Nat.even k then JNull else JList []) ])
      (seq 0 25).

(* ================================================================= *)
(** ** Constants of the script *)

Definition MODEL_NAME : pystr := lit "AZ204 PREP Interactive".
Definition BATCH_SIZE : nat := 10.

(** A Python set; the model lists its elements in the order of the source. *)
Definition REQUIRED_CARD_FIELDS : list pystr :=
  [lit "question"; lit "explanation"; lit "keyPoints"; lit "reference"].

Definition MODEL_FIELDS : list pystr :=
  [lit "Question"; lit "Type"; lit "Options"; lit "Answer"; lit "Explanation";
   lit "KeyPoints"; lit "Reference"; lit "OrderItems"; lit "CodeBlock"].

Definition CONTAINER : pystr :=
  lit "max-width: 600px; margin: 0 auto; font-size: 18px; line-height: 1.8; padding: 15px; font-family: Arial, sans-serif; color: #ffffff; background-color: #1a1a1a; border-radius: 8px;".

Definition QUESTION_BOX : pystr :=
  lit "padding: 12px; background-color: #1e3a8a; border: 2px solid #3b82f6; border-left: 4px solid #60a5fa; border-radius: 4px; color: #ffffff;".

Definition CORRECT_BOX : pystr :=
  lit "max-width: 600px; margin: 0 auto; background-color: #14532d; border: 2px solid #22c55e; padding: 15px; border-radius: 8px;".

Definition EXPLANATION_BOX : pystr :=
  lit "max-width: 600px; margin: 20px auto; padding: 12px; background-color: #1e3a8a; border: 2px solid #3b82f6; border-radius: 6px; color: #ffffff;".

Definition REFERENCE_BOX : pystr :=
  lit "max-width: 600px; margin: 20px auto; padding: 8px; background-color: #581c87; border: 2px solid #9333ea; border-radius: 4px;".

Definition CODE_BG : pystr := lit "background-color: #0d1117;".

(** [html.escape(s, quote=True)]: five replacements, the ampersand first. *)
Definition html_escape (s : pystr) : pystr :=
  let s := str_replace (lit "&") (lit "&amp;") s in
  let s := str_replace (lit "<") (lit "&lt;") s in
  let s := str_replace (lit ">") (lit "&gt;") s in
  let s := str_replace (lit "`") (lit "&quot;") s in
  str_replace (lit "'") (lit "&#x27;") s.

(* ================================================================= *)
(** ** The script *)

Section Script.

(** Python's [str.lower] and [str.upper] (full Unicode case mapping). *)
Variable str_lower : pystr -> pystr.
Variable str_upper : pystr -> pystr.

(** Python's [str(v)] for a value [v] that is not a string. *)
Variable str_other : json -> pystr.

(** Which characters beyond ASCII the encoding of standard output holds. *)
Variable stdout_encodes : codepoint -> bool.

(** The text [sorted] and [join] give for the card counts per type when the
    types are not strings (null or numbers): Python's ordering of such keys
    and the equality of its dict keys are not embedded. *)
Variable other_summary : list json -> pystr.

Definition py_str (v : json) : pystr :=
  match v with
  | JStr s => s
  | _ => str_other v
  end.

Definition esc (text : json) : pystr := html_escape (py_str text).

(* ----------------------------------------------------------------- *)
(** *** HTML generators, front side *)

Definition HINT_STYLE : pystr :=
  lit "<div style=`margin-top: 10px; padding: 6px 12px; background-color: #854d0e; border: 1px solid #ca8a04; border-radius: 4px; color: #fde047; font-size: 14px;`>".

(** The return expression of [wrap_question]. *)
Definition question_frame (escaped hint : pystr) : pystr :=
  lit "<div style=`" ++ CONTAINER
  ++ lit "`><strong style=`color: #ffffff; font-size: 20px;`>Question:</strong><br><br><div style=`"
  ++ QUESTION_BOX ++ lit "`>" ++ escaped ++ lit "</div>" ++ hint ++ lit "</div>".

Definition wrap_question (text card_type : json) (correct_count : nat) : result pystr :=
  lowered <- res_map str_lower (as_str text) ;;
  let has_select_hint := contains (lit "select") lowered in
  let hint :=
    if eq_str card_type (lit "multi-select") && negb has_select_hint then
      HINT_STYLE ++ lit "Select " ++ str_of_nat correct_count ++ lit " answer"
      ++ (if (1 <? correct_count)%nat then lit "s" else []) ++ lit "</div>"
    else if eq_str card_type (lit "ordering") then
      HINT_STYLE ++ lit "Drag or use arrows to arrange in correct order</div>"
    else if eq_str card_type (lit "code-hotarea") then
      HINT_STYLE ++ lit "Click on the line(s) with errors</div>"
    else [] in
  Ok (question_frame (esc text) hint).

Definition option_item_single (letter : codepoint) (opt : json) : pystr :=
  lit "<li style=`margin-bottom: 12px; cursor: pointer; padding: 8px; background-color: #2a2a2a; border-radius: 4px; border: 2px solid #444;` onclick=`var s=this.style; if(s.borderColor==='rgb(59, 130, 246)'){s.borderColor='#444';s.backgroundColor='#2a2a2a';}else{var p=this.parentNode.children;for(var j=0;j<p.length;j++){p[j].style.borderColor='#444';p[j].style.backgroundColor='#2a2a2a';}s.borderColor='#3b82f6';s.backgroundColor='#1e3a5a';}`><strong>"
  ++ [letter] ++ lit ".</strong> " ++ esc opt ++ lit "</li>".

Definition options_frame (items : pystr) : pystr :=
  lit "<div style=`" ++ CONTAINER
  ++ lit "`>~<strong style=`color: #ffffff; font-size: 18px;`>Options:</strong>~<ul style=`margin-top: 10px; margin-left: 20px; line-height: 1.8; color: #ffffff; list-style: none; padding-left: 0;`>~"
  ++ items ++ lit "</ul>~</div>".

Definition wrap_options_single (options : json) : result pystr :=
  opts <- py_iter options ;;
  items <- for_each
             (fun items '(i, opt) =>
                letter <- py_chr (65 + i) ;;
                Ok (items ++ option_item_single letter opt))
             (enumerate opts) [] ;;
  Ok (options_frame items).

Definition option_item_multi (i : nat) (letter : codepoint) (opt : json) : pystr :=
  let cb_id := lit "cb_" ++ str_of_nat i in
  lit "<li style=`margin-bottom: 12px; cursor: pointer; padding: 8px; background-color: #2a2a2a; border-radius: 4px; border: 2px solid #444;` id=`opt_"
  ++ str_of_nat i
  ++ lit "` onclick=`var cb=document.getElementById('"
  ++ cb_id
  ++ lit "');cb.checked=!cb.checked;var el=document.getElementById('opt_"
  ++ str_of_nat i
  ++ lit "');if(cb.checked){el.style.borderColor='#3b82f6';el.style.backgroundColor='#1e3a5a';}else{el.style.borderColor='#444';el.style.backgroundColor='#2a2a2a';}`><input type=`checkbox` id=`"
  ++ cb_id
  ++ lit "` style=`margin-right: 8px; width: 18px; height: 18px; vertical-align: middle; pointer-events: none;` onclick=`event.stopPropagation()`><strong>"
  ++ [letter] ++ lit ".</strong> " ++ esc opt ++ lit "</li>".

Definition wrap_options_multi (options : json) : result pystr :=
  opts <- py_iter options ;;
  items <- for_each
             (fun items '(i, opt) =>
                letter <- py_chr (65 + i) ;;
                Ok (items ++ option_item_multi i letter opt))
             (enumerate opts) [] ;;
  Ok (options_frame items).

Definition order_item (i : nat) (item : json) : pystr :=
  lit "<li id=`ord_" ++ str_of_nat i
  ++ lit "` style=`margin-bottom: 8px; padding: 10px; background-color: #2a2a2a; border-radius: 4px; border: 2px solid #444; display: flex; align-items: center; gap: 10px;`><span style=`min-width: 24px; color: #9ca3af;`>"
  ++ str_of_nat (i + 1)
  ++ lit ".</span><span style=`flex: 1;`>"
  ++ esc item
  ++ lit "</span><span style=`display: flex; flex-direction: column; gap: 2px;`><button onclick=`moveItem('ord_"
  ++ str_of_nat i
  ++ lit "',-1)` style=`padding: 2px 8px; background: #374151; color: #fff; border: 1px solid #555; border-radius: 3px; cursor: pointer; font-size: 14px;`>&#9650;</button><button onclick=`moveItem('ord_"
  ++ str_of_nat i
  ++ lit "',1)` style=`padding: 2px 8px; background: #374151; color: #fff; border: 1px solid #555; border-radius: 3px; cursor: pointer; font-size: 14px;`>&#9660;</button></span></li>".

Definition ORDER_SCRIPT : pystr :=
  lit "<script>function moveItem(elId, dir) {  var list = document.getElementById('orderList');  var el = document.getElementById(elId);  if (!el) return;  var items = list.children;  var curIdx = -1;  for (var k = 0; k < items.length; k++) {    if (items[k] === el) { curIdx = k; break; }  }  if (curIdx < 0) return;  var target = curIdx + dir;  if (target < 0 || target >= items.length) return;  if (dir === -1) {    list.insertBefore(el, items[target]);  } else {    list.insertBefore(items[target], el);  }  renumber();}function renumber() {  var list = document.getElementById('orderList');  var items = list.children;  for (var i = 0; i < items.length; i++) {    items[i].querySelector('span').textContent = (i + 1) + '.';  }}function shuffleOrder() {  var list = document.getElementById('orderList');  var items = Array.prototype.slice.call(list.children);  for (var i = items.length - 1; i > 0; i--) {    var j = Math.floor(Math.random() * (i + 1));    var temp = items[i]; items[i] = items[j]; items[j] = temp;  }  for (var i = 0; i < items.length; i++) {    list.appendChild(items[i]);  }  renumber();}setTimeout(shuffleOrder, 0);</script>".

Definition wrap_order_items (items : json) : result pystr :=
  its <- py_iter items ;;
  li_items <- for_each
                (fun li_items '(i, item) => Ok (li_items ++ order_item i item))
                (enumerate its) [] ;;
  Ok (lit "<div style=`" ++ CONTAINER
      ++ lit "`>~<strong style=`color: #ffffff; font-size: 18px;`>Arrange in order:</strong>~<ul id=`orderList` style=`margin-top: 10px; list-style: none; padding-left: 0;`>~"
      ++ li_items ++ lit "</ul>~" ++ ORDER_SCRIPT ++ lit "~</div>").

Definition code_line (i : nat) (line : json) : pystr :=
  let escaped := esc line in
  lit "<div id=`codeline_" ++ str_of_nat i
  ++ lit "` style=`padding: 4px 10px; cursor: pointer; border-left: 3px solid transparent; font-family: 'Courier New', monospace; font-size: 14px; white-space: pre; color: #e6edf3;` onclick=`var el=document.getElementById('codeline_"
  ++ str_of_nat i
  ++ lit "');if(el.style.backgroundColor==='rgb(30, 58, 90)'){el.style.backgroundColor='transparent';el.style.borderLeftColor='transparent';}else{el.style.backgroundColor='#1e3a5a';el.style.borderLeftColor='#3b82f6';}`><span style=`color: #6e7681; margin-right: 12px; user-select: none;`>"
  ++ format_2d (i + 1) ++ lit "</span>" ++ escaped ++ lit "</div>".

Definition wrap_code_hotarea (code_lines language : json) : result pystr :=
  lines <- py_iter code_lines ;;
  lines_html <- for_each
                  (fun lines_html '(i, line) => Ok (lines_html ++ code_line i line))
                  (enumerate lines) [] ;;
  Ok (lit "<div style=`" ++ CONTAINER
      ++ lit "`>~<strong style=`color: #ffffff; font-size: 18px;`>Code ("
      ++ esc language
      ++ lit "):</strong>~<div style=`margin-top: 10px; " ++ CODE_BG
      ++ lit " border-radius: 6px; padding: 12px 0; overflow-x: auto; border: 1px solid #30363d;`>~"
      ++ lines_html ++ lit "</div>~</div>").

(* ----------------------------------------------------------------- *)
(** *** HTML generators, back side *)

(** [options[idx] if 0 <= idx < len(options) else ""]: the chained comparison
    stops at [0 <= idx] when it fails, so [len] is not called then. *)
Definition option_at (options : json) (idx : Z) : result json :=
  if (0 <=? idx)%Z then
    n <- py_len options ;;
    if (idx <? Z.of_nat n)%Z then py_getitem_int options idx else Ok (JStr [])
  else Ok (JStr []).

(** [ord(letter.upper()) - ord("A")] *)
Definition letter_index (letter : json) : result Z :=
  upper <- res_map str_upper (as_str letter) ;;
  code <- py_ord upper ;;
  Ok (code - 65)%Z.

Definition answer_single_frame (display : pystr) : pystr :=
  lit "<div style=`" ++ CORRECT_BOX
  ++ lit "`><span style=`color: #4ade80; font-weight: bold; font-size: 20px;`>&#10004; Correct Answer:</span> <strong style=`font-size: 18px; color: #86efac;`>"
  ++ display ++ lit "</strong></div>".

Definition wrap_answer_single (letter options : json) : result pystr :=
  idx <- letter_index letter ;;
  option_text <- option_at options idx ;;
  let display :=
    if truthy option_text
    then py_str letter ++ lit " (" ++ esc option_text ++ lit ")"
    else py_str letter in
  Ok (answer_single_frame display).

Definition answer_multi_item (letter option_text : json) : pystr :=
  lit "<div style=`margin: 4px 0; padding: 6px 10px; background-color: #14532d; border: 1px solid #22c55e; border-radius: 4px;`><strong style=`color: #86efac;`>"
  ++ py_str letter
  ++ lit ".</strong> <span style=`color: #bbf7d0;`>"
  ++ esc option_text ++ lit "</span></div>".

Definition wrap_answer_multi (letters options : json) : result pystr :=
  ls <- py_iter letters ;;
  items <- for_each
             (fun items letter =>
                idx <- letter_index letter ;;
                option_text <- option_at options idx ;;
                Ok (items ++ answer_multi_item letter option_text))
             ls [] ;;
  n <- py_len letters ;;
  Ok (lit "<div style=`" ++ CORRECT_BOX
      ++ lit "`><span style=`color: #4ade80; font-weight: bold; font-size: 20px;`>&#10004; Correct Answers ("
      ++ str_of_nat n
      ++ lit "):</span><div style=`margin-top: 8px;`>"
      ++ items ++ lit "</div></div>").

Definition answer_order_item (i : nat) (item : json) : pystr :=
  lit "<div style=`margin: 4px 0; padding: 8px 12px; background-color: #14532d; border: 1px solid #22c55e; border-radius: 4px; display: flex; gap: 10px;`><strong style=`color: #4ade80; min-width: 24px;`>"
  ++ str_of_nat (i + 1)
  ++ lit ".</strong><span style=`color: #bbf7d0;`>"
  ++ esc item ++ lit "</span></div>".

Definition wrap_answer_ordering (order_items : json) : result pystr :=
  its <- py_iter order_items ;;
  items <- for_each
             (fun items '(i, item) => Ok (items ++ answer_order_item i item))
             (enumerate its) [] ;;
  Ok (lit "<div style=`" ++ CORRECT_BOX
      ++ lit "`><span style=`color: #4ade80; font-weight: bold; font-size: 20px;`>&#10004; Correct Order:</span><div style=`margin-top: 8px;`>"
      ++ items ++ lit "</div></div>").

Definition answer_code_line (i : nat) (line : json) (is_error : bool) : pystr :=
  let escaped := esc line in
  let bg := if is_error then lit "#3b1219" else lit "transparent" in
  let border_color := if is_error then lit "#ef4444" else lit "transparent" in
  let marker :=
    if is_error
    then lit " <span style=`color: #ef4444; font-weight: bold;`>&larr; ERROR</span>"
    else [] in
  lit "<div style=`padding: 4px 10px; background-color: " ++ bg
  ++ lit "; border-left: 3px solid " ++ border_color
  ++ lit "; font-family: 'Courier New', monospace; font-size: 14px; white-space: pre; color: #e6edf3;`><span style=`color: #6e7681; margin-right: 12px;`>"
  ++ format_2d (i + 1) ++ lit "</span>" ++ escaped ++ marker ++ lit "</div>".

(** [error_indices] is the card's answer, which [validate_card] has checked
    to be a list of ints before this renderer is called; [i in error_indices]
    is then integer equality with one of its elements. The [language]
    argument of the source is not used by its body. *)
Definition wrap_answer_code_hotarea (code_lines : json) (error_indices : list Z)
  : result pystr :=
  lines <- py_iter code_lines ;;
  lines_html <- for_each
                  (fun lines_html '(i, line) =>
                     let is_error := existsb (Z.eqb (Z.of_nat i)) error_indices in
                     Ok (lines_html ++ answer_code_line i line is_error))
                  (enumerate lines) [] ;;
  let error_box_style :=
    str_replace (lit "#22c55e") (lit "#ef4444")
      (str_replace (lit "#14532d") (lit "#1a1a1a") CORRECT_BOX) in
  Ok (lit "<div style=`" ++ error_box_style
      ++ lit "`><span style=`color: #ef4444; font-weight: bold; font-size: 20px;`>&#128681; Error Line"
      ++ (if (1 <? List.length error_indices)%nat then lit "s" else [])
      ++ lit ":</span><div style=`margin-top: 10px; " ++ CODE_BG
      ++ lit " border-radius: 6px; padding: 12px 0; overflow-x: auto; border: 1px solid #30363d;`>~"
      ++ lines_html ++ lit "</div></div>").

Definition wrap_explanation (text : json) : pystr :=
  lit "<div style=`" ++ EXPLANATION_BOX
  ++ lit "`><span style=`color: #60a5fa; font-weight: bold; font-size: 20px;`>&#128214; Explanation:</span><br><br>"
  ++ esc text ++ lit "</div>".

Definition key_point_item (p : json) : pystr :=
  lit "<li style=`margin-bottom: 6px;`>" ++ esc p ++ lit "</li>".

Definition wrap_key_points (points : json) : result pystr :=
  ps <- py_iter points ;;
  let items := List.concat (map key_point_item ps) in
  Ok (lit "<div style=`max-width: 600px; margin: 20px auto; color: #ffffff;`>~<span style=`color: #fb923c; font-weight: bold; font-size: 20px;`>&#128273; Key Points:</span>~<ul style=`margin-top: 10px; margin-left: 20px; line-height: 1.8; color: #ffffff;`>~"
      ++ items ++ lit "</ul>~</div>").

Definition wrap_reference (url : json) : result pystr :=
  u <- as_str url ;;
  let url' :=
    if negb (starts_with (lit "http://") u || starts_with (lit "https://") u)
    then lit "#" else u in
  let safe_url := esc (JStr url') in
  Ok (lit "<div style=`" ++ REFERENCE_BOX
      ++ lit "`><span style=`color: #c084fc; font-weight: bold; font-size: 18px;`>&#128279; Reference:</span><br><a href=`"
      ++ safe_url
      ++ lit "` style=`color: #a78bfa; text-decoration: underline;` target=`_blank`>"
      ++ safe_url ++ lit "</a></div>").

(* ----------------------------------------------------------------- *)
(** *** Card to note conversion *)

(** [card.keys()] *)
Definition py_keys (v : json) : result (list pystr) :=
  match v with
  | JDict d => Ok (dict_keys d)
  | _ => Err AttributeError
  end.

Definition list_items (v : json) : list json :=
  match v with JList l => l | _ => [] end.

Definition is_empty {A : Type} (l : list A) : bool :=
  match l with [] => true | _ => false end.

(** [not isinstance(answer, list) or not all(isinstance(a, T) for a in answer)] *)
Definition not_list_of (is_T : json -> bool) (answer : json) : bool :=
  negb (is_list answer) || negb (forallb is_T (list_items answer)).

Definition validate_card (card : json) : result unit :=
  card_id <- py_get card (lit "id") (JStr (lit "unknown")) ;;
  keys <- py_keys card ;;
  let missing :=
    filter (fun f => negb (existsb (pystr_eqb f) keys)) REQUIRED_CARD_FIELDS in
  if negb (is_empty missing) then
    Err (ValueError (Card_missing_required_fields card_id missing))
  else
    card_type <- py_get card (lit "type") (JStr (lit "single-choice")) ;;
    answer <- py_get card (lit "answer") JNull ;;
    if eq_str card_type (lit "multi-select") then
      if not_list_of is_str answer then
        Err (ValueError (Card_answer_must_be_a_list_of card_id (lit "multi-select") (lit "strings")))
      else Ok tt
    else if eq_str card_type (lit "ordering") then
      if not_list_of is_int answer then
        Err (ValueError (Card_answer_must_be_a_list_of card_id (lit "ordering") (lit "ints")))
      else Ok tt
    else if eq_str card_type (lit "code-hotarea") then
      if not_list_of is_int answer then
        Err (ValueError (Card_answer_must_be_a_list_of card_id (lit "code-hotarea") (lit "ints")))
      else Ok tt
    else Ok tt.

(** The integers of a list of ints ([True] is 1 and [False] is 0). *)
Definition int_values (v : json) : list Z :=
  flat_map
    (fun a =>
       match a with
       | JInt z => [z]
       | JBool b => [if b then 1%Z else 0%Z]
       | _ => []
       end)
    (list_items v).

(** The dict returned by [card_to_note]. *)
Definition note_record (deck_name card_type : json)
    (question options answer explanation key_points reference order_items code_block : pystr)
    (tags : json) : json :=
  JDict
    [ (lit "deckName", deck_name);
      (lit "modelName", JStr MODEL_NAME);
      (lit "fields",
        JDict
          [ (lit "Type", card_type);
            (lit "Question", JStr question);
            (lit "Options", JStr options);
            (lit "Answer", JStr answer);
            (lit "Explanation", JStr explanation);
            (lit "KeyPoints", JStr key_points);
            (lit "Reference", JStr reference);
            (lit "OrderItems", JStr order_items);
            (lit "CodeBlock", JStr code_block) ]);
      (lit "tags", tags) ].

Definition card_to_note (card deck_name : json) : result json :=
  validate_card card ;;;
  card_type <- py_get card (lit "type") (JStr (lit "single-choice")) ;;
  options <- py_get card (lit "options") (JList []) ;;
  order_items <- py_get card (lit "orderItems") (JList []) ;;
  code_lines <- py_get card (lit "codeLines") (JList []) ;;
  language <- py_get card (lit "language") (JStr (lit "text")) ;;
  answer <- py_get card (lit "answer") (JStr []) ;;
  let correct_count := if is_list answer then List.length (list_items answer) else 0 in
  question <- py_getitem_key card (lit "question") ;;
  question_html <- wrap_question question card_type correct_count ;;
  '(options_html, answer_html, order_html, code_html) <-
    (if eq_str card_type (lit "single-choice") then
       options_html <- wrap_options_single options ;;
       answer_html <- wrap_answer_single answer options ;;
       Ok (options_html, answer_html, [], [])
     else if eq_str card_type (lit "multi-select") then
       options_html <- wrap_options_multi options ;;
       answer_html <- wrap_answer_multi answer options ;;
       Ok (options_html, answer_html, [], [])
     else if eq_str card_type (lit "ordering") then
       answer_html <- wrap_answer_ordering order_items ;;
       order_html <- wrap_order_items order_items ;;
       Ok ([], answer_html, order_html, [])
     else if eq_str card_type (lit "code-hotarea") then
       answer_html <- wrap_answer_code_hotarea code_lines (int_values answer) ;;
       code_html <- wrap_code_hotarea code_lines language ;;
       Ok ([], answer_html, [], code_html)
     else Err (ValueError (Unknown_card_type card_type))) ;;
  explanation <- py_getitem_key card (lit "explanation") ;;
  key_points <- py_getitem_key card (lit "keyPoints") ;;
  key_points_html <- wrap_key_points key_points ;;
  reference <- py_getitem_key card (lit "reference") ;;
  reference_html <- wrap_reference reference ;;
  tags <- py_get card (lit "tags") (JList []) ;;
  Ok (note_record deck_name card_type question_html options_html answer_html
        (wrap_explanation explanation) key_points_html reference_html
        order_html code_html tags).

(* ----------------------------------------------------------------- *)
(** *** AnkiConnect *)

(** What one HTTP exchange gives: the decoded JSON body, or the exception
    raised by [urlopen] or [json.loads]. *)
Inductive reply : Type :=
| Answered (body : json)
| Failed (e : exn).

(** The AnkiConnect server: its reply to a request, given the requests it has
    received before. *)
Variable server : list json -> json -> reply.

(** Computations that talk to the server thread the log of the requests
    issued so far. *)
Definition io (A : Type) : Type := list json -> result A * list json.

Definition io_ret {A : Type} (a : A) : io A := fun log => (Ok a, log).

Definition io_lift {A : Type} (r : result A) : io A := fun log => (r, log).

Definition io_bind {A B : Type} (m : io A) (k : A -> io B) : io B :=
  fun log =>
    match m log with
    | (Ok a, log') => k a log'
    | (Err e, log') => (Err e, log')
    end.

Notation "x <~ m ;; k" := (io_bind m (fun x => k))
  (at level 61, m at next level, right associativity).

Fixpoint io_for_each {A S : Type} (body : S -> A -> io S) (l : list A) (acc : S)
  : io S :=
  match l with
  | [] => io_ret acc
  | x :: rest => acc' <~ body acc x ;; io_for_each body rest acc'
  end.

(** [urlopen(Request(ANKI_URL, data=json.dumps(payload)))] and
    [json.loads(resp.read())] *)
Definition http_post (payload : json) : io json :=
  fun log =>
    (match server log payload with
     | Answered body => Ok body
     | Failed e => Err e
     end,
     log ++ [payload]).

Definition request_payload (action : pystr) (params : list (pystr * json)) : json :=
  JDict [ (lit "action", JStr action); (lit "version", JInt 6);
          (lit "params", JDict params) ].

Definition anki_request (action : pystr) (params : list (pystr * json)) : io json :=
  result <~ http_post (request_payload action params) ;;
  error <~ io_lift (py_get result (lit "error") JNull) ;;
  if truthy error then io_lift (Err (RuntimeError (AnkiConnect_error error)))
  else io_lift (py_getitem_key result (lit "result")).

(** [ensure_deck] has no return statement: it returns [None]. *)
Definition ensure_deck (deck_name : json) : io json :=
  _ <~ anki_request (lit "createDeck") [ (lit "deck", deck_name) ] ;;
  io_ret JNull.

Definition anki_request_addnotes (notes : list json) : io json :=
  result <~ http_post (request_payload (lit "addNotes") [ (lit "notes", JList notes) ]) ;;
  error <~ io_lift (py_get result (lit "error") JNull) ;;
  if truthy error && negb (is_list error)
  then io_lift (Err (RuntimeError (AnkiConnect_error error)))
  else io_lift (py_get result (lit "result") (JList [])).

(** [range(start, stop, step)] for [step > 0] *)
Definition py_range (start stop step : nat) : list nat :=
  map (fun k => start + k * step) (seq 0 ((stop - start + step - 1) / step)).

(** [l[i:j]] for [0 <= i <= j] *)
Definition py_slice {A : Type} (l : list A) (i j : nat) : list A :=
  firstn (j - i) (skipn i l).

Definition is_none (v : json) : bool :=
  match v with JNull => true | _ => false end.

(** The inner loop of [push_notes]. *)
Definition tally (results : list json) (counts : nat * nat) : nat * nat :=
  fold_left
    (fun '(created, duplicates) r =>
       if is_none r then (created, duplicates + 1) else (created + 1, duplicates))
    results counts.

Definition push_notes (notes : list json) : io (nat * nat) :=
  io_for_each
    (fun counts i =>
       let batch := py_slice notes i (i + BATCH_SIZE) in
       results <~ anki_request_addnotes batch ;;
       rs <~ io_lift (py_iter results) ;;
       io_ret (tally rs counts))
    (py_range 0 (List.length notes) BATCH_SIZE) (0, 0).

Definition delete_deck_cards (deck_name : pystr) : io nat :=
  note_ids <~ anki_request (lit "findNotes")
                [ (lit "query", JStr (lit "deck:`" ++ deck_name ++ lit "`")) ] ;;
  _ <~ (if truthy note_ids
        then anki_request (lit "deleteNotes") [ (lit "notes", note_ids) ]
        else io_ret JNull) ;;
  io_lift (py_len note_ids).

(* ----------------------------------------------------------------- *)
(** *** Processing a file *)

(** What [Path(filepath)] holds: nothing, something that cannot be read or
    decoded, or a JSON document. *)
Inductive file_content : Type :=
| FileMissing
| FileUnreadable (e : exn)
| FileData (data : json).

(** A list or a dict cannot be a key of [type_counts]. *)
Definition hashable (v : json) : bool :=
  match v with JList _ | JDict _ => false | _ => true end.

(** Keys of different kinds cannot be ordered by [sorted]. *)
Definition same_order_class (a b : json) : bool :=
  match a, b with
  | JNull, JNull => true
  | JStr _, JStr _ => true
  | (JBool _ | JInt _ | JFloat _), (JBool _ | JInt _ | JFloat _) => true
  | _, _ => false
  end.

(** [a < b] on strings: by code points, a proper prefix first. *)
Fixpoint pystr_ltb (a b : pystr) : bool :=
  match a, b with
  | _, [] => false
  | [], _ :: _ => true
  | x :: a', y :: b' => (x <? y)%N || ((x =? y)%N && pystr_ltb a' b')
  end.

(** [type_counts[t] = type_counts.get(t, 0) + 1] for a string [t]; a dict
    keeps its keys in the order in which they were first set. *)
Fixpoint count_type (t : pystr) (type_counts : list (pystr * nat))
  : list (pystr * nat) :=
  match type_counts with
  | [] => [(t, 1)]
  | (k, v) :: rest =>
      if pystr_eqb k t then (k, v + 1) :: rest else (k, v) :: count_type t rest
  end.

(** [sorted(type_counts.items())] for string keys: the keys of a dict
    differ, so the counts are never compared and the items come out in the
    order of their keys. *)
Fixpoint insert_item (item : pystr * nat) (sorted : list (pystr * nat))
  : list (pystr * nat) :=
  match sorted with
  | [] => [item]
  | x :: rest =>
      if pystr_ltb (fst item) (fst x) then item :: x :: rest
      else x :: insert_item item rest
  end.

Definition sorted_items (items : list (pystr * nat)) : list (pystr * nat) :=
  fold_right insert_item [] items.

(** [sep.join(parts)] *)
Fixpoint str_join (sep : pystr) (parts : list pystr) : pystr :=
  match parts with
  | [] => []
  | p :: rest =>
      match rest with
      | [] => p
      | _ :: _ => p ++ sep ++ str_join sep rest
      end
  end.

(** The strings of a list of keys. *)
Definition str_values (keys : list json) : list pystr :=
  flat_map (fun k => match k with JStr s => [s] | _ => [] end) keys.

(** [", ".join(f"{k}: {v}" for k, v in sorted(type_counts.items()))] for
    string keys. *)
Definition string_summary (types : list pystr) : pystr :=
  str_join (lit ", ")
    (map (fun '(k, v) => k ++ lit ": " ++ str_of_nat v)
         (sorted_items (fold_left (fun type_counts t => count_type t type_counts)
                          types []))).

(** The block that counts the cards per type and builds [type_summary]: a
    type that cannot be a dict key raises, and so does the sort when two
    keys cannot be ordered. *)
Definition type_summary (cards : list json) : result pystr :=
  keys <- for_each
            (fun keys c =>
               t <- py_get c (lit "type") (JStr (lit "single-choice")) ;;
               if hashable t then Ok (keys ++ [t]) else Err TypeError)
            cards [] ;;
  match keys with
  | [] => Ok []
  | k :: rest =>
      if forallb (same_order_class k) rest then
        Ok (if is_str k then string_summary (str_values keys)
            else other_summary keys)
      else Err TypeError
  end.

(* ----------------------------------------------------------------- *)
(** *** Standard output *)

(** [print(text)] on standard output, whose error handler is strict: it
    raises UnicodeEncodeError when the encoding lacks a character of the
    text. The encodings Python gives standard output all hold the ASCII
    characters, so only a character beyond ASCII can fail: a print of ASCII
    constants and numbers never raises, and such prints are left out of the
    functions of this file. So are the prints on standard error, whose
    handler replaces what the encoding lacks. What is written is not
    modelled. *)
Definition encodable (c : codepoint) : bool :=
  (c <? 128)%N || stdout_encodes c.

Definition py_print (text : pystr) : result unit :=
  if forallb encodable text then Ok tt else Err UnicodeEncodeError.

(** [f"\n--- {deck_name} ({len(cards)} cards: {type_summary}) ---"] *)
Definition summary_line (deck_name : json) (n : nat) (summary : pystr) : pystr :=
  lit "~--- " ++ py_str deck_name ++ lit " (" ++ str_of_nat n ++ lit " cards: "
  ++ summary ++ lit ") ---".

(** [process_file]: the message for a missing file goes to standard error;
    the summary line holds the deck name and the card types; the two lines
    of counts are ASCII constants and numbers (see [py_print]). *)
Definition process_file (file : file_content) : io (nat * nat) :=
  match file with
  | FileMissing => io_ret (0, 0)
  | FileUnreadable e => io_lift (Err e)
  | FileData data =>
      deck_name <~ io_lift (py_getitem_key data (lit "deckName")) ;;
      cards <~ io_lift (py_getitem_key data (lit "cards")) ;;
      cs <~ io_lift (py_iter cards) ;;
      summary <~ io_lift (type_summary cs) ;;
      n <~ io_lift (py_len cards) ;;
      _ <~ io_lift (py_print (summary_line deck_name n summary)) ;;
      _ <~ ensure_deck deck_name ;;
      notes <~ io_lift
                 (for_each
                    (fun notes c =>
                       note <- card_to_note c deck_name ;; Ok (notes ++ [note]))
                    cs []) ;;
      push_notes notes
  end.

(* ----------------------------------------------------------------- *)
(** *** Connection check, model provisioning and the command line *)

(** [f"AnkiConnect v{ver} connected"] *)
Definition connected_line (ver : json) : pystr :=
  lit "AnkiConnect v" ++ py_str ver ++ lit " connected".

(** [check_connection]: an exception of the version request or of the print
    that follows it is caught and turned into [False]. *)
Definition check_connection : io bool :=
  fun log =>
    match anki_request (lit "version") [] log with
    | (Ok ver, log') =>
        match py_print (connected_line ver) with
        | Ok _ => (Ok true, log')
        | Err _ => (Ok false, log')
        end
    | (Err _, log') => (Ok false, log')
    end.

(** [s in container] for a string [s]: equality with an element of a list,
    substring of a string, key of a dict; other JSON values are not
    containers. *)
Definition py_contains_str (container : json) (s : pystr) : result bool :=
  match container with
  | JList l => Ok (existsb (fun v => eq_str v s) l)
  | JStr t => Ok (contains s t)
  | JDict d => Ok (has_key d s)
  | _ => Err TypeError
  end.

(** How a function that may call [sys.exit] ends when it raises nothing
    else. *)
Inductive exit_or (A : Type) : Type :=
| Returned (a : A)
| SystemExit (code : nat).
Arguments Returned {A} a.
Arguments SystemExit {A} code.

(** The parameters of the createModel request, in keyword order. *)
Definition CREATE_MODEL_PARAMS : list (pystr * json) :=
  [ (lit "modelName", JStr MODEL_NAME);
    (lit "inOrderFields", JList (map JStr MODEL_FIELDS));
    (lit "css",
      JStr (lit ".card { background-color: #1a1a1a; color: #ffffff; font-family: Arial, sans-serif; font-size: 18px; }"));
    (lit "cardTemplates",
      JList
        [ JDict
            [ (lit "Name", JStr (lit "Card 1"));
              (lit "Front", JStr (lit "{{Question}}{{Options}}{{OrderItems}}{{CodeBlock}}"));
              (lit "Back",
                JStr (lit "{{FrontSide}}<hr id=answer>{{Answer}}{{Explanation}}{{KeyPoints}}{{Reference}}")) ] ]) ].

(** [[f for f in MODEL_FIELDS if f not in existing_fields]] *)
Definition fields_not_in (existing_fields : json) : result (list pystr) :=
  for_each
    (fun missing f =>
       found <- py_contains_str existing_fields f ;;
       Ok (if negb found then missing ++ [f] else missing))
    MODEL_FIELDS [].

Definition ensure_model : io (exit_or unit) :=
  existing <~ anki_request (lit "modelNames") [] ;;
  present <~ io_lift (py_contains_str existing MODEL_NAME) ;;
  if present then
    existing_fields <~ anki_request (lit "modelFieldNames")
                         [ (lit "modelName", JStr MODEL_NAME) ] ;;
    missing <~ io_lift (fields_not_in existing_fields) ;;
    if negb (is_empty missing) then io_ret (SystemExit 1)
    else io_ret (Returned tt)
  else
    _ <~ anki_request (lit "createModel") CREATE_MODEL_PARAMS ;;
    io_ret (Returned tt).

(** How a run of [main] ends when it raises no exception: [sys.exit(code)],
    the delete mode's count, or the push mode's totals. *)
Inductive outcome : Type :=
| Exit (code : nat)
| Deleted (count : nat)
| Pushed (total_created total_duplicates : nat).

(** [f"Deleted {count} notes from '{sys.argv[2]}'"] *)
Definition deleted_line (count : nat) (deck_name : pystr) : pystr :=
  lit "Deleted " ++ str_of_nat count ++ lit " notes from '" ++ deck_name ++ lit "'".

(** [main], with [sys.argv] and the file system as arguments: [fs] gives what
    each path holds. Its usage lines and its line of totals are ASCII
    constants and numbers (see [py_print]); the line of the delete mode
    holds the deck name. *)
Definition main (fs : pystr -> file_content) (argv : list pystr) : io outcome :=
  if (List.length argv <? 2)%nat then io_ret (Exit 1)
  else if pystr_eqb (nth 1 argv []) (lit "--delete-deck") then
    if (List.length argv <? 3)%nat then io_ret (Exit 1)
    else
      connected <~ check_connection ;;
      if negb connected then io_ret (Exit 1)
      else
        count <~ delete_deck_cards (nth 2 argv []) ;;
        _ <~ io_lift (py_print (deleted_line count (nth 2 argv []))) ;;
        io_ret (Deleted count)
  else
    connected <~ check_connection ;;
    if negb connected then io_ret (Exit 1)
    else
      provisioned <~ ensure_model ;;
      match provisioned with
      | SystemExit code => io_ret (Exit code)
      | Returned _ =>
          totals <~ io_for_each
                      (fun '(total_created, total_duplicates) filepath =>
                         counts <~ process_file (fs filepath) ;;
                         io_ret (total_created + fst counts,
                                 total_duplicates + snd counts))
                      (tl argv) (0, 0) ;;
          io_ret (Pushed (fst totals) (snd totals))
      end.

(* ----------------------------------------------------------------- *)
(** *** Notions used to state the properties *)

(** The characters that open or close markup in HTML text and attribute
    values: [<], [>] and the double quote. *)
Definition is_raw (c : codepoint) : bool :=
  (c =? 60)%N || (c =? 62)%N || (c =? 34)%N.

(** The markup skeleton of a fragment: its raw characters, in order. *)
Definition markup (s : pystr) : pystr := filter is_raw s.

(** What may follow an ampersand written by [html.escape]. *)
Definition ENTITY_TAILS : list pystr :=
  [lit "amp;"; lit "lt;"; lit "gt;"; lit "quot;"; lit "#x27;"].

(** Every ampersand of [s] starts one of the five entities. *)
Fixpoint entities_only (s : pystr) : bool :=
  match s with
  | [] => true
  | c :: rest =>
      (negb (c =? 38)%N || existsb (fun e => starts_with e rest) ENTITY_TAILS)
      && entities_only rest
  end.

(** [html.escape] character by character. *)
Definition escape_code (c : codepoint) : pystr :=
  if (c =? 38)%N then lit "&amp;"
  else if (c =? 60)%N then lit "&lt;"
  else if (c =? 62)%N then lit "&gt;"
  else if (c =? 34)%N then lit "&quot;"
  else if (c =? 39)%N then lit "&#x27;"
  else [c].

(** A list of user strings as a JSON list, and the same list with every
    string replaced by the empty one. *)
Definition strs (items : list pystr) : json := JList (map JStr items).
Definition blanks (items : list pystr) : json := JList (map (fun _ => JStr []) items).

(** The text of [s] up to the first [c], when there is one. *)
Fixpoint take_until (c : codepoint) (s : pystr) : option pystr :=
  match s with
  | [] => None
  | x :: rest =>
      if (x =? c)%N then Some []
      else match take_until c rest with
           | Some t => Some (x :: t)
           | None => None
           end
  end.

(** The text of [s] that follows the first occurrence of [marker]. *)
Fixpoint text_after (marker s : pystr) : option pystr :=
  if starts_with marker s then Some (skipn (List.length marker) s)
  else match s with
       | [] => None
       | _ :: rest => text_after marker rest
       end.

(** The target of the first anchor of a fragment. *)
Definition href_of (html : pystr) : option pystr :=
  match text_after (lit "<a href=`") html with
  | Some rest => take_until 34%N rest
  | None => None
  end.

(** Positions and texts of a list of strings and of its blanked twin. *)
Definition twin (p q : nat * json) : Prop :=
  fst p = fst q /\ exists s, snd p = JStr s /\ snd q = JStr [].

(** The option text the answer renderers show for position [idx]. *)
Definition option_text_at (options : list json) (idx : Z) : json :=
  if (0 <=? idx)%Z && (idx <? Z.of_nat (List.length options))%Z
  then nth (Z.to_nat idx) options (JStr [])
  else JStr [].

(** The fragment of [wrap_reference] up to and including the opening of the
    anchor's target. *)
Definition REFERENCE_HEAD : pystr :=
  lit "<div style=`" ++ REFERENCE_BOX
  ++ lit "`><span style=`color: #c084fc; font-weight: bold; font-size: 18px;`>&#128279; Reference:</span><br><a href=`".

(** The required fields a card lacks, in the order of the source. *)
Definition missing_fields (d : list (pystr * json)) : list pystr :=
  filter (fun f => negb (has_key d f)) REQUIRED_CARD_FIELDS.

(** [card.get(k, dflt)] on a dict. *)
Definition get_or (d : list (pystr * json)) (k : pystr) (dflt : json) : json :=
  match dict_get d k with Some x => x | None => dflt end.

(** The field map of a note, and one of its fields. *)
Definition note_fields (note : json) : list (pystr * json) :=
  match py_getitem_key note (lit "fields") with
  | Ok (JDict fields) => fields
  | _ => []
  end.

Definition note_field (note : json) (name : pystr) : option json :=
  dict_get (note_fields note) name.

(** The four card types. *)
Definition CARD_TYPES : list pystr :=
  [lit "single-choice"; lit "multi-select"; lit "ordering"; lit "code-hotarea"].

(** Servers used to run the model on examples: one that gives the same
    answer to every request, and one that answers addNotes with one slot per
    note (a duplicate for every note whose tags are null, an identifier
    otherwise) and everything else with an empty result list. *)
Definition const_server (body : json) : list json -> json -> reply :=
  fun _ _ => Answered body.

(** A server that cannot be reached. *)
Definition down_server : list json -> json -> reply :=
  fun _ _ => Failed OSError.

(** A server on which the model exists with the fields [fields]. *)
Definition model_server (fields : json) : list json -> json -> reply :=
  fun _ request =>
    let answer v := Answered (JDict [ (lit "result", v); (lit "error", JNull) ]) in
    match py_getitem_key request (lit "action") with
    | Ok (JStr action) =>
        if pystr_eqb action (lit "modelNames")
        then answer (JList [JStr (lit "Basic"); JStr MODEL_NAME])
        else if pystr_eqb action (lit "modelFieldNames") then answer fields
        else answer JNull
    | _ => answer JNull
    end.

(** A file system: one good deck, one deck with a card that lacks a required
    field, and nothing elsewhere. *)
Definition sample_fs (path : pystr) : file_content :=
  if pystr_eqb path (lit "deck.json") then FileData sample_good_deck
  else if pystr_eqb path (lit "broken.json") then FileData sample_deck
  else FileMissing.

(** The result slot [sample_server] gives for a note. *)
Definition slot_of_note (note : json) : json :=
  match py_get note (lit "tags") JNull with
  | Ok JNull => JNull
  | _ => JInt 1
  end.

Definition sample_server : list json -> json -> reply :=
  fun _ request =>
    match py_getitem_key request (lit "params") with
    | Ok (JDict [(_, JList notes)]) =>
        Answered (JDict [ (lit "result", JList (map slot_of_note notes));
                          (lit "error", JNull) ])
    | _ => Answered (JDict [ (lit "result", JList []); (lit "error", JNull) ])
    end.

(** The payloads of the addNotes, findNotes and deleteNotes requests. *)
Definition addnotes_payload (notes : list json) : json :=
  request_payload (lit "addNotes") [ (lit "notes", JList notes) ].

Definition find_payload (deck_name : pystr) : json :=
  request_payload (lit "findNotes")
    [ (lit "query", JStr (lit "deck:`" ++ deck_name ++ lit "`")) ].

Definition delete_payload (note_ids : json) : json :=
  request_payload (lit "deleteNotes") [ (lit "notes", note_ids) ].

(** The batches [push_notes] submits, in order. *)
Definition batches (notes : list json) : list (list json) :=
  map (fun i => py_slice notes i (i + BATCH_SIZE))
      (py_range 0 (List.length notes) BATCH_SIZE).

(** The number of result slots that are not null, and of those that are. *)
Definition created_slots (slots : list json) : nat :=
  List.length (filter (fun r => negb (is_none r)) slots).

Definition duplicate_slots (slots : list json) : nat :=
  List.length (filter is_none slots).

(** The server accepts every batch of [bs], submitted in order after the
    requests of [log], and [slotss] are the result slots it returns. *)
Fixpoint answered (log : list json) (bs slotss : list (list json)) : Prop :=
  match bs, slotss with
  | [], [] => True
  | b :: bs', slots :: slotss' =>
      (exists results,
          fst (anki_request_addnotes b log) = Ok results
          /\ py_iter results = Ok slots)
      /\ answered (log ++ [addnotes_payload b]) bs' slotss'
  | _, _ => False
  end.

(** Consecutive pieces of [b] elements of [l], [m] of them. *)
Definition chunks {A : Type} (b : nat) (l : list A) (m : nat) : list (list A) :=
  map (fun k => firstn b (skipn (k * b) l)) (seq 0 m).

(** The shape [validate_card] asks of the answer, by card type. *)
Definition answer_shape_ok (card_type answer : json) : bool :=
  if eq_str card_type (lit "multi-select") then
    is_list answer && forallb is_str (list_items answer)
  else if eq_str card_type (lit "ordering") || eq_str card_type (lit "code-hotarea") then
    is_list answer && forallb is_int (list_items answer)
  else true.

(** The five characters [html.escape] replaces. *)
Definition is_special (c : codepoint) : bool :=
  (c =? 38)%N || (c =? 60)%N || (c =? 62)%N || (c =? 34)%N || (c =? 39)%N.

(** Reading escaped text back: each of the five entities stands for its
    character, everything else for itself. [skip] counts the characters of
    the entity just read that are still to be passed over. *)
Fixpoint unescape_from (s : pystr) (skip : nat) : pystr :=
  match s with
  | [] => []
  | c :: rest =>
      match skip with
      | S k => unescape_from rest k
      | O =>
          if (c =? 38)%N then
            if starts_with (lit "amp;") rest then 38%N :: unescape_from rest 4
            else if starts_with (lit "lt;") rest then 60%N :: unescape_from rest 3
            else if starts_with (lit "gt;") rest then 62%N :: unescape_from rest 3
            else if starts_with (lit "quot;") rest then 34%N :: unescape_from rest 5
            else if starts_with (lit "#x27;") rest then 39%N :: unescape_from rest 5
            else c :: unescape_from rest 0
          else c :: unescape_from rest 0
      end
  end.

Definition html_unescape (s : pystr) : pystr := unescape_from s 0.

(** The items of the two options lists, one per option, in order. *)
Definition option_items_single (options : list json) : pystr :=
  List.concat
    (map (fun '(i, opt) => option_item_single (N.of_nat (65 + i)) opt)
         (enumerate options)).

Definition option_items_multi (options : list json) : pystr :=
  List.concat
    (map (fun '(i, opt) => option_item_multi i (N.of_nat (65 + i)) opt)
         (enumerate options)).

(** The position an answer letter stands for, when its upper-case form is
    one character. *)
Definition letter_position (letter : pystr) : Z :=
  match str_upper letter with
  | [c] => (Z.of_N c - 65)%Z
  | _ => 0%Z
  end.

(** The return expression of [wrap_answer_multi]. *)
Definition answer_multi_frame (n : nat) (items : pystr) : pystr :=
  lit "<div style=`" ++ CORRECT_BOX
  ++ lit "`><span style=`color: #4ade80; font-weight: bold; font-size: 20px;`>&#10004; Correct Answers ("
  ++ str_of_nat n
  ++ lit "):</span><div style=`margin-top: 8px;`>"
  ++ items ++ lit "</div></div>".

(** The payloads of the requests of the connection check and of model
    provisioning. *)
Definition version_payload : json := request_payload (lit "version") [].

Definition model_names_payload : json := request_payload (lit "modelNames") [].

Definition model_fields_payload : json :=
  request_payload (lit "modelFieldNames") [ (lit "modelName", JStr MODEL_NAME) ].

Definition create_model_payload : json :=
  request_payload (lit "createModel") CREATE_MODEL_PARAMS.

Definition create_deck_payload (deck_name : json) : json :=
  request_payload (lit "createDeck") [ (lit "deck", deck_name) ].

(** A computation only adds requests to the log. *)
Definition appends {A : Type} (m : io A) : Prop :=
  forall log, exists ext, snd (m log) = log ++ ext.

(** The files at [paths] are processed one after the other from the log
    [log] without an exception, give the counts [counts] and leave the log
    [final]. *)
Fixpoint files_processed (fs : pystr -> file_content) (log : list json)
    (paths : list pystr) (counts : list (nat * nat)) (final : list json) : Prop :=
  match paths, counts with
  | [], [] => final = log
  | path :: paths', c :: counts' =>
      exists log1,
        process_file (fs path) log = (Ok c, log1)
        /\ files_processed fs log1 paths' counts' final
  | _, _ => False
  end.

(** [render] embeds its argument through [esc] and in no other way: for
    every text of [dom] the fragment is the escaped text between two pieces,
    and the two pieces are the same for all texts. *)
Definition embeds_text (render : json -> result pystr) (dom : json -> Prop) : Prop :=
  exists pre post : pystr,
    forall text, dom text -> render text = Ok (pre ++ esc text ++ post).

(** [render] embeds the items of a list through [esc] and in no other way:
    for every list of [dom] the fragment is made of the escaped items in the
    order of the list, each between two pieces that depend on its position
    only, and the whole between two pieces that are the same for all
    lists. *)
Definition embeds_items (render : list json -> result pystr)
    (dom : list json -> Prop) : Prop :=
  exists (pre post : pystr) (ipre ipost : nat -> pystr),
    forall items,
      dom items ->
      render items
      = Ok (pre
            ++ List.concat (map (fun '(i, x) => ipre i ++ esc x ++ ipost i)
                                (enumerate items))
            ++ post).

(** The entries of the answer of an ordering card: entry [i] carries the
    number [i + 1] and the item at position [i]; and the box around them. *)
Definition ordered_entries (items : list json) : pystr :=
  List.concat (map (fun '(i, item) => answer_order_item i item) (enumerate items)).

Definition answer_ordering_frame (entries : pystr) : pystr :=
  lit "<div style=`" ++ CORRECT_BOX
  ++ lit "`><span style=`color: #4ade80; font-weight: bold; font-size: 20px;`>&#10004; Correct Order:</span><div style=`margin-top: 8px;`>"
  ++ entries ++ lit "</div></div>".

(** The types of the cards of [cards] that are strings. *)
Definition card_types (cards : list json) : list pystr :=
  flat_map (fun c => match py_get c (lit "type") (JStr (lit "single-choice")) with
                     | Ok (JStr t) => [t]
                     | _ => []
                     end) cards.

(** The notes of the cards of [cards] that convert. *)
Definition notes_of (cards : list json) (deck_name : json) : list json :=
  List.concat
    (map (fun c => match card_to_note c deck_name with
                   | Ok note => [note]
                   | Err _ => []
                   end) cards).

(** The arguments are too few for either mode of [main]. *)
Definition usage_error (argv : list pystr) : bool :=
  (List.length argv <? 2)%nat
  || (pystr_eqb (nth 1 argv []) (lit "--delete-deck") && (List.length argv <? 3)%nat).

(* ----------------------------------------------------------------- *)
(** *** Strings: basic facts *)

Unset Implicit Arguments.

(** Templates stay folded under [simpl]; they are computed on demand. *)
Arguments lit : simpl never.
Arguments html_escape : simpl never.
Arguments str_of_nat : simpl never.
Arguments format_2d : simpl never.
Arguments str_replace : simpl never.

(** The two stand-in characters of template literals. *)
Example lit_stand_ins : lit "a`b~" = [97%N; 34%N; 98%N; 10%N].
Proof. reflexivity. Qed.

Lemma pystr_eqb_eq (a b : pystr) : pystr_eqb a b = true <-> a = b.
Proof.
  revert b; induction a as [|x a IH]; destruct b as [|y b]; simpl;
    try (split; congruence).
  rewrite andb_true_iff, N.eqb_eq, IH. split.
  - intros [-> ->]; reflexivity.
  - intros E; inversion E; auto.
Qed.

Lemma pystr_eqb_refl (a : pystr) : pystr_eqb a a = true.
Proof. apply pystr_eqb_eq; reflexivity. Qed.

Lemma pystr_eqb_neq (a b : pystr) : pystr_eqb a b = false <-> a <> b.
Proof.
  rewrite <- pystr_eqb_eq. destruct (pystr_eqb a b); split; congruence.
Qed.

Lemma str_replace_char (c : codepoint) (rep s : pystr) :
  str_replace [c] rep s = flat_map (fun x => if (x =? c)%N then rep else [x]) s.
Proof.
  unfold str_replace. induction s as [|x s IH]; simpl; [reflexivity|].
  rewrite (N.eqb_sym c x). destruct (x =? c)%N; simpl; rewrite IH; reflexivity.
Qed.

Lemma flat_map_compose {A B C : Type} (f : A -> list B) (g : B -> list C) (l : list A) :
  flat_map g (flat_map f l) = flat_map (fun x => flat_map g (f x)) l.
Proof.
  induction l as [|x l IH]; simpl; [reflexivity|].
  rewrite flat_map_app, IH; reflexivity.
Qed.

Lemma html_escape_spec (s : pystr) : html_escape s = flat_map escape_code s.
Proof.
  unfold html_escape.
  change (lit "&") with [38%N]. change (lit "<") with [60%N].
  change (lit ">") with [62%N]. change (lit "`") with [34%N].
  change (lit "'") with [39%N].
  rewrite !str_replace_char, !flat_map_compose.
  apply flat_map_ext. intros x. unfold escape_code.
  destruct (N.eqb_spec x 38) as [->|n38]; [reflexivity|].
  destruct (N.eqb_spec x 60) as [->|n60]; [reflexivity|].
  destruct (N.eqb_spec x 62) as [->|n62]; [reflexivity|].
  destruct (N.eqb_spec x 34) as [->|n34]; [reflexivity|].
  destruct (N.eqb_spec x 39) as [->|n39]; [reflexivity|].
  apply N.eqb_neq in n60, n62, n34, n39.
  simpl. rewrite n60; simpl. rewrite n62; simpl.
  rewrite n34; simpl. rewrite n39; reflexivity.
Qed.

(* ----------------------------------------------------------------- *)
(** *** Escaping leaves no raw markup *)

Lemma markup_app (a b : pystr) : markup (a ++ b) = markup a ++ markup b.
Proof. apply filter_app. Qed.

Lemma markup_escape_code (c : codepoint) : markup (escape_code c) = [].
Proof.
  unfold escape_code.
  destruct (N.eqb_spec c 38); [reflexivity|].
  destruct (N.eqb_spec c 60) as [|n60]; [reflexivity|].
  destruct (N.eqb_spec c 62) as [|n62]; [reflexivity|].
  destruct (N.eqb_spec c 34) as [|n34]; [reflexivity|].
  destruct (N.eqb_spec c 39); [reflexivity|].
  apply N.eqb_neq in n60, n62, n34.
  unfold markup, is_raw; simpl. rewrite n60, n62, n34; reflexivity.
Qed.

Lemma markup_html_escape (s : pystr) : markup (html_escape s) = [].
Proof.
  rewrite html_escape_spec.
  induction s as [|c s IH]; simpl; [reflexivity|].
  rewrite markup_app, markup_escape_code, IH; reflexivity.
Qed.

Lemma markup_esc_str (s : pystr) : markup (esc (JStr s)) = [].
Proof. apply markup_html_escape. Qed.

Lemma entities_only_escape_code (c : codepoint) (rest : pystr) :
  entities_only (escape_code c ++ rest) = entities_only rest.
Proof.
  unfold escape_code.
  destruct (N.eqb_spec c 38); [reflexivity|].
  destruct (N.eqb_spec c 60); [reflexivity|].
  destruct (N.eqb_spec c 62); [reflexivity|].
  destruct (N.eqb_spec c 34); [reflexivity|].
  destruct (N.eqb_spec c 39); [reflexivity|].
  simpl. replace (c =? 38)%N with false by (symmetry; apply N.eqb_neq; assumption).
  reflexivity.
Qed.

Lemma entities_only_html_escape (s : pystr) : entities_only (html_escape s) = true.
Proof.
  rewrite html_escape_spec.
  induction s as [|c s IH]; simpl; [reflexivity|].
  rewrite entities_only_escape_code; exact IH.
Qed.

(** Two loops whose bodies keep the markup skeletons of their accumulators
    equal end with results of equal skeleton (or raise the same exception). *)
Lemma for_each_markup {A : Type} (body1 body2 : pystr -> A -> result pystr)
    (l1 l2 : list A) :
  Forall2
    (fun x1 x2 =>
       forall a1 a2, markup a1 = markup a2 ->
         res_map markup (body1 a1 x1) = res_map markup (body2 a2 x2))
    l1 l2 ->
  forall a1 a2, markup a1 = markup a2 ->
    res_map markup (for_each body1 l1 a1) = res_map markup (for_each body2 l2 a2).
Proof.
  induction 1 as [|x1 x2 l1 l2 Hx _ IH]; intros a1 a2 Ha; simpl.
  - rewrite Ha; reflexivity.
  - specialize (Hx a1 a2 Ha).
    destruct (body1 a1 x1) as [b1|e1], (body2 a2 x2) as [b2|e2]; simpl in *;
      try discriminate.
    + apply IH. congruence.
    + exact Hx.
Qed.

Lemma frame_markup (f g : pystr -> pystr) (r1 r2 : result pystr) :
  (forall x y, markup x = markup y -> markup (f x) = markup (g y)) ->
  res_map markup r1 = res_map markup r2 ->
  res_map markup (x <- r1 ;; Ok (f x)) = res_map markup (y <- r2 ;; Ok (g y)).
Proof.
  intros Hf Hr. destruct r1 as [x|e1], r2 as [y|e2]; simpl in *; try discriminate.
  - f_equal. apply Hf. congruence.
  - exact Hr.
Qed.

Lemma enumerate_twins (items : list pystr) :
  Forall2 twin (enumerate (map JStr items))
               (enumerate (map (fun _ => JStr []) items)).
Proof.
  unfold enumerate. rewrite !length_map. generalize 0 as k.
  induction items as [|s items IH]; intros k; simpl; constructor.
  - split; [reflexivity|]. exists s; split; reflexivity.
  - apply IH.
Qed.

(** One step of evaluation of the monadic plumbing, templates left folded. *)
Ltac run :=
  cbn beta iota delta [bind res_map py_iter as_str py_str fst snd].

Ltac markup_norm :=
  repeat rewrite markup_app; repeat rewrite markup_esc_str.

(** A loop over the items of a list of strings and the same loop over the
    blanked list. *)
Lemma twins_loop (body : pystr -> nat * json -> result pystr) (items : list pystr) :
  (forall i s a1 a2, markup a1 = markup a2 ->
     res_map markup (body a1 (i, JStr s)) = res_map markup (body a2 (i, JStr []))) ->
  res_map markup (for_each body (enumerate (map JStr items)) [])
  = res_map markup (for_each body (enumerate (map (fun _ => JStr []) items)) []).
Proof.
  intros Hb. apply for_each_markup; [|reflexivity].
  eapply Forall2_impl; [|apply enumerate_twins].
  intros [i x] [j y] [Hi [s [Hx Hy]]] a1 a2 Ha; simpl in *; subst.
  apply Hb; assumption.
Qed.

Lemma markup_wrap_explanation (text : pystr) :
  markup (wrap_explanation (JStr text)) = markup (wrap_explanation (JStr [])).
Proof. unfold wrap_explanation. markup_norm. reflexivity. Qed.

Lemma markup_wrap_question (text text' : pystr) (card_type : json) (n : nat) :
  contains (lit "select") (str_lower text') = contains (lit "select") (str_lower text) ->
  res_map markup (wrap_question (JStr text') card_type n)
  = res_map markup (wrap_question (JStr text) card_type n).
Proof.
  intros H. unfold wrap_question, question_frame. run. rewrite H. run.
  markup_norm. reflexivity.
Qed.

Lemma markup_wrap_options_single (options : list pystr) :
  res_map markup (wrap_options_single (strs options))
  = res_map markup (wrap_options_single (blanks options)).
Proof.
  unfold wrap_options_single, strs, blanks; run.
  apply frame_markup.
  - intros x y H. unfold options_frame. markup_norm. rewrite H. reflexivity.
  - apply twins_loop. intros i s a1 a2 H.
    run. destruct (py_chr (65 + i)); run; [|reflexivity].
    unfold option_item_single. markup_norm. rewrite H. reflexivity.
Qed.

Lemma markup_wrap_options_multi (options : list pystr) :
  res_map markup (wrap_options_multi (strs options))
  = res_map markup (wrap_options_multi (blanks options)).
Proof.
  unfold wrap_options_multi, strs, blanks; run.
  apply frame_markup.
  - intros x y H. unfold options_frame. markup_norm. rewrite H. reflexivity.
  - apply twins_loop. intros i s a1 a2 H.
    run. destruct (py_chr (65 + i)); run; [|reflexivity].
    unfold option_item_multi. markup_norm. rewrite H. reflexivity.
Qed.

Lemma markup_wrap_order_items (items : list pystr) :
  res_map markup (wrap_order_items (strs items))
  = res_map markup (wrap_order_items (blanks items)).
Proof.
  unfold wrap_order_items, strs, blanks; run.
  apply frame_markup.
  - intros x y H. markup_norm. rewrite H. reflexivity.
  - apply twins_loop. intros i s a1 a2 H; run.
    unfold order_item. markup_norm. rewrite H. reflexivity.
Qed.

Lemma markup_wrap_answer_ordering (items : list pystr) :
  res_map markup (wrap_answer_ordering (strs items))
  = res_map markup (wrap_answer_ordering (blanks items)).
Proof.
  unfold wrap_answer_ordering, strs, blanks; run.
  apply frame_markup.
  - intros x y H. markup_norm. rewrite H. reflexivity.
  - apply twins_loop. intros i s a1 a2 H; run.
    unfold answer_order_item. markup_norm. rewrite H. reflexivity.
Qed.

Lemma markup_wrap_code_hotarea (code_lines : list pystr) (language : pystr) :
  res_map markup (wrap_code_hotarea (strs code_lines) (JStr language))
  = res_map markup (wrap_code_hotarea (blanks code_lines) (JStr [])).
Proof.
  unfold wrap_code_hotarea, strs, blanks; run.
  apply frame_markup.
  - intros x y H. markup_norm. rewrite H. reflexivity.
  - apply twins_loop. intros i s a1 a2 H; run.
    unfold code_line. markup_norm. rewrite H. reflexivity.
Qed.

Lemma markup_wrap_answer_code_hotarea (code_lines : list pystr) (errors : list Z) :
  res_map markup (wrap_answer_code_hotarea (strs code_lines) errors)
  = res_map markup (wrap_answer_code_hotarea (blanks code_lines) errors).
Proof.
  unfold wrap_answer_code_hotarea, strs, blanks; run.
  apply frame_markup.
  - intros x y H. markup_norm. rewrite H. reflexivity.
  - apply twins_loop. intros i s a1 a2 H; run.
    unfold answer_code_line. markup_norm. rewrite H. reflexivity.
Qed.

Lemma markup_key_point_items (points : list pystr) :
  markup (List.concat (map key_point_item (map JStr points)))
  = markup (List.concat (map key_point_item (map (fun _ => JStr []) points))).
Proof.
  induction points as [|p points IH]; cbn [map List.concat]; [reflexivity|].
  rewrite !markup_app, IH. unfold key_point_item.
  rewrite !markup_app, !markup_esc_str. reflexivity.
Qed.

Lemma markup_wrap_key_points (points : list pystr) :
  res_map markup (wrap_key_points (strs points))
  = res_map markup (wrap_key_points (blanks points)).
Proof.
  unfold wrap_key_points, strs, blanks; run.
  rewrite !markup_app, markup_key_point_items. reflexivity.
Qed.

(* ----------------------------------------------------------------- *)
(** *** Looking an option up by the answer letter *)

(** On a list the guarded lookup never leaves the list: it cannot raise. *)
Lemma option_at_list (options : list json) (idx : Z) :
  option_at (JList options) idx = Ok (option_text_at options idx).
Proof.
  unfold option_at, option_text_at.
  destruct (0 <=? idx)%Z eqn:Hlo; cbn [andb]; [|reflexivity].
  cbn [py_len bind].
  destruct (idx <? Z.of_nat (List.length options))%Z eqn:Hhi; [|reflexivity].
  apply Z.leb_le in Hlo. pose proof Hhi as Hlt. apply Z.ltb_lt in Hlt.
  cbn [py_getitem_int]. unfold seq_index.
  replace (idx <? 0)%Z with false by (symmetry; apply Z.ltb_ge; lia).
  replace (0 <=? idx)%Z with true by (symmetry; apply Z.leb_le; lia).
  rewrite Hhi. cbn [andb].
  rewrite (nth_error_nth' options (JStr [])) by lia. reflexivity.
Qed.

Lemma option_text_at_strs (options : list pystr) (idx : Z) :
  exists t, option_text_at (map JStr options) idx = JStr t.
Proof.
  unfold option_text_at.
  destruct ((0 <=? idx)%Z && (idx <? Z.of_nat (List.length (map JStr options)))%Z);
    [|exists []; reflexivity].
  exists (nth (Z.to_nat idx) options []).
  change (JStr []) with (JStr (@nil codepoint)). apply map_nth.
Qed.

Lemma option_text_at_blanks (options : list pystr) (idx : Z) :
  option_text_at (map (fun _ => JStr []) options) idx = JStr [].
Proof.
  unfold option_text_at.
  destruct ((0 <=? idx)%Z && _); [|reflexivity].
  generalize (Z.to_nat idx) as k. induction options as [|o options IH]; intros [|k];
    simpl; auto.
Qed.

Lemma markup_wrap_answer_single (letter : json) (options : list pystr) :
  res_map markup (wrap_answer_single letter (strs options))
  = res_map markup (wrap_answer_single letter (blanks options)).
Proof.
  unfold wrap_answer_single, strs, blanks.
  destruct (letter_index letter) as [idx|e]; cbn [bind res_map]; [|reflexivity].
  rewrite !option_at_list, option_text_at_blanks.
  destruct (option_text_at_strs options idx) as [t ->].
  cbn [bind res_map]. apply f_equal.
  unfold answer_single_frame.
  change (truthy (JStr [])) with false.
  destruct (truthy (JStr t)); markup_norm; [|reflexivity].
  change (markup (lit " (")) with (@nil codepoint).
  change (markup (lit ")")) with (@nil codepoint).
  cbn [app]. rewrite app_nil_r. reflexivity.
Qed.

Lemma Forall2_diag {A : Type} (R : A -> A -> Prop) (l : list A) :
  (forall x, R x x) -> Forall2 R l l.
Proof. intros HR. induction l; constructor; auto. Qed.

Lemma markup_wrap_answer_multi (letters : json) (options : list pystr) :
  res_map markup (wrap_answer_multi letters (strs options))
  = res_map markup (wrap_answer_multi letters (blanks options)).
Proof.
  unfold wrap_answer_multi, strs, blanks.
  destruct (py_iter letters) as [ls|e]; cbn [bind res_map]; [|reflexivity].
  assert (Hloop :
    res_map markup
      (for_each
         (fun items letter =>
            idx <- letter_index letter ;;
            option_text <- option_at (JList (map JStr options)) idx ;;
            Ok (items ++ answer_multi_item letter option_text)) ls [])
    = res_map markup
        (for_each
           (fun items letter =>
              idx <- letter_index letter ;;
              option_text <- option_at (JList (map (fun _ => JStr []) options)) idx ;;
              Ok (items ++ answer_multi_item letter option_text)) ls [])).
  { apply for_each_markup; [|reflexivity].
    apply Forall2_diag. intros letter a1 a2 Ha.
    destruct (letter_index letter) as [idx|e]; cbn [bind res_map]; [|reflexivity].
    rewrite !option_at_list, option_text_at_blanks.
    destruct (option_text_at_strs options idx) as [t ->].
    cbn [bind res_map]. apply f_equal. unfold answer_multi_item.
    markup_norm. rewrite Ha. reflexivity. }
  destruct (for_each _ ls []) as [x|e1], (for_each _ ls []) as [y|e2];
    cbn [bind res_map] in *; try discriminate; [|exact Hloop].
  destruct (py_len letters); cbn [bind res_map]; [|reflexivity].
  apply f_equal. markup_norm. congruence.
Qed.

(* ----------------------------------------------------------------- *)
(** *** Properties of the renderers *)

Lemma eq_str_true (v : json) (s : pystr) : eq_str v s = true -> v = JStr s.
Proof.
  destruct v; cbn [eq_str]; try discriminate.
  intros H. apply pystr_eqb_eq in H. congruence.
Qed.

Ltac bind_inv H :=
  match type of H with
  | bind ?r _ = Ok _ =>
      let E := fresh "E" in
      destruct r eqn:E; cbn [bind] in H; [|discriminate H]
  end.

(** The Question field of a note is the question renderer's fragment for
    the card's question, its type (single-choice when absent) and the number
    of elements of its answer when that is a list. *)
Lemma question_field_of_note (d : list (pystr * json)) (deck_name note : json) :
  card_to_note (JDict d) deck_name = Ok note ->
  exists question fragment,
    dict_get d (lit "question") = Some question
    /\ wrap_question question
         (get_or d (lit "type") (JStr (lit "single-choice")))
         (if is_list (get_or d (lit "answer") (JStr []))
          then List.length (list_items (get_or d (lit "answer") (JStr [])))
          else 0)
       = Ok fragment
    /\ note_field note (lit "Question") = Some (JStr fragment).
Proof.
  intros H. unfold card_to_note in H. bind_inv H.
  cbn [py_get py_getitem_key bind] in H.
  destruct (dict_get d (lit "question")) as [question|] eqn:Hq;
    cbn [bind] in H; [|discriminate H].
  bind_inv H. bind_inv H.
  match goal with
  | p : (_ * _ * _ * _)%type |- _ => destruct p as [[[o ans] oi] c]
  end.
  do 5 bind_inv H. cbn [py_get bind] in H. injection H as <-.
  exists question. eexists. split; [reflexivity|]. split; [eassumption|reflexivity].
Qed.

(** The hint of [wrap_question] by card type. *)
Lemma question_hint_cases (text : pystr) (n : nat) :
  let escaped := esc (JStr text) in
  let mentions_select := contains (lit "select") (str_lower text) in
  wrap_question (JStr text) (JStr (lit "single-choice")) n
    = Ok (question_frame escaped [])
  /\ (mentions_select = true ->
      wrap_question (JStr text) (JStr (lit "multi-select")) n
        = Ok (question_frame escaped []))
  /\ (mentions_select = false ->
      wrap_question (JStr text) (JStr (lit "multi-select")) n
        = Ok (question_frame escaped
                (HINT_STYLE ++ lit "Select " ++ str_of_nat n
                 ++ (if (1 <? n)%nat then lit " answers" else lit " answer")
                 ++ lit "</div>")))
  /\ wrap_question (JStr text) (JStr (lit "ordering")) n
       = Ok (question_frame escaped
               (HINT_STYLE ++ lit "Drag or use arrows to arrange in correct order</div>"))
  /\ wrap_question (JStr text) (JStr (lit "code-hotarea")) n
       = Ok (question_frame escaped
               (HINT_STYLE ++ lit "Click on the line(s) with errors</div>")).
Proof.
  intros escaped mentions_select. subst escaped mentions_select.
  unfold wrap_question. run.
  change (eq_str (JStr (lit "single-choice")) (lit "multi-select")) with false.
  change (eq_str (JStr (lit "single-choice")) (lit "ordering")) with false.
  change (eq_str (JStr (lit "single-choice")) (lit "code-hotarea")) with false.
  change (eq_str (JStr (lit "multi-select")) (lit "multi-select")) with true.
  change (eq_str (JStr (lit "ordering")) (lit "multi-select")) with false.
  change (eq_str (JStr (lit "ordering")) (lit "ordering")) with true.
  change (eq_str (JStr (lit "code-hotarea")) (lit "multi-select")) with false.
  change (eq_str (JStr (lit "code-hotarea")) (lit "ordering")) with false.
  change (eq_str (JStr (lit "code-hotarea")) (lit "code-hotarea")) with true.
  cbn [andb negb].
  split; [reflexivity|].
  split; [intros ->; reflexivity|].
  split; [|split; reflexivity].
  intros ->. cbn [negb]. do 2 apply f_equal.
  do 3 apply f_equal.
  destruct (1 <? n)%nat; reflexivity.
Qed.

(** C4, as the code has it. The hint is omitted for a single-choice card and
    for a multi-select card whose text mentions select (in any letter case);
    it is present for a multi-select card whose text does not mention it,
    where it reads Select N answers when N > 1 and Select N answer when N is
    0 or 1, for an ordering card and for a code-hotarea card. In the note
    built from a card the question fragment is rendered with the card's type
    (single-choice when absent) and with N the length of its answer list. *)
Theorem question_hint_by_type (text : pystr) (n : nat) :
  let escaped := esc (JStr text) in
  let mentions_select := contains (lit "select") (str_lower text) in
  wrap_question (JStr text) (JStr (lit "single-choice")) n
    = Ok (question_frame escaped [])
  /\ (mentions_select = true ->
      wrap_question (JStr text) (JStr (lit "multi-select")) n
        = Ok (question_frame escaped []))
  /\ (mentions_select = false ->
      wrap_question (JStr text) (JStr (lit "multi-select")) n
        = Ok (question_frame escaped
                (HINT_STYLE ++ lit "Select " ++ str_of_nat n
                 ++ (if (1 <? n)%nat then lit " answers" else lit " answer")
                 ++ lit "</div>")))
  /\ wrap_question (JStr text) (JStr (lit "ordering")) n
       = Ok (question_frame escaped
               (HINT_STYLE ++ lit "Drag or use arrows to arrange in correct order</div>"))
  /\ wrap_question (JStr text) (JStr (lit "code-hotarea")) n
       = Ok (question_frame escaped
               (HINT_STYLE ++ lit "Click on the line(s) with errors</div>"))
  /\ (forall d deck_name note,
        card_to_note (JDict d) deck_name = Ok note ->
        exists question fragment,
          dict_get d (lit "question") = Some question
          /\ wrap_question question
               (get_or d (lit "type") (JStr (lit "single-choice")))
               (if is_list (get_or d (lit "answer") (JStr []))
                then List.length (list_items (get_or d (lit "answer") (JStr [])))
                else 0)
             = Ok fragment
          /\ note_field note (lit "Question") = Some (JStr fragment)).
Proof.
  intros escaped mentions_select.
  pose proof (question_hint_cases text n) as Hcases. cbv zeta in Hcases.
  destruct Hcases as (Hsingle & Hmention & Hselect & Hordering & Hcode).
  subst escaped mentions_select.
  split; [exact Hsingle|]. split; [exact Hmention|]. split; [exact Hselect|].
  split; [exact Hordering|]. split; [exact Hcode|].
  exact question_field_of_note.
Qed.

Lemma take_until_quote (s rest : pystr) :
  markup s = [] -> take_until 34%N (s ++ 34%N :: rest) = Some s.
Proof.
  induction s as [|x s IH]; intros Hs; cbn [app take_until].
  - reflexivity.
  - unfold markup in Hs. cbn [filter] in Hs.
    destruct (is_raw x) eqn:Hx; [discriminate|].
    destruct (N.eqb_spec x 34) as [->|_]; [discriminate|].
    rewrite (IH Hs). reflexivity.
Qed.

Lemma text_after_reference_head (rest : pystr) :
  text_after (lit "<a href=`") (REFERENCE_HEAD ++ rest) = Some rest.
Proof. vm_compute. reflexivity. Qed.

Lemma href_of_wrap_reference (url' : pystr) :
  href_of
    (lit "<div style=`" ++ REFERENCE_BOX
     ++ lit "`><span style=`color: #c084fc; font-weight: bold; font-size: 18px;`>&#128279; Reference:</span><br><a href=`"
     ++ esc (JStr url')
     ++ lit "` style=`color: #a78bfa; text-decoration: underline;` target=`_blank`>"
     ++ esc (JStr url') ++ lit "</a></div>")
  = Some (esc (JStr url')).
Proof.
  unfold href_of.
  rewrite (app_assoc (lit "<div style=`")), (app_assoc (_ ++ REFERENCE_BOX)).
  change ((lit "<div style=`" ++ REFERENCE_BOX) ++ ?x) with REFERENCE_HEAD.
  rewrite text_after_reference_head.
  change (lit "` style=`color: #a78bfa; text-decoration: underline;` target=`_blank`>")
    with (34%N :: lit " style=`color: #a78bfa; text-decoration: underline;` target=`_blank`>").
  apply take_until_quote, markup_esc_str.
Qed.

(** C5. A reference that does not start with http:// or https:// is rendered
    exactly as the placeholder [#] is: the anchor's target is [#] and the
    fragment does not depend on the value given. A reference that starts with
    one of the two prefixes is the anchor's target, escaped. *)
Theorem reference_target (url : pystr) :
  let allowed := starts_with (lit "http://") url || starts_with (lit "https://") url in
  exists out,
    wrap_reference (JStr url) = Ok out
    /\ (allowed = false ->
        href_of out = Some (lit "#")
        /\ wrap_reference (JStr url) = wrap_reference (JStr (lit "#")))
    /\ (allowed = true -> href_of out = Some (esc (JStr url))).
Proof.
  intros allowed. subst allowed. unfold wrap_reference. run.
  change (starts_with (lit "http://") (lit "#") || starts_with (lit "https://") (lit "#"))
    with false.
  eexists. split; [reflexivity|].
  destruct (starts_with (lit "http://") url || starts_with (lit "https://") url);
    cbn [negb]; split; intros H; try discriminate.
  - apply href_of_wrap_reference.
  - split; [|reflexivity].
    rewrite href_of_wrap_reference. reflexivity.
Qed.


(* ----------------------------------------------------------------- *)
(** *** Validation *)

Lemma existsb_dict_keys (d : list (pystr * json)) (k : pystr) :
  existsb (pystr_eqb k) (dict_keys d) = has_key d k.
Proof.
  unfold has_key. induction d as [|[k' v] d IH]; cbn [dict_keys dict_get existsb].
  - reflexivity.
  - destruct (pystr_eqb k' k) eqn:E.
    + apply pystr_eqb_eq in E; subst. rewrite pystr_eqb_refl. reflexivity.
    + assert (E' : pystr_eqb k k' = false).
      { apply pystr_eqb_neq. apply pystr_eqb_neq in E. congruence. }
      rewrite E'. cbn [orb]. rewrite <- IH.
      generalize (dict_keys d) as l. induction l as [|x l IHl]; cbn [filter existsb].
      * reflexivity.
      * destruct (pystr_eqb k' x) eqn:Ex; cbn [negb existsb].
        -- apply pystr_eqb_eq in Ex; subst x. rewrite E'. exact IHl.
        -- rewrite IHl. reflexivity.
Qed.

Lemma validate_card_dict (d : list (pystr * json)) :
  validate_card (JDict d)
  = let card_id := get_or d (lit "id") (JStr (lit "unknown")) in
    if negb (is_empty (missing_fields d)) then
      Err (ValueError (Card_missing_required_fields card_id (missing_fields d)))
    else
      let card_type := get_or d (lit "type") (JStr (lit "single-choice")) in
      let answer := get_or d (lit "answer") JNull in
      if eq_str card_type (lit "multi-select") then
        if not_list_of is_str answer then
          Err (ValueError (Card_answer_must_be_a_list_of card_id (lit "multi-select") (lit "strings")))
        else Ok tt
      else if eq_str card_type (lit "ordering") then
        if not_list_of is_int answer then
          Err (ValueError (Card_answer_must_be_a_list_of card_id (lit "ordering") (lit "ints")))
        else Ok tt
      else if eq_str card_type (lit "code-hotarea") then
        if not_list_of is_int answer then
          Err (ValueError (Card_answer_must_be_a_list_of card_id (lit "code-hotarea") (lit "ints")))
        else Ok tt
      else Ok tt.
Proof.
  unfold validate_card, missing_fields, get_or.
  cbn [py_get py_keys bind].
  erewrite filter_ext; [reflexivity|].
  intros f. cbv beta. rewrite existsb_dict_keys. reflexivity.
Qed.

Lemma missing_fields_spec (d : list (pystr * json)) (f : pystr) :
  In f (missing_fields d) <-> In f REQUIRED_CARD_FIELDS /\ has_key d f = false.
Proof.
  unfold missing_fields. rewrite filter_In, negb_true_iff. reflexivity.
Qed.

Lemma missing_fields_nil (d : list (pystr * json)) :
  (forall f, In f REQUIRED_CARD_FIELDS -> has_key d f = true) ->
  missing_fields d = [].
Proof.
  intros H. destruct (missing_fields d) as [|f l] eqn:E; [reflexivity|].
  assert (Hin : In f (missing_fields d)) by (rewrite E; left; reflexivity).
  apply missing_fields_spec in Hin. destruct Hin as [Hreq Hno].
  rewrite (H f Hreq) in Hno. discriminate.
Qed.

Lemma validate_card_missing (d : list (pystr * json)) (f : pystr) :
  In f REQUIRED_CARD_FIELDS -> has_key d f = false ->
  validate_card (JDict d)
  = Err (ValueError
           (Card_missing_required_fields
              (get_or d (lit "id") (JStr (lit "unknown"))) (missing_fields d))).
Proof.
  intros Hreq Hno. rewrite validate_card_dict. cbv zeta.
  destruct (missing_fields d) as [|g l] eqn:E; [|reflexivity].
  assert (Hin : In f (missing_fields d)) by (apply missing_fields_spec; auto).
  rewrite E in Hin. destruct Hin.
Qed.

Lemma validate_card_not_dict (card : json) :
  (forall d, card <> JDict d) -> validate_card card = Err AttributeError.
Proof.
  intros H. destruct card; try reflexivity. exfalso. eapply H. reflexivity.
Qed.

(** C9, as the code has it. A card that has the four required fields and a
    string for its question, and whose type is present but is none of the
    four known ones, passes [validate_card]; [card_to_note] then raises the
    ValueError that names the unknown type, so no note is built. *)
Theorem unknown_type_is_rejected_by_the_builder
    (d : list (pystr * json)) (card_type : json) (question : pystr) (deck_name : json) :
  (forall f, In f REQUIRED_CARD_FIELDS -> has_key d f = true) ->
  dict_get d (lit "type") = Some card_type ->
  dict_get d (lit "question") = Some (JStr question) ->
  eq_str card_type (lit "single-choice") = false ->
  eq_str card_type (lit "multi-select") = false ->
  eq_str card_type (lit "ordering") = false ->
  eq_str card_type (lit "code-hotarea") = false ->
  validate_card (JDict d) = Ok tt
  /\ card_to_note (JDict d) deck_name = Err (ValueError (Unknown_card_type card_type)).
Proof.
  intros Hreq Htype Hq H1 H2 H3 H4.
  assert (Hv : validate_card (JDict d) = Ok tt).
  { rewrite validate_card_dict. cbv zeta.
    rewrite (missing_fields_nil _ Hreq). unfold get_or. rewrite Htype.
    cbn [is_empty negb]. rewrite H2, H3, H4. reflexivity. }
  split; [exact Hv|].
  unfold card_to_note. rewrite Hv.
  cbn [bind py_get py_getitem_key]. rewrite Htype, Hq.
  unfold wrap_question. run.
  rewrite H1, H2, H3, H4. reflexivity.
Qed.

(* ----------------------------------------------------------------- *)
(** *** The note built from a card *)

Lemma note_record_fields deck_name card_type q o a e k r oi c tags :
  map fst (note_fields (note_record deck_name card_type q o a e k r oi c tags))
  = [lit "Type"; lit "Question"; lit "Options"; lit "Answer"; lit "Explanation";
     lit "KeyPoints"; lit "Reference"; lit "OrderItems"; lit "CodeBlock"]
  /\ note_field (note_record deck_name card_type q o a e k r oi c tags) (lit "Type")
     = Some card_type
  /\ note_field (note_record deck_name card_type q o a e k r oi c tags) (lit "Options")
     = Some (JStr o)
  /\ note_field (note_record deck_name card_type q o a e k r oi c tags) (lit "OrderItems")
     = Some (JStr oi)
  /\ note_field (note_record deck_name card_type q o a e k r oi c tags) (lit "CodeBlock")
     = Some (JStr c).
Proof. repeat split; reflexivity. Qed.

(** The four branches of the dispatch on the card type: what each leaves
    empty. *)
Lemma dispatch_inv (card_type options order_items code_lines language answer : json)
    (o a oi c : pystr) :
  (if eq_str card_type (lit "single-choice") then
     options_html <- wrap_options_single options ;;
     answer_html <- wrap_answer_single answer options ;;
     Ok (options_html, answer_html, [], [])
   else if eq_str card_type (lit "multi-select") then
     options_html <- wrap_options_multi options ;;
     answer_html <- wrap_answer_multi answer options ;;
     Ok (options_html, answer_html, [], [])
   else if eq_str card_type (lit "ordering") then
     answer_html <- wrap_answer_ordering order_items ;;
     order_html <- wrap_order_items order_items ;;
     Ok ([], answer_html, order_html, [])
   else if eq_str card_type (lit "code-hotarea") then
     answer_html <- wrap_answer_code_hotarea code_lines (int_values answer) ;;
     code_html <- wrap_code_hotarea code_lines language ;;
     Ok ([], answer_html, [], code_html)
   else Err (ValueError (Unknown_card_type card_type))) = Ok (o, a, oi, c) ->
  (card_type = JStr (lit "single-choice") /\ oi = [] /\ c = [])
  \/ (card_type = JStr (lit "multi-select") /\ oi = [] /\ c = [])
  \/ (card_type = JStr (lit "ordering") /\ o = [] /\ c = [])
  \/ (card_type = JStr (lit "code-hotarea") /\ o = [] /\ oi = []).
Proof.
  intros H.
  destruct (eq_str card_type (lit "single-choice")) eqn:T1.
  { apply eq_str_true in T1. do 2 bind_inv H. injection H as <- <- <- <-. auto. }
  destruct (eq_str card_type (lit "multi-select")) eqn:T2.
  { apply eq_str_true in T2. do 2 bind_inv H. injection H as <- <- <- <-. auto. }
  destruct (eq_str card_type (lit "ordering")) eqn:T3.
  { apply eq_str_true in T3. do 2 bind_inv H. injection H as <- <- <- <-. auto 6. }
  destruct (eq_str card_type (lit "code-hotarea")) eqn:T4; [|discriminate].
  apply eq_str_true in T4. do 2 bind_inv H. injection H as <- <- <- <-. auto 6.
Qed.

(** C6. A note built from a card has exactly the nine fields of the model,
    its Type field is one of the four card types, and the fields that do not
    apply to that type hold the empty string: OrderItems and CodeBlock for
    single-choice and multi-select, Options and CodeBlock for ordering,
    Options and OrderItems for code-hotarea. *)
Theorem note_has_the_nine_model_fields (card deck_name note : json) :
  card_to_note card deck_name = Ok note ->
  Permutation (map fst (note_fields note)) MODEL_FIELDS
  /\ exists card_type,
       note_field note (lit "Type") = Some (JStr card_type)
       /\ In card_type CARD_TYPES
       /\ (card_type = lit "single-choice" \/ card_type = lit "multi-select" ->
           note_field note (lit "OrderItems") = Some (JStr [])
           /\ note_field note (lit "CodeBlock") = Some (JStr []))
       /\ (card_type = lit "ordering" ->
           note_field note (lit "Options") = Some (JStr [])
           /\ note_field note (lit "CodeBlock") = Some (JStr []))
       /\ (card_type = lit "code-hotarea" ->
           note_field note (lit "Options") = Some (JStr [])
           /\ note_field note (lit "OrderItems") = Some (JStr [])).
Proof.
  intros H. unfold card_to_note in H.
  bind_inv H.
  destruct card as [| | | | | |d]; try discriminate E.
  cbn [py_get py_getitem_key bind] in H.
  do 3 bind_inv H.
  match goal with
  | p : (_ * _ * _ * _)%type |- _ => destruct p as [[[o ans] oi] c]
  end.
  match goal with
  | E' : (if _ then _ else _) = Ok _ |- _ =>
      apply dispatch_inv in E'; rename E' into Hbranch
  end.
  do 5 bind_inv H. cbn [py_get bind] in H.
  injection H as <-.
  match goal with
  | |- context [note_record ?dn ?ct ?q ?o' ?a' ?e ?k ?r ?oi' ?c' ?tg] =>
      destruct (note_record_fields dn ct q o' a' e k r oi' c' tg)
        as (Hkeys & Hty & Hop & Hoi & Hcb)
  end.
  rewrite Hkeys, Hty, Hop, Hoi, Hcb.
  split; [apply perm_swap|].
  destruct Hbranch as [(-> & -> & ->)|[(-> & -> & ->)|[(-> & -> & ->)|(-> & -> & ->)]]];
    eexists; (split; [reflexivity|]);
    (split; [cbn [CARD_TYPES In]; tauto|]);
    (split; [intros Hx|split; intros Hx]);
    first [ split; reflexivity
          | exfalso; clear - Hx; try (destruct Hx as [Hx|Hx]);
            vm_compute in Hx; discriminate Hx ].
Qed.

(* ----------------------------------------------------------------- *)
(** *** The API client *)

Lemma anki_request_dict (action : pystr) (params body : list (pystr * json))
    (log : list json) :
  server log (request_payload action params) = Answered (JDict body) ->
  anki_request action params log
  = (let error := get_or body (lit "error") JNull in
     if truthy error then Err (RuntimeError (AnkiConnect_error error))
     else py_getitem_key (JDict body) (lit "result"),
     log ++ [request_payload action params]).
Proof.
  intros H. unfold anki_request, io_bind, http_post, io_lift. rewrite H.
  cbn [py_get]. fold (get_or body (lit "error") JNull). cbv zeta.
  destruct (truthy (get_or body (lit "error") JNull)); reflexivity.
Qed.

Lemma anki_request_log (action : pystr) (params : list (pystr * json)) (log : list json) :
  snd (anki_request action params log) = log ++ [request_payload action params].
Proof.
  unfold anki_request, io_bind, http_post, io_lift.
  destruct (server log (request_payload action params)) as [body|e]; [|reflexivity].
  destruct (py_get body (lit "error") JNull) as [error|e]; [|reflexivity].
  destruct (truthy error); reflexivity.
Qed.

Lemma anki_request_addnotes_dict (notes : list json) (body : list (pystr * json))
    (log : list json) :
  server log (addnotes_payload notes) = Answered (JDict body) ->
  anki_request_addnotes notes log
  = (let error := get_or body (lit "error") JNull in
     if truthy error && negb (is_list error)
     then Err (RuntimeError (AnkiConnect_error error))
     else Ok (get_or body (lit "result") (JList [])),
     log ++ [addnotes_payload notes]).
Proof.
  intros H. unfold anki_request_addnotes, io_bind, http_post, io_lift.
  fold (addnotes_payload notes). rewrite H.
  cbn [py_get]. fold (get_or body (lit "error") JNull). cbv zeta.
  destruct (truthy (get_or body (lit "error") JNull)
            && negb (is_list (get_or body (lit "error") JNull))); reflexivity.
Qed.

Lemma anki_request_addnotes_log (notes : list json) (log : list json) :
  snd (anki_request_addnotes notes log) = log ++ [addnotes_payload notes].
Proof.
  unfold anki_request_addnotes, io_bind, http_post, io_lift.
  fold (addnotes_payload notes).
  destruct (server log (addnotes_payload notes)) as [body|e]; [|reflexivity].
  destruct (py_get body (lit "error") JNull) as [error|e]; [|reflexivity].
  destruct (truthy error && negb (is_list error)); reflexivity.
Qed.

(** C1, as the code has it. When the server answers a JSON object:
    [anki_request] raises the AnkiConnect RuntimeError exactly when the
    object's error field is truthy (not null, false, zero or empty), whatever
    its shape, a list included; the batch call [anki_request_addnotes] raises
    it exactly when the error field is truthy and is not a list, so a
    list-shaped error is not fatal there. *)
Theorem request_raises_on_truthy_error (body : list (pystr * json)) (log : list json) :
  let error := get_or body (lit "error") JNull in
  (forall action params,
     server log (request_payload action params) = Answered (JDict body) ->
     (truthy error = true ->
      fst (anki_request action params log)
      = Err (RuntimeError (AnkiConnect_error error)))
     /\ (truthy error = false ->
         fst (anki_request action params log)
         = py_getitem_key (JDict body) (lit "result")))
  /\ (forall notes,
        server log (addnotes_payload notes) = Answered (JDict body) ->
        (truthy error = true /\ is_list error = false ->
         fst (anki_request_addnotes notes log)
         = Err (RuntimeError (AnkiConnect_error error)))
        /\ (truthy error = false \/ is_list error = true ->
            fst (anki_request_addnotes notes log)
            = Ok (get_or body (lit "result") (JList [])))).
Proof.
  intros error. subst error. split.
  - intros action params H. rewrite (anki_request_dict _ _ _ _ H). cbn [fst].
    split; intros ->; reflexivity.
  - intros notes H. rewrite (anki_request_addnotes_dict _ _ _ H). cbn [fst].
    split.
    + intros [-> ->]. reflexivity.
    + intros [->| ->]; [reflexivity|]. rewrite andb_false_r. reflexivity.
Qed.

(** C7. When findNotes returns no note id, [delete_deck_cards] returns 0 and
    the only request issued is the findNotes one. When it returns a non-empty
    list, exactly one deleteNotes request follows, carrying those ids, and the
    count returned is the number of ids found (the call returns it as soon as
    the deleteNotes request is answered without error; otherwise it raises
    what that request raises). *)
Theorem delete_deck_cards_calls (deck_name : pystr) (ids log : list json) :
  fst (anki_request (lit "findNotes")
         [ (lit "query", JStr (lit "deck:`" ++ deck_name ++ lit "`")) ] log)
  = Ok (JList ids) ->
  (ids = [] ->
   delete_deck_cards deck_name log = (Ok 0, log ++ [find_payload deck_name]))
  /\ (ids <> [] ->
      snd (delete_deck_cards deck_name log)
      = log ++ [find_payload deck_name; delete_payload (JList ids)]
      /\ fst (delete_deck_cards deck_name log)
         = match fst (anki_request (lit "deleteNotes") [ (lit "notes", JList ids) ]
                        (log ++ [find_payload deck_name])) with
           | Ok _ => Ok (List.length ids)
           | Err e => Err e
           end).
Proof.
  intros Hfind.
  pose proof (anki_request_log (lit "findNotes")
                [ (lit "query", JStr (lit "deck:`" ++ deck_name ++ lit "`")) ] log) as Hlog.
  unfold delete_deck_cards, io_bind.
  destruct (anki_request (lit "findNotes") _ log) as [r log1].
  cbn [fst snd] in Hfind, Hlog. subst r log1.
  fold (find_payload deck_name). split.
  - intros ->. reflexivity.
  - intros Hne. destruct ids as [|id ids]; [congruence|].
    change (truthy (JList (id :: ids))) with true. cbv iota.
    pose proof (anki_request_log (lit "deleteNotes")
                  [ (lit "notes", JList (id :: ids)) ]
                  (log ++ [find_payload deck_name])) as Hlog2.
    destruct (anki_request (lit "deleteNotes") _ (log ++ [find_payload deck_name]))
      as [r2 log2].
    cbn [fst snd] in Hlog2 |- *. subst log2. rewrite <- app_assoc.
    destruct r2; split; reflexivity.
Qed.

(* ----------------------------------------------------------------- *)
(** *** Pushing notes in batches *)

Lemma chunks_succ {A : Type} (b : nat) (l : list A) (m : nat) :
  chunks b l (S m) = firstn b l :: chunks b (skipn b l) m.
Proof.
  unfold chunks. cbn [seq map]. rewrite Nat.mul_0_l. cbn [skipn]. f_equal.
  rewrite <- seq_shift, map_map. apply map_ext. intros k.
  rewrite skipn_skipn. f_equal. f_equal. lia.
Qed.

Lemma chunks_concat {A : Type} (b : nat) (m : nat) :
  forall l : list A, List.length l <= m * b -> List.concat (chunks b l m) = l.
Proof.
  induction m as [|m IH]; intros l Hl.
  - destruct l; [reflexivity|]. cbn in Hl. lia.
  - rewrite chunks_succ. cbn [List.concat]. rewrite IH.
    + apply firstn_skipn.
    + rewrite length_skipn. lia.
Qed.

Lemma chunks_nth {A : Type} (b : nat) (l : list A) (m k : nat) :
  k < m -> nth k (chunks b l m) [] = firstn b (skipn (k * b) l).
Proof.
  intros Hk. unfold chunks.
  rewrite (nth_indep _ [] (firstn b (skipn (0 * b) l)))
    by (rewrite length_map, length_seq; exact Hk).
  rewrite (map_nth (fun k => firstn b (skipn (k * b) l))), seq_nth by exact Hk.
  reflexivity.
Qed.

Lemma chunk_length {A : Type} (b : nat) (l : list A) (k : nat) :
  List.length (firstn b (skipn (k * b) l)) = Nat.min b (List.length l - k * b).
Proof. rewrite length_firstn, length_skipn. reflexivity. Qed.

Lemma batches_chunks (notes : list json) :
  batches notes = chunks BATCH_SIZE notes ((List.length notes + 9) / 10).
Proof.
  unfold batches, chunks, py_range, py_slice. rewrite map_map.
  replace ((List.length notes - 0 + BATCH_SIZE - 1) / BATCH_SIZE)
    with ((List.length notes + 9) / 10)
    by (unfold BATCH_SIZE; f_equal; lia).
  apply map_ext. intros k.
  replace (0 + k * BATCH_SIZE + BATCH_SIZE - (0 + k * BATCH_SIZE)) with BATCH_SIZE by lia.
  reflexivity.
Qed.

Lemma batch_count_bounds (n : nat) :
  n <= (n + 9) / 10 * 10 /\ (n + 9) / 10 * 10 <= n + 9.
Proof.
  pose proof (Nat.mul_succ_div_gt (n + 9) 10 ltac:(lia)).
  pose proof (Nat.Div0.mul_div_le (n + 9) 10).
  lia.
Qed.

Lemma tally_spec (results : list json) (created duplicates : nat) :
  tally results (created, duplicates)
  = (created + created_slots results, duplicates + duplicate_slots results).
Proof.
  unfold tally, created_slots, duplicate_slots.
  revert created duplicates.
  induction results as [|r results IH]; intros created duplicates; cbn [fold_left filter].
  - cbn [List.length]. f_equal; lia.
  - destruct (is_none r); cbn [negb List.length]; rewrite IH; f_equal; lia.
Qed.

Lemma slots_partition (slots : list json) :
  created_slots slots + duplicate_slots slots = List.length slots.
Proof.
  unfold created_slots, duplicate_slots.
  induction slots as [|r slots IH]; cbn [filter]; [reflexivity|].
  destruct (is_none r); cbn [negb List.length]; lia.
Qed.

Lemma tally_app (a b : list json) (counts : nat * nat) :
  tally (a ++ b) counts = tally b (tally a counts).
Proof. unfold tally. apply fold_left_app. Qed.

(** The loop of [push_notes] over any list of start positions. *)
Lemma push_loop (notes : list json) (idxs : list nat) :
  forall (counts : nat * nat) (log : list json) (slotss : list (list json)),
    answered log (map (fun i => py_slice notes i (i + BATCH_SIZE)) idxs) slotss ->
    io_for_each
      (fun counts i =>
         results <~ anki_request_addnotes (py_slice notes i (i + BATCH_SIZE)) ;;
         rs <~ io_lift (py_iter results) ;;
         io_ret (tally rs counts))
      idxs counts log
    = (Ok (tally (List.concat slotss) counts),
       log ++ map addnotes_payload
                (map (fun i => py_slice notes i (i + BATCH_SIZE)) idxs)).
Proof.
  induction idxs as [|i idxs IH]; intros counts log slotss Hans.
  - destruct slotss; [|destruct Hans]. cbn. rewrite app_nil_r. reflexivity.
  - destruct slotss as [|slots slotss]; [destruct Hans|].
    cbn [map answered] in Hans. destruct Hans as [(results & Hres & Hiter) Hrest].
    cbn [io_for_each map]. cbv zeta. unfold io_bind at 1. unfold io_bind at 1.
    pose proof (anki_request_addnotes_log (py_slice notes i (i + BATCH_SIZE)) log) as Hlog.
    destruct (anki_request_addnotes (py_slice notes i (i + BATCH_SIZE)) log) as [r log1].
    cbn [fst snd] in Hres, Hlog. subst r log1.
    unfold io_bind at 1, io_lift at 1. rewrite Hiter. unfold io_ret at 1.
    rewrite (IH _ _ _ Hrest). cbn [List.concat]. rewrite tally_app, <- app_assoc.
    reflexivity.
Qed.

Lemma slots_per_note (bs slotss : list (list json)) :
  Forall2 (fun b slots => List.length slots = List.length b) bs slotss ->
  List.length (List.concat slotss) = List.length (List.concat bs).
Proof.
  induction 1 as [|b slots bs sls Hb _ IH]; [reflexivity|].
  cbn [List.concat]. rewrite !length_app. congruence.
Qed.

(** Whatever the server answers, the requests [push_notes] issues are the
    addNotes requests of the first batches, in order. *)
Lemma push_loop_prefix (notes : list json) (idxs : list nat) :
  forall (counts : nat * nat) (log : list json),
    exists k,
      snd (io_for_each
             (fun counts i =>
                results <~ anki_request_addnotes (py_slice notes i (i + BATCH_SIZE)) ;;
                rs <~ io_lift (py_iter results) ;;
                io_ret (tally rs counts))
             idxs counts log)
      = log ++ map addnotes_payload
                 (firstn k (map (fun i => py_slice notes i (i + BATCH_SIZE)) idxs)).
Proof.
  induction idxs as [|i idxs IH]; intros counts log.
  - exists 0. cbn. rewrite app_nil_r. reflexivity.
  - cbn [io_for_each map]. unfold io_bind at 1. unfold io_bind at 1.
    pose proof (anki_request_addnotes_log (py_slice notes i (i + BATCH_SIZE)) log) as Hlog.
    destruct (anki_request_addnotes (py_slice notes i (i + BATCH_SIZE)) log) as [r log1].
    cbn [snd] in Hlog. subst log1.
    destruct r as [results|e]; [|exists 1; reflexivity].
    unfold io_bind at 1, io_lift at 1.
    destruct (py_iter results) as [rs|e]; [|exists 1; reflexivity].
    unfold io_ret at 1.
    destruct (IH (tally rs counts) (log ++ [addnotes_payload (py_slice notes i (i + BATCH_SIZE))]))
      as [k Hk].
    exists (S k). rewrite Hk, <- app_assoc. reflexivity.
Qed.

(** C2. [push_notes] cuts the notes into consecutive batches of exactly ten,
    except a last one that may be smaller (never empty), and the requests it
    issues are addNotes requests for these batches, one per batch, in order
    (an exception stops the sequence). When the server accepts every batch,
    the call returns after one request per batch, its created count is the
    number of non-null result slots over all batches and its duplicate count
    the number of null ones, so the two add up to the number of slots
    returned; with one slot per submitted note they add up to the number of
    notes. *)
Theorem push_notes_batches (notes log : list json) :
  List.concat (batches notes) = notes
  /\ List.length (batches notes) = (List.length notes + 9) / 10
  /\ (forall k, k + 1 < List.length (batches notes) ->
        List.length (nth k (batches notes) []) = 10)
  /\ (forall k, k < List.length (batches notes) ->
        1 <= List.length (nth k (batches notes) []) <= 10)
  /\ (exists k,
        snd (push_notes notes log)
        = log ++ map addnotes_payload (firstn k (batches notes)))
  /\ forall slotss,
       answered log (batches notes) slotss ->
       exists created duplicates,
         push_notes notes log
         = (Ok (created, duplicates), log ++ map addnotes_payload (batches notes))
         /\ created = created_slots (List.concat slotss)
         /\ duplicates = duplicate_slots (List.concat slotss)
         /\ created + duplicates = List.length (List.concat slotss)
         /\ (Forall2 (fun b slots => List.length slots = List.length b)
               (batches notes) slotss ->
             created + duplicates = List.length notes).
Proof.
  pose proof (batch_count_bounds (List.length notes)) as [Hlo Hhi].
  assert (Hlen : List.length (batches notes) = (List.length notes + 9) / 10).
  { rewrite batches_chunks. unfold chunks. rewrite length_map, length_seq. reflexivity. }
  assert (Hcat : List.concat (batches notes) = notes).
  { rewrite batches_chunks. apply chunks_concat. exact Hlo. }
  split; [exact Hcat|]. split; [exact Hlen|].
  split; [|split; [|split]].
  - intros k Hk. rewrite Hlen in Hk.
    rewrite batches_chunks, chunks_nth by lia. rewrite chunk_length.
    unfold BATCH_SIZE. nia.
  - intros k Hk. rewrite Hlen in Hk.
    rewrite batches_chunks, chunks_nth by lia. rewrite chunk_length.
    unfold BATCH_SIZE. nia.
  - apply push_loop_prefix.
  - intros slotss Hans.
    exists (created_slots (List.concat slotss)), (duplicate_slots (List.concat slotss)).
    split; [|split; [reflexivity|split; [reflexivity|split]]].
    + unfold push_notes. rewrite (push_loop notes _ (0, 0) log slotss Hans).
      rewrite tally_spec. reflexivity.
    + apply slots_partition.
    + intros Hslots. rewrite slots_partition, <- Hcat.
      apply slots_per_note. exact Hslots.
Qed.

(* ----------------------------------------------------------------- *)
(** *** A card that fails validation stops its file *)

Lemma card_to_note_invalid (card deck_name : json) (e : exn) :
  validate_card card = Err e -> card_to_note card deck_name = Err e.
Proof. intros H. unfold card_to_note. rewrite H. reflexivity. Qed.

Lemma for_each_raises {A B : Type} (f : A -> result B) (c : A) (e : exn) (cs : list A) :
  In c cs -> f c = Err e ->
  forall acc : list B,
    exists e',
      for_each (fun notes c => note <- f c ;; Ok (notes ++ [note])) cs acc = Err e'.
Proof.
  intros Hin Hc. induction cs as [|x cs IH]; intros acc; [destruct Hin|].
  cbn [for_each]. destruct Hin as [->|Hin].
  - rewrite Hc. exists e. reflexivity.
  - destruct (f x) as [note|e1]; cbn [bind]; [apply IH; exact Hin|].
    exists e1. reflexivity.
Qed.

(** C8. A card that lacks one of the four required fields fails validation
    with the error that carries the card's id (unknown when it has none) and
    the required fields it lacks. In [process_file] every card is converted
    before anything is pushed, so a file whose card list holds such a card
    ends with an exception and no addNotes request: the log is left as it was
    or grows by the createDeck request only. *)
Theorem missing_required_field_aborts_the_file (d : list (pystr * json)) (f : pystr) :
  In f REQUIRED_CARD_FIELDS -> has_key d f = false ->
  (exists missing,
      validate_card (JDict d)
      = Err (ValueError
               (Card_missing_required_fields
                  (get_or d (lit "id") (JStr (lit "unknown"))) missing))
      /\ In f missing
      /\ forall g, In g missing <-> In g REQUIRED_CARD_FIELDS /\ has_key d g = false)
  /\ forall (data : json) (cards log : list json),
       py_getitem_key data (lit "cards") = Ok (JList cards) ->
       In (JDict d) cards ->
       exists e log',
         process_file (FileData data) log = (Err e, log')
         /\ (log' = log
             \/ exists deck_name,
                 log' = log ++ [request_payload (lit "createDeck")
                                  [ (lit "deck", deck_name) ]]).
Proof.
  intros Hreq Hno.
  pose proof (validate_card_missing d f Hreq Hno) as Hv.
  split.
  - exists (missing_fields d). split; [exact Hv|]. split.
    + apply missing_fields_spec. auto.
    + apply missing_fields_spec.
  - intros data cards log Hcards Hin.
    unfold process_file, io_bind, io_lift.
    destruct (py_getitem_key data (lit "deckName")) as [deck_name|e0];
      [|exists e0, log; auto].
    rewrite Hcards. cbn [py_iter].
    destruct (type_summary cards) as [summary|e1]; [|exists e1, log; auto].
    cbn [py_len].
    destruct (py_print (summary_line deck_name (List.length cards) summary))
      as [[]|e4]; [|exists e4, log; auto].
    pose proof (anki_request_log (lit "createDeck") [ (lit "deck", deck_name) ] log)
      as Hlog.
    unfold ensure_deck, io_bind, io_ret.
    destruct (anki_request (lit "createDeck") _ log) as [r log1].
    cbn [snd] in Hlog. subst log1.
    destruct r as [created|e2]; [|exists e2; eexists; split; [reflexivity|eauto]].
    destruct (for_each_raises (fun c => card_to_note c deck_name) (JDict d) _ cards Hin
                (card_to_note_invalid _ deck_name _ Hv) []) as [e3 He3].
    rewrite He3. exists e3. eexists. split; [reflexivity|eauto].
Qed.

(* ----------------------------------------------------------------- *)
(** *** Further properties: validation and the note *)

(** X1. A card that is a JSON object passes [validate_card] exactly when it
    has the four required fields and its answer has the shape its type asks
    for: a list of strings for multi-select, a list of ints (booleans
    included) for ordering and code-hotarea, anything for any other type. *)
Theorem validate_card_accepts (d : list (pystr * json)) :
  validate_card (JDict d) = Ok tt
  <-> (forall f, In f REQUIRED_CARD_FIELDS -> has_key d f = true)
      /\ answer_shape_ok (get_or d (lit "type") (JStr (lit "single-choice")))
                         (get_or d (lit "answer") JNull) = true.
Proof.
  rewrite validate_card_dict. cbv zeta. unfold answer_shape_ok, not_list_of.
  split.
  - intros H.
    destruct (missing_fields d) as [|g l] eqn:Hmiss; [|discriminate H].
    split.
    + intros f Hf. destruct (has_key d f) eqn:Hk; [reflexivity|].
      assert (Hin : In f (missing_fields d)) by (apply missing_fields_spec; auto).
      rewrite Hmiss in Hin. destruct Hin.
    + cbn [is_empty negb] in H.
      destruct (eq_str _ (lit "multi-select")).
      { destruct (is_list _); cbn [negb orb andb] in *; [|discriminate H].
        destruct (forallb is_str _); [reflexivity|discriminate H]. }
      destruct (eq_str _ (lit "ordering")); cbn [orb].
      { destruct (is_list _); cbn [negb orb andb] in *; [|discriminate H].
        destruct (forallb is_int _); [reflexivity|discriminate H]. }
      destruct (eq_str _ (lit "code-hotarea")); [|reflexivity].
      destruct (is_list _); cbn [negb orb andb] in *; [|discriminate H].
      destruct (forallb is_int _); [reflexivity|discriminate H].
  - intros [Hreq Hshape]. rewrite (missing_fields_nil _ Hreq). cbn [is_empty negb].
    destruct (eq_str _ (lit "multi-select")).
    { apply andb_true_iff in Hshape. destruct Hshape as [-> ->]. reflexivity. }
    destruct (eq_str _ (lit "ordering")); cbn [orb] in *.
    { apply andb_true_iff in Hshape. destruct Hshape as [-> ->]. reflexivity. }
    destruct (eq_str _ (lit "code-hotarea")); [|reflexivity].
    apply andb_true_iff in Hshape. destruct Hshape as [-> ->]. reflexivity.
Qed.

(** X2. A note built from a card carries the card's data unchanged: its Type
    field is the card's type (single-choice when the card has none), its deck
    is the deck name given, its model is the fixed model name, its tags are
    the card's tags (an empty list when the card has none), and its
    Explanation field is the explanation renderer's fragment for the card's
    explanation. *)
Theorem note_keeps_card_metadata (d : list (pystr * json)) (deck_name note : json) :
  card_to_note (JDict d) deck_name = Ok note ->
  note_field note (lit "Type") = Some (get_or d (lit "type") (JStr (lit "single-choice")))
  /\ py_getitem_key note (lit "deckName") = Ok deck_name
  /\ py_getitem_key note (lit "modelName") = Ok (JStr MODEL_NAME)
  /\ py_getitem_key note (lit "tags") = Ok (get_or d (lit "tags") (JList []))
  /\ exists explanation,
       dict_get d (lit "explanation") = Some explanation
       /\ note_field note (lit "Explanation") = Some (JStr (wrap_explanation explanation)).
Proof.
  intros H. unfold card_to_note in H. bind_inv H.
  cbn [py_get py_getitem_key bind] in H.
  do 3 bind_inv H.
  match goal with
  | p : (_ * _ * _ * _)%type |- _ => destruct p as [[[o ans] oi] c]
  end.
  destruct (dict_get d (lit "explanation")) as [explanation|] eqn:He;
    cbn [bind] in H; [|discriminate H].
  do 4 bind_inv H. cbn [py_get bind] in H. injection H as <-.
  repeat (split; [reflexivity|]).
  exists explanation. split; reflexivity.
Qed.

(* ----------------------------------------------------------------- *)
(** *** Further properties: escaping *)

Lemma unescape_escape_code (c : codepoint) (rest : pystr) :
  unescape_from (escape_code c ++ rest) 0 = c :: unescape_from rest 0.
Proof.
  unfold escape_code.
  destruct (N.eqb_spec c 38) as [->|n38]; [reflexivity|].
  destruct (N.eqb_spec c 60) as [->|n60]; [reflexivity|].
  destruct (N.eqb_spec c 62) as [->|n62]; [reflexivity|].
  destruct (N.eqb_spec c 34) as [->|n34]; [reflexivity|].
  destruct (N.eqb_spec c 39) as [->|n39]; [reflexivity|].
  cbn [app unescape_from]. apply N.eqb_neq in n38. rewrite n38. reflexivity.
Qed.

Lemma html_unescape_escape (s : pystr) : html_unescape (html_escape s) = s.
Proof.
  rewrite html_escape_spec. unfold html_unescape.
  induction s as [|c s IH]; cbn [flat_map]; [reflexivity|].
  rewrite unescape_escape_code, IH. reflexivity.
Qed.

Lemma html_escape_plain (s : pystr) :
  forallb (fun c => negb (is_special c)) s = true -> html_escape s = s.
Proof.
  rewrite html_escape_spec.
  induction s as [|c s IH]; cbn [forallb flat_map]; [reflexivity|].
  intros H. apply andb_true_iff in H. destruct H as [Hc Hs].
  rewrite (IH Hs). unfold escape_code, is_special in *.
  apply negb_true_iff in Hc. repeat (apply orb_false_iff in Hc; destruct Hc as [Hc ?]).
  repeat match goal with E : (_ =? _)%N = false |- _ => rewrite E; clear E end.
  reflexivity.
Qed.

(** X3. Escaping loses nothing: reading the five entities back gives the
    original text, so two different texts never have the same escaped form; a
    text that holds none of the five special characters is embedded as it
    is. *)
Theorem esc_is_reversible (s t : pystr) :
  html_unescape (esc (JStr s)) = s
  /\ (esc (JStr s) = esc (JStr t) -> s = t)
  /\ (forallb (fun c => negb (is_special c)) s = true -> esc (JStr s) = s).
Proof.
  unfold esc. cbn [py_str].
  split; [apply html_unescape_escape|]. split.
  - intros H. rewrite <- (html_unescape_escape s), <- (html_unescape_escape t), H.
    reflexivity.
  - apply html_escape_plain.
Qed.

(* ----------------------------------------------------------------- *)
(** *** Further properties: options and answers *)

Lemma py_chr_ok (i : nat) :
  (N.of_nat i <= 1114046)%N -> py_chr (65 + i) = Ok (N.of_nat (65 + i)).
Proof.
  intros H. unfold py_chr.
  replace (N.of_nat (65 + i) <=? 1114111)%N with true; [reflexivity|].
  symmetry. apply N.leb_le. lia.
Qed.

(** A loop that letters its items, as long as [chr] accepts every letter. *)
Lemma lettered_loop (piece : nat -> codepoint -> json -> pystr) (options : list json) :
  forall (k : nat) (acc : pystr),
    (N.of_nat (k + List.length options) <= 1114047)%N ->
    for_each
      (fun items '(i, opt) =>
         letter <- py_chr (65 + i) ;; Ok (items ++ piece i letter opt))
      (combine (seq k (List.length options)) options) acc
    = Ok (acc ++ List.concat
                   (map (fun '(i, opt) => piece i (N.of_nat (65 + i)) opt)
                        (combine (seq k (List.length options)) options))).
Proof.
  induction options as [|opt options IH]; intros k acc Hbound.
  - cbn. rewrite app_nil_r. reflexivity.
  - cbn [List.length seq combine for_each map List.concat].
    cbn [List.length] in Hbound.
    rewrite py_chr_ok by lia. cbn [bind].
    rewrite IH by lia. rewrite app_assoc. reflexivity.
Qed.

(** X4. The two options renderers give one item per option, in order, and
    label the option at position i with the character of code 65 + i (A, B,
    C, ...); an empty list gives the frame with no item; a value that cannot
    be iterated (null, a boolean, a number) raises TypeError. The bound is
    that of [chr]: 1114047 options at most. *)
Theorem options_are_lettered_in_order (options : list json) :
  (N.of_nat (List.length options) <= 1114047)%N ->
  wrap_options_single (JList options) = Ok (options_frame (option_items_single options))
  /\ wrap_options_multi (JList options) = Ok (options_frame (option_items_multi options))
  /\ (options = [] -> wrap_options_single (JList options) = Ok (options_frame []))
  /\ (forall v, py_iter v = Err TypeError ->
        wrap_options_single v = Err TypeError /\ wrap_options_multi v = Err TypeError).
Proof.
  intros Hbound.
  assert (Hs : wrap_options_single (JList options)
               = Ok (options_frame (option_items_single options))).
  { unfold wrap_options_single, option_items_single, enumerate. cbn [py_iter bind].
    rewrite (lettered_loop (fun _ letter opt => option_item_single letter opt))
      by exact Hbound.
    reflexivity. }
  split; [exact Hs|]. split; [|split].
  - unfold wrap_options_multi, option_items_multi, enumerate. cbn [py_iter bind].
    rewrite (lettered_loop option_item_multi) by exact Hbound.
    reflexivity.
  - intros ->. reflexivity.
  - intros v Hv. unfold wrap_options_single, wrap_options_multi. rewrite Hv.
    split; reflexivity.
Qed.

(** X5. The answer letter and the label agree: when the upper-case form of
    the answer letter is the character of code 65 + i, which is the label the
    options renderers give to the option at position i, the single-choice
    answer fragment is the one for that option: the letter as written, then
    the option's escaped text in parentheses when it is truthy. *)
Theorem answer_letter_selects_labelled_option
    (letter : pystr) (options : list json) (i : nat) (opt : json) :
  nth_error options i = Some opt ->
  str_upper letter = [N.of_nat (65 + i)] ->
  letter_index (JStr letter) = Ok (Z.of_nat i)
  /\ wrap_answer_single (JStr letter) (JList options)
     = Ok (answer_single_frame
             (if truthy opt
              then letter ++ lit " (" ++ esc opt ++ lit ")"
              else letter)).
Proof.
  intros Hnth Hupper.
  assert (Hidx : letter_index (JStr letter) = Ok (Z.of_nat i)).
  { unfold letter_index. run. rewrite Hupper. cbn [py_ord bind].
    f_equal. lia. }
  split; [exact Hidx|].
  unfold wrap_answer_single. rewrite Hidx. cbn [bind].
  rewrite option_at_list. cbn [bind py_str].
  assert (Hlt : i < List.length options) by (apply nth_error_Some; congruence).
  unfold option_text_at.
  replace ((0 <=? Z.of_nat i)%Z && (Z.of_nat i <? Z.of_nat (List.length options))%Z)
    with true
    by (symmetry; apply andb_true_iff; split; [apply Z.leb_le|apply Z.ltb_lt]; lia).
  rewrite Nat2Z.id, (nth_error_nth _ _ _ Hnth). reflexivity.
Qed.

Lemma letter_index_position (letter : pystr) (c : codepoint) :
  str_upper letter = [c] -> letter_index (JStr letter) = Ok (letter_position letter).
Proof.
  intros H. unfold letter_index, letter_position. run. rewrite H. reflexivity.
Qed.

Lemma letter_index_not_one (letter : pystr) :
  List.length (str_upper letter) <> 1 -> letter_index (JStr letter) = Err TypeError.
Proof.
  intros H. unfold letter_index. run.
  destruct (str_upper letter) as [|c [|c' r]]; cbn in *; try reflexivity. congruence.
Qed.

Lemma answer_multi_loop (options : list json) (letters : list pystr) :
  Forall (fun l => List.length (str_upper l) = 1) letters ->
  forall acc,
    for_each
      (fun items letter =>
         idx <- letter_index letter ;;
         option_text <- option_at (JList options) idx ;;
         Ok (items ++ answer_multi_item letter option_text))
      (map JStr letters) acc
    = Ok (acc ++ List.concat
                   (map (fun l => answer_multi_item (JStr l)
                                    (option_text_at options (letter_position l)))
                        letters)).
Proof.
  induction 1 as [|l letters Hl _ IH]; intros acc.
  - cbn. rewrite app_nil_r. reflexivity.
  - cbn [map for_each List.concat].
    destruct (str_upper l) as [|c [|c' r]] eqn:Hu; cbn in Hl; try discriminate.
    rewrite (letter_index_position l c Hu). cbn [bind].
    rewrite option_at_list. cbn [bind]. rewrite IH, app_assoc. reflexivity.
Qed.

(** X6. For an answer that is a list of letters, each with a one-character
    upper-case form, the multi-select answer fragment never fails on an
    option lookup: it shows the number of letters and one entry per letter,
    in the order given, each with the option at the letter's position (an
    empty text when the position is outside the options). A letter whose
    upper-case form is not one character (an empty string, two letters)
    makes it raise TypeError. *)
Theorem answer_multi_lists_letters_in_order (letters : list pystr) (options : list json) :
  (Forall (fun l => List.length (str_upper l) = 1) letters ->
   wrap_answer_multi (JList (map JStr letters)) (JList options)
   = Ok (answer_multi_frame (List.length letters)
           (List.concat
              (map (fun l => answer_multi_item (JStr l)
                               (option_text_at options (letter_position l)))
                   letters))))
  /\ (Exists (fun l => List.length (str_upper l) <> 1) letters ->
      wrap_answer_multi (JList (map JStr letters)) (JList options) = Err TypeError).
Proof.
  split.
  - intros Hall. unfold wrap_answer_multi. cbn [py_iter bind].
    rewrite (answer_multi_loop options letters Hall). cbn [bind py_len app].
    rewrite length_map. reflexivity.
  - intros Hex. unfold wrap_answer_multi. cbn [py_iter bind].
    assert (Hloop : forall acc,
               for_each
                 (fun items letter =>
                    idx <- letter_index letter ;;
                    option_text <- option_at (JList options) idx ;;
                    Ok (items ++ answer_multi_item letter option_text))
                 (map JStr letters) acc = Err TypeError).
    { induction letters as [|l letters IH]; intros acc; [inversion Hex|].
      cbn [map for_each].
      destruct (Nat.eq_dec (List.length (str_upper l)) 1) as [Hone|Hnot].
      - destruct (str_upper l) as [|c [|c' r]] eqn:Hu; cbn in Hone; try discriminate.
        rewrite (letter_index_position l c Hu). cbn [bind].
        rewrite option_at_list. cbn [bind]. apply IH.
        inversion Hex; subst; [|assumption].
        rewrite Hu in *. cbn in *. congruence.
      - rewrite (letter_index_not_one l Hnot). reflexivity. }
    rewrite Hloop. reflexivity.
Qed.

(* ----------------------------------------------------------------- *)
(** *** Further properties: the API client and model provisioning *)

(** X7. A response that is a JSON object without a result key and without a
    truthy error makes [anki_request] raise KeyError, whereas
    [anki_request_addnotes] takes the missing result as an empty list; a
    response that is not a JSON object makes both raise AttributeError; an
    exception of the transport is passed on by both. In every case the
    request has been issued. *)
Theorem responses_without_result (action : pystr) (params : list (pystr * json))
    (notes log : list json) :
  (forall body,
      truthy (get_or body (lit "error") JNull) = false ->
      dict_get body (lit "result") = None ->
      (server log (request_payload action params) = Answered (JDict body) ->
       anki_request action params log
       = (Err (KeyError (JStr (lit "result"))), log ++ [request_payload action params]))
      /\ (server log (addnotes_payload notes) = Answered (JDict body) ->
          anki_request_addnotes notes log
          = (Ok (JList []), log ++ [addnotes_payload notes])))
  /\ (forall body,
        (forall d, body <> JDict d) ->
        (server log (request_payload action params) = Answered body ->
         anki_request action params log
         = (Err AttributeError, log ++ [request_payload action params]))
        /\ (server log (addnotes_payload notes) = Answered body ->
            anki_request_addnotes notes log
            = (Err AttributeError, log ++ [addnotes_payload notes])))
  /\ (forall e,
        (server log (request_payload action params) = Failed e ->
         anki_request action params log = (Err e, log ++ [request_payload action params]))
        /\ (server log (addnotes_payload notes) = Failed e ->
            anki_request_addnotes notes log = (Err e, log ++ [addnotes_payload notes]))).
Proof.
  split; [|split].
  - intros body Herr Hres. split; intros H.
    + rewrite (anki_request_dict _ _ _ _ H). cbv zeta. rewrite Herr.
      cbn [py_getitem_key]. rewrite Hres. reflexivity.
    + rewrite (anki_request_addnotes_dict _ _ _ H). cbv zeta. rewrite Herr.
      cbn [andb]. unfold get_or. rewrite Hres. reflexivity.
  - intros body Hbody. split; intros H.
    + unfold anki_request, io_bind, http_post, io_lift. rewrite H.
      destruct body; try reflexivity. exfalso. eapply Hbody. reflexivity.
    + unfold anki_request_addnotes, io_bind, http_post, io_lift.
      fold (addnotes_payload notes). rewrite H.
      destruct body; try reflexivity. exfalso. eapply Hbody. reflexivity.
  - intros e. split; intros H.
    + unfold anki_request, io_bind, http_post, io_lift. rewrite H. reflexivity.
    + unfold anki_request_addnotes, io_bind, http_post, io_lift.
      fold (addnotes_payload notes). rewrite H. reflexivity.
Qed.

Lemma py_print_ok (text : pystr) :
  py_print text = Ok tt <-> forallb encodable text = true.
Proof.
  unfold py_print. destruct (forallb encodable text); split; intros H;
    try reflexivity; discriminate H.
Qed.

Lemma py_print_raises (text : pystr) (e : exn) :
  py_print text = Err e -> e = UnicodeEncodeError /\ forallb encodable text = false.
Proof.
  unfold py_print. destruct (forallb encodable text); intros H;
    [discriminate H|]. injection H as <-. split; reflexivity.
Qed.

Lemma connected_line_encodable (ver : json) :
  forallb encodable (connected_line ver) = forallb encodable (py_str ver).
Proof.
  unfold connected_line. rewrite !forallb_app.
  change (forallb encodable (lit "AnkiConnect v")) with true.
  change (forallb encodable (lit " connected")) with true.
  rewrite andb_true_r. reflexivity.
Qed.

(** X8. [check_connection] never raises: it issues the version request and
    nothing else, and returns true exactly when that request returns a value
    and the line that reports it is printed, which is when standard output
    can encode every character of the version's text; a version it cannot
    encode gives false, as an exception of the request does. *)
Theorem check_connection_never_raises (log : list json) :
  exists connected,
    check_connection log = (Ok connected, log ++ [version_payload])
    /\ (connected = true
        <-> exists ver,
              fst (anki_request (lit "version") [] log) = Ok ver
              /\ py_print (connected_line ver) = Ok tt)
    /\ (connected = true
        <-> exists ver,
              fst (anki_request (lit "version") [] log) = Ok ver
              /\ forallb encodable (py_str ver) = true).
Proof.
  pose proof (anki_request_log (lit "version") [] log) as Hlog.
  unfold check_connection.
  destruct (anki_request (lit "version") [] log) as [[ver|e] log1];
    cbn [fst snd] in *; subst log1.
  - pose proof (py_print_ok (connected_line ver)) as Hp.
    rewrite connected_line_encodable in Hp.
    destruct (py_print (connected_line ver)) as [[]|e] eqn:E.
    + exists true. split; [reflexivity|]. split; (split; [|reflexivity]); intros _.
      * exists ver. split; [reflexivity|exact E].
      * exists ver. split; [reflexivity|]. apply Hp. reflexivity.
    + exists false. split; [reflexivity|]. split; (split; [discriminate|]).
      * intros (ver' & Hv & Hpr). injection Hv as <-. rewrite E in Hpr.
        discriminate Hpr.
      * intros (ver' & Hv & Henc). injection Hv as <-.
        apply Hp in Henc. discriminate Henc.
  - exists false. split; [reflexivity|]. split; (split; [discriminate|]).
    + intros (ver & H & _). discriminate H.
    + intros (ver & H & _). discriminate H.
Qed.

Lemma fields_not_in_list (fields : list json) :
  fields_not_in (JList fields)
  = Ok (filter (fun f => negb (existsb (fun v => eq_str v f) fields)) MODEL_FIELDS).
Proof.
  unfold fields_not_in.
  enough (H : forall l acc,
             for_each
               (fun missing f =>
                  found <- py_contains_str (JList fields) f ;;
                  Ok (if negb found then missing ++ [f] else missing))
               l acc
             = Ok (acc ++ filter (fun f => negb (existsb (fun v => eq_str v f) fields)) l))
    by apply (H MODEL_FIELDS []).
  induction l as [|f l IH]; intros acc; cbn [for_each filter].
  - rewrite app_nil_r. reflexivity.
  - cbn [py_contains_str bind]. rewrite IH.
    destruct (existsb (fun v => eq_str v f) fields); cbn [negb];
      [reflexivity|rewrite <- app_assoc; reflexivity].
Qed.

Lemma no_field_missing (fields : list json) :
  is_empty (filter (fun f => negb (existsb (fun v => eq_str v f) fields)) MODEL_FIELDS)
  = forallb (fun f => existsb (fun v => eq_str v f) fields) MODEL_FIELDS.
Proof.
  induction MODEL_FIELDS as [|f l IH]; cbn [filter forallb]; [reflexivity|].
  destruct (existsb (fun v => eq_str v f) fields); cbn [negb andb];
    [exact IH|reflexivity].
Qed.

(** X9. When the model name is among the names the server reports,
    [ensure_model] issues the modelNames and modelFieldNames requests and
    nothing else: it never creates or changes the model. When the fields
    reported are a list, it returns if every one of the nine model fields is
    in it and exits with status 1 otherwise. *)
Theorem ensure_model_keeps_existing_model (existing : json) (log : list json) :
  fst (anki_request (lit "modelNames") [] log) = Ok existing ->
  py_contains_str existing MODEL_NAME = Ok true ->
  snd (ensure_model log) = log ++ [model_names_payload; model_fields_payload]
  /\ forall fields,
       fst (anki_request (lit "modelFieldNames") [ (lit "modelName", JStr MODEL_NAME) ]
              (log ++ [model_names_payload]))
       = Ok (JList fields) ->
       fst (ensure_model log)
       = Ok (if forallb (fun f => existsb (fun v => eq_str v f) fields) MODEL_FIELDS
             then Returned tt else SystemExit 1).
Proof.
  intros Hnames Hpresent.
  pose proof (anki_request_log (lit "modelNames") [] log) as Hlog.
  pose proof (anki_request_log (lit "modelFieldNames")
                [ (lit "modelName", JStr MODEL_NAME) ] (log ++ [model_names_payload]))
    as Hlog2.
  unfold ensure_model, io_bind, io_lift, io_ret.
  destruct (anki_request (lit "modelNames") [] log) as [r log1].
  cbn [fst snd] in Hnames, Hlog. subst r log1.
  fold model_names_payload. rewrite Hpresent.
  destruct (anki_request (lit "modelFieldNames") _ (log ++ [model_names_payload]))
    as [r2 log2].
  cbn [snd] in Hlog2. subst log2. fold model_fields_payload.
  rewrite <- app_assoc. cbn [app].
  split.
  - destruct r2 as [existing_fields|e]; [|reflexivity].
    destruct (fields_not_in existing_fields) as [missing|e]; [|reflexivity].
    destruct (negb (is_empty missing)); reflexivity.
  - intros fields Hfields. cbn [fst] in Hfields. subst r2.
    rewrite fields_not_in_list, no_field_missing.
    destruct (forallb _ MODEL_FIELDS); reflexivity.
Qed.

(** X10. When the server reports names among which the model name is not,
    [ensure_model] issues the modelNames request and then one createModel
    request that carries the model name and the nine model fields in their
    order, and nothing else; it returns when that request is answered
    without error and raises what it raises otherwise. *)
Theorem ensure_model_creates_absent_model (existing : json) (log : list json) :
  fst (anki_request (lit "modelNames") [] log) = Ok existing ->
  py_contains_str existing MODEL_NAME = Ok false ->
  snd (ensure_model log) = log ++ [model_names_payload; create_model_payload]
  /\ fst (ensure_model log)
     = match fst (anki_request (lit "createModel") CREATE_MODEL_PARAMS
                    (log ++ [model_names_payload])) with
       | Ok _ => Ok (Returned tt)
       | Err e => Err e
       end
  /\ py_getitem_key create_model_payload (lit "params")
     = Ok (JDict CREATE_MODEL_PARAMS)
  /\ dict_get CREATE_MODEL_PARAMS (lit "modelName") = Some (JStr MODEL_NAME)
  /\ dict_get CREATE_MODEL_PARAMS (lit "inOrderFields")
     = Some (JList (map JStr MODEL_FIELDS)).
Proof.
  intros Hnames Habsent.
  pose proof (anki_request_log (lit "modelNames") [] log) as Hlog.
  pose proof (anki_request_log (lit "createModel") CREATE_MODEL_PARAMS
                (log ++ [model_names_payload])) as Hlog2.
  unfold ensure_model, io_bind, io_lift, io_ret.
  destruct (anki_request (lit "modelNames") [] log) as [r log1].
  cbn [fst snd] in Hnames, Hlog. subst r log1.
  fold model_names_payload. rewrite Habsent.
  destruct (anki_request (lit "createModel") CREATE_MODEL_PARAMS
              (log ++ [model_names_payload])) as [r2 log2].
  cbn [fst snd] in Hlog2 |- *. subst log2. fold create_model_payload.
  rewrite <- app_assoc. cbn [app].
  destruct r2; repeat split; reflexivity.
Qed.

(* ----------------------------------------------------------------- *)
(** *** Further properties: processing a file *)

Lemma card_to_note_ok_inv (card deck_name note : json) :
  card_to_note card deck_name = Ok note ->
  exists d t, card = JDict d
              /\ In t CARD_TYPES
              /\ get_or d (lit "type") (JStr (lit "single-choice")) = JStr t.
Proof.
  intros H. unfold card_to_note in H. bind_inv H.
  destruct card as [| | | | | |d]; try discriminate E.
  exists d.
  cbn [py_get py_getitem_key bind] in H. do 3 bind_inv H.
  match goal with
  | p : (_ * _ * _ * _)%type |- _ => destruct p as [[[o ans] oi] c]
  end.
  match goal with
  | E' : (if _ then _ else _) = Ok _ |- _ => apply dispatch_inv in E'; rename E' into Hb
  end.
  unfold get_or, CARD_TYPES.
  destruct Hb as [(Hb & _)|[(Hb & _)|[(Hb & _)|(Hb & _)]]];
    eexists; (split; [reflexivity|]); (split; [|exact Hb]); cbn [In]; auto.
Qed.

Lemma encodable_digits (u : Decimal.uint) :
  forallb encodable (digits_of_uint u) = true.
Proof.
  induction u; cbn [digits_of_uint forallb]; try reflexivity; rewrite IHu;
    reflexivity.
Qed.

Lemma encodable_count_type (t : pystr) (counts : list (pystr * nat)) :
  forallb encodable t = true ->
  Forall (fun kv => forallb encodable (fst kv) = true) counts ->
  Forall (fun kv => forallb encodable (fst kv) = true) (count_type t counts).
Proof.
  intros Ht. induction counts as [|[k v] counts IH]; intros H; cbn [count_type].
  - constructor; [exact Ht|constructor].
  - inversion H as [|x l Hk Hrest]; subst.
    destruct (pystr_eqb k t); constructor; auto.
Qed.

Lemma encodable_insert_item (item : pystr * nat) (sorted : list (pystr * nat)) :
  forallb encodable (fst item) = true ->
  Forall (fun kv => forallb encodable (fst kv) = true) sorted ->
  Forall (fun kv => forallb encodable (fst kv) = true) (insert_item item sorted).
Proof.
  intros Hi. induction sorted as [|x rest IH]; intros H; cbn [insert_item].
  - constructor; [exact Hi|constructor].
  - inversion H as [|y l Hx Hrest]; subst.
    destruct (pystr_ltb (fst item) (fst x)); constructor; auto.
Qed.

Lemma encodable_str_join (sep : pystr) (parts : list pystr) :
  forallb encodable sep = true ->
  Forall (fun p => forallb encodable p = true) parts ->
  forallb encodable (str_join sep parts) = true.
Proof.
  intros Hsep. induction parts as [|p rest IH]; intros H; [reflexivity|].
  inversion H as [|x l Hp Hrest]; subst. cbn [str_join].
  destruct rest as [|q rest]; [exact Hp|].
  rewrite !forallb_app, Hp, Hsep, (IH Hrest). reflexivity.
Qed.

Lemma encodable_string_summary (types : list pystr) :
  Forall (fun t => forallb encodable t = true) types ->
  forallb encodable (string_summary types) = true.
Proof.
  intros Htypes. unfold string_summary.
  assert (Hcounts : forall counts,
             Forall (fun kv => forallb encodable (fst kv) = true) counts ->
             Forall (fun kv => forallb encodable (fst kv) = true)
               (fold_left (fun type_counts t => count_type t type_counts)
                  types counts)).
  { induction Htypes as [|t types Ht _ IH]; intros counts Hc; cbn [fold_left];
      [exact Hc|].
    apply IH. apply encodable_count_type; assumption. }
  specialize (Hcounts [] (Forall_nil _)).
  assert (Hsorted : forall items,
             Forall (fun kv => forallb encodable (fst kv) = true) items ->
             Forall (fun kv => forallb encodable (fst kv) = true) (sorted_items items)).
  { unfold sorted_items. induction 1 as [|x l Hx _ IH]; cbn [fold_right];
      [constructor|]. apply encodable_insert_item; assumption. }
  apply Hsorted in Hcounts.
  apply encodable_str_join; [reflexivity|].
  apply Forall_forall. intros p Hp.
  apply in_map_iff in Hp. destruct Hp as ([k v] & <- & Hin).
  rewrite Forall_forall in Hcounts. specialize (Hcounts _ Hin).
  cbn [fst] in Hcounts. rewrite !forallb_app, Hcounts.
  unfold str_of_nat. rewrite encodable_digits. reflexivity.
Qed.

Lemma encodable_summary_line (deck_name : json) (n : nat) (summary : pystr) :
  forallb encodable (summary_line deck_name n summary)
  = forallb encodable (py_str deck_name) && forallb encodable summary.
Proof.
  unfold summary_line. rewrite !forallb_app.
  unfold str_of_nat. rewrite encodable_digits.
  change (forallb encodable (lit "~--- ")) with true.
  change (forallb encodable (lit " (")) with true.
  change (forallb encodable (lit " cards: ")) with true.
  change (forallb encodable (lit ") ---")) with true.
  cbn [andb]. rewrite andb_true_r. reflexivity.
Qed.

Lemma str_values_strs (types : list pystr) : str_values (map JStr types) = types.
Proof.
  unfold str_values. induction types as [|t types IH]; [reflexivity|].
  cbn [map flat_map app]. rewrite IH. reflexivity.
Qed.

Lemma type_summary_of_string_types (cards : list json) :
  Forall (fun c => exists d t,
                     c = JDict d
                     /\ get_or d (lit "type") (JStr (lit "single-choice")) = JStr t)
         cards ->
  type_summary cards = Ok (string_summary (card_types cards)).
Proof.
  intros Hall. unfold type_summary.
  assert (Hkeys : forall acc,
             for_each
               (fun keys c =>
                  t <- py_get c (lit "type") (JStr (lit "single-choice")) ;;
                  if hashable t then Ok (keys ++ [t]) else Err TypeError)
               cards acc
             = Ok (acc ++ map JStr (card_types cards))).
  { induction Hall as [|c cards (d & t & -> & Hty) _ IH]; intros acc.
    - cbn [for_each card_types flat_map map]. rewrite app_nil_r. reflexivity.
    - cbn [for_each card_types flat_map py_get bind].
      fold (get_or d (lit "type") (JStr (lit "single-choice"))). rewrite Hty.
      cbn [hashable bind app map]. fold (card_types cards).
      rewrite IH, <- app_assoc. reflexivity. }
  rewrite Hkeys. cbn [bind app].
  destruct (card_types cards) as [|t types]; [reflexivity|].
  cbn [map].
  replace (forallb (same_order_class (JStr t)) (map JStr types)) with true.
  - cbn [is_str]. change (JStr t :: map JStr types) with (map JStr (t :: types)).
    rewrite str_values_strs. reflexivity.
  - symmetry. clear. induction types as [|x types IH]; [reflexivity|].
    cbn [map forallb same_order_class]. exact IH.
Qed.

Lemma conversions_in_order (deck_name : json) (cards notes : list json) :
  Forall2 (fun c n => card_to_note c deck_name = Ok n) cards notes ->
  forall acc,
    for_each (fun notes c => note <- card_to_note c deck_name ;; Ok (notes ++ [note]))
      cards acc
    = Ok (acc ++ notes).
Proof.
  induction 1 as [|c n cards notes Hc _ IH]; intros acc; cbn [for_each].
  - rewrite app_nil_r. reflexivity.
  - rewrite Hc. cbn [bind]. rewrite IH, <- app_assoc. reflexivity.
Qed.

Lemma notes_of_converted (deck_name : json) (cards : list json) :
  forallb (fun c => match card_to_note c deck_name with
                    | Ok _ => true
                    | Err _ => false
                    end) cards = true ->
  Forall2 (fun c n => card_to_note c deck_name = Ok n) cards (notes_of cards deck_name).
Proof.
  unfold notes_of. induction cards as [|c cards IH]; cbn [forallb map List.concat];
    intros H; [constructor|].
  apply andb_true_iff in H. destruct H as [Hc Hrest].
  destruct (card_to_note c deck_name) as [note|e] eqn:E; [|discriminate Hc].
  cbn [app]. constructor; [exact E|exact (IH Hrest)].
Qed.

(** X11. When the document has a deck name and a list of cards that all
    convert to notes, [process_file] prints the summary line before any
    request. If standard output cannot encode the deck name, that print
    raises UnicodeEncodeError and nothing is sent. Otherwise the createDeck
    request for that deck is issued; if it is answered without error, what
    follows is exactly [push_notes] on the notes of the cards, in the order
    of the file, and the counts returned are those of [push_notes]; if it
    raises, the exception is passed on and nothing is pushed. *)
Theorem process_file_creates_deck_then_pushes
    (data deck_name : json) (cards notes log : list json) :
  py_getitem_key data (lit "deckName") = Ok deck_name ->
  py_getitem_key data (lit "cards") = Ok (JList cards) ->
  Forall2 (fun c n => card_to_note c deck_name = Ok n) cards notes ->
  (forallb encodable (py_str deck_name) = false ->
   process_file (FileData data) log = (Err UnicodeEncodeError, log))
  /\ (forallb encodable (py_str deck_name) = true ->
      (forall created,
          fst (ensure_deck deck_name log) = Ok created ->
          process_file (FileData data) log
          = push_notes notes (log ++ [create_deck_payload deck_name]))
      /\ (forall e,
            fst (ensure_deck deck_name log) = Err e ->
            process_file (FileData data) log
            = (Err e, log ++ [create_deck_payload deck_name]))).
Proof.
  intros Hdeck Hcards Hconv.
  assert (Htypes : Forall (fun c => exists d t,
                               c = JDict d
                               /\ In t CARD_TYPES
                               /\ get_or d (lit "type") (JStr (lit "single-choice"))
                                  = JStr t) cards).
  { clear - Hconv. induction Hconv as [|c n cards notes Hc _ IH]; constructor.
    - exact (card_to_note_ok_inv _ _ _ Hc).
    - exact IH. }
  assert (Hsummary : type_summary cards = Ok (string_summary (card_types cards))).
  { apply type_summary_of_string_types.
    eapply Forall_impl; [|exact Htypes]. cbv beta.
    intros c (d & t & Hc & _ & Ht). exists d, t. auto. }
  assert (Hascii : forallb encodable (string_summary (card_types cards)) = true).
  { apply encodable_string_summary. clear - Htypes.
    induction Htypes as [|c cards (d & t & -> & Hin & Ht) _ IH];
      cbn [card_types flat_map py_get]; [constructor|].
    fold (get_or d (lit "type") (JStr (lit "single-choice"))). rewrite Ht.
    cbn [app]. constructor; [|exact IH].
    destruct Hin as [<-|[<-|[<-|[<-|[]]]]]; reflexivity. }
  assert (Hline : py_print (summary_line deck_name (List.length cards)
                              (string_summary (card_types cards)))
                  = if forallb encodable (py_str deck_name) then Ok tt
                    else Err UnicodeEncodeError).
  { unfold py_print. rewrite encodable_summary_line, Hascii, andb_true_r.
    reflexivity. }
  pose proof (anki_request_log (lit "createDeck") [ (lit "deck", deck_name) ] log)
    as Hlog.
  unfold process_file, io_bind, io_lift.
  rewrite Hdeck, Hcards. cbn [py_iter]. rewrite Hsummary. cbn [py_len].
  rewrite Hline.
  split; [intros ->; reflexivity|]. intros ->.
  unfold ensure_deck, io_bind, io_ret in *.
  destruct (anki_request (lit "createDeck") _ log) as [r log1].
  cbn [fst snd] in Hlog |- *. subst log1. fold (create_deck_payload deck_name).
  rewrite (conversions_in_order deck_name cards notes Hconv []). cbn [app].
  split.
  - intros created H. destruct r as [r|e]; [reflexivity|discriminate H].
  - intros e H. destruct r as [r|e0]; [discriminate H|].
    cbn [fst] in H. injection H as ->. reflexivity.
Qed.

Lemma for_each_fails {A S : Type} (body : S -> A -> result S) (c : A) (l : list A) :
  In c l -> (forall acc, exists e, body acc c = Err e) ->
  forall acc, exists e, for_each body l acc = Err e.
Proof.
  intros Hin Hc. induction l as [|x l IH]; intros acc; [destruct Hin|].
  cbn [for_each]. destruct Hin as [->|Hin].
  - destruct (Hc acc) as [e ->]. exists e. reflexivity.
  - destruct (body acc x) as [acc'|e]; cbn [bind]; [apply IH; exact Hin|].
    exists e. reflexivity.
Qed.

(** X12. [process_file] issues no request at all in these cases: the file is
    missing (it returns zero counts); the file cannot be read or decoded, or
    the document has no deck name or no cards (it raises); the card list
    holds a value that is not a JSON object, or a card whose type is a list
    or an object (it raises while counting the cards per type, before the
    deck is created). *)
Theorem process_file_without_request (log : list json) :
  process_file FileMissing log = (Ok (0, 0), log)
  /\ (forall e, process_file (FileUnreadable e) log = (Err e, log))
  /\ (forall data e,
        py_getitem_key data (lit "deckName") = Err e
        \/ (exists deck_name, py_getitem_key data (lit "deckName") = Ok deck_name
                              /\ py_getitem_key data (lit "cards") = Err e) ->
        process_file (FileData data) log = (Err e, log))
  /\ (forall data cards c,
        py_getitem_key data (lit "cards") = Ok (JList cards) ->
        In c cards ->
        (forall d, c <> JDict d)
        \/ (exists d, c = JDict d
                      /\ hashable (get_or d (lit "type") (JStr (lit "single-choice")))
                         = false) ->
        exists e, process_file (FileData data) log = (Err e, log)).
Proof.
  split; [reflexivity|]. split; [reflexivity|]. split.
  - intros data e [H|(deck_name & Hd & Hc)]; unfold process_file, io_bind, io_lift.
    + rewrite H. reflexivity.
    + rewrite Hd, Hc. reflexivity.
  - intros data cards c Hcards Hin Hbad.
    unfold process_file, io_bind, io_lift.
    destruct (py_getitem_key data (lit "deckName")) as [deck_name|e0];
      [|exists e0; reflexivity].
    rewrite Hcards. cbn [py_iter].
    assert (Hsum : exists e, type_summary cards = Err e).
    { unfold type_summary.
      destruct (for_each_fails
                  (fun keys c =>
                     t <- py_get c (lit "type") (JStr (lit "single-choice")) ;;
                     if hashable t then Ok (keys ++ [t]) else Err TypeError)
                  c cards Hin) with (acc := @nil json) as [e He].
      - intros acc. destruct Hbad as [Hnot|(d & -> & Hhash)].
        + exists AttributeError. destruct c; try reflexivity.
          exfalso. eapply Hnot. reflexivity.
        + exists TypeError. cbn [py_get bind].
          fold (get_or d (lit "type") (JStr (lit "single-choice"))).
          rewrite Hhash. reflexivity.
      - exists e. rewrite He. reflexivity. }
    destruct Hsum as [e ->]. exists e. reflexivity.
Qed.

(* ----------------------------------------------------------------- *)
(** *** Further properties: the command line *)

Lemma appends_ret {A : Type} (a : A) : appends (io_ret a).
Proof. intros log. exists []. cbn [io_ret snd]. rewrite app_nil_r. reflexivity. Qed.

Lemma appends_lift {A : Type} (r : result A) : appends (io_lift r).
Proof. intros log. exists []. cbn [io_lift snd]. rewrite app_nil_r. reflexivity. Qed.

Lemma appends_bind {A B : Type} (m : io A) (k : A -> io B) :
  appends m -> (forall a, appends (k a)) -> appends (io_bind m k).
Proof.
  intros Hm Hk log. unfold io_bind. destruct (Hm log) as [e1 H1].
  destruct (m log) as [[a|e] log1]; cbn [snd] in H1; subst log1.
  - destruct (Hk a (log ++ e1)) as [e2 H2]. exists (e1 ++ e2).
    rewrite H2, app_assoc. reflexivity.
  - exists e1. reflexivity.
Qed.

Lemma appends_for_each {A S : Type} (body : S -> A -> io S) (l : list A) :
  (forall acc x, appends (body acc x)) -> forall acc, appends (io_for_each body l acc).
Proof.
  intros Hbody. induction l as [|x l IH]; intros acc; cbn [io_for_each].
  - apply appends_ret.
  - apply appends_bind; [apply Hbody|exact IH].
Qed.

Lemma appends_anki_request (action : pystr) (params : list (pystr * json)) :
  appends (anki_request action params).
Proof. intros log. exists [request_payload action params]. apply anki_request_log. Qed.

Lemma appends_push_notes (notes : list json) : appends (push_notes notes).
Proof.
  unfold push_notes. apply appends_for_each. intros acc i. cbv zeta.
  apply appends_bind.
  - intros log. eexists. apply anki_request_addnotes_log.
  - intros results. apply appends_bind; [apply appends_lift|].
    intros rs. apply appends_ret.
Qed.

Lemma appends_delete_deck_cards (deck_name : pystr) :
  appends (delete_deck_cards deck_name).
Proof.
  unfold delete_deck_cards. apply appends_bind; [apply appends_anki_request|].
  intros note_ids. apply appends_bind.
  - destruct (truthy note_ids); [apply appends_anki_request|apply appends_ret].
  - intros _. apply appends_lift.
Qed.

Lemma appends_ensure_model : appends ensure_model.
Proof.
  unfold ensure_model. apply appends_bind; [apply appends_anki_request|].
  intros existing. apply appends_bind; [apply appends_lift|].
  intros [|].
  - apply appends_bind; [apply appends_anki_request|].
    intros fields. apply appends_bind; [apply appends_lift|].
    intros missing. destruct (negb (is_empty missing)); apply appends_ret.
  - apply appends_bind; [apply appends_anki_request|]. intros _. apply appends_ret.
Qed.

Lemma appends_ensure_deck (deck_name : json) : appends (ensure_deck deck_name).
Proof.
  unfold ensure_deck. apply appends_bind; [apply appends_anki_request|].
  intros _. apply appends_ret.
Qed.

Lemma appends_process_file (file : file_content) : appends (process_file file).
Proof.
  destruct file as [|e|data]; cbn [process_file];
    [apply appends_ret|apply appends_lift|].
  repeat (apply appends_bind; [first [apply appends_lift|apply appends_ensure_deck]|];
          intros ?).
  apply appends_push_notes.
Qed.

Lemma check_connection_spec (log : list json) :
  check_connection log
  = (Ok (match fst (anki_request (lit "version") [] log) with
         | Ok ver =>
             match py_print (connected_line ver) with
             | Ok _ => true
             | Err _ => false
             end
         | Err _ => false
         end),
     log ++ [version_payload]).
Proof.
  pose proof (anki_request_log (lit "version") [] log) as Hlog.
  unfold check_connection.
  destruct (anki_request (lit "version") [] log) as [[ver|e] log1];
    cbn [fst snd] in *; subst log1; [|reflexivity].
  destruct (py_print (connected_line ver)); reflexivity.
Qed.

Lemma usage_error_false (argv : list pystr) :
  usage_error argv = false ->
  (List.length argv <? 2)%nat = false
  /\ (pystr_eqb (nth 1 argv []) (lit "--delete-deck") = true ->
      (List.length argv <? 3)%nat = false).
Proof.
  unfold usage_error. intros H. apply orb_false_iff in H. destruct H as [H1 H2].
  split; [exact H1|]. intros Heq. rewrite Heq in H2. exact H2.
Qed.

Lemma after_probe {A : Type} (k : bool -> io A) (log : list json) :
  (forall connected, appends (k connected)) ->
  exists ext, snd (io_bind check_connection k log) = log ++ version_payload :: ext.
Proof.
  intros Hk. unfold io_bind. rewrite check_connection_spec.
  match goal with
  | |- exists ext, snd (k ?b _) = _ =>
      destruct (Hk b (log ++ [version_payload])) as [ext Hext]
  end.
  exists ext. rewrite Hext, <- app_assoc. reflexivity.
Qed.

(** X13. [main] with too few arguments (none, or --delete-deck without a deck
    name) exits with status 1 without sending any request; with enough
    arguments the first request it sends is always the version probe, in
    either mode. *)
Theorem main_probes_connection_first
    (fs : pystr -> file_content) (argv : list pystr) (log : list json) :
  (usage_error argv = true -> main fs argv log = (Ok (Exit 1), log))
  /\ (usage_error argv = false ->
      exists ext, snd (main fs argv log) = log ++ version_payload :: ext).
Proof.
  split.
  - unfold usage_error, main. intros H.
    destruct (List.length argv <? 2)%nat; [reflexivity|]. cbn [orb] in H.
    destruct (pystr_eqb (nth 1 argv []) (lit "--delete-deck")); [|discriminate H].
    cbn [andb] in H. rewrite H. reflexivity.
  - intros H. destruct (usage_error_false argv H) as [H2 H3].
    unfold main. rewrite H2.
    destruct (pystr_eqb (nth 1 argv []) (lit "--delete-deck")).
    + rewrite (H3 eq_refl). apply after_probe.
      intros [|]; cbn [negb]; [|apply appends_ret].
      apply appends_bind; [apply appends_delete_deck_cards|].
      intros count. apply appends_bind; [apply appends_lift|].
      intros _. apply appends_ret.
    + apply after_probe.
      intros [|]; cbn [negb]; [|apply appends_ret].
      apply appends_bind; [apply appends_ensure_model|].
      intros [[]|code]; [|apply appends_ret].
      apply appends_bind; [|intros totals; apply appends_ret].
      apply appends_for_each. intros [c d] path.
      apply appends_bind; [apply appends_process_file|].
      intros counts. apply appends_ret.
Qed.

(** X14. When the version probe raises (the server cannot be reached or
    reports an error), [main] exits with status 1 having sent that request
    only: no deck is deleted, no model is created and no file is
    processed. *)
Theorem main_exits_when_unreachable
    (fs : pystr -> file_content) (argv : list pystr) (log : list json) (e : exn) :
  usage_error argv = false ->
  fst (anki_request (lit "version") [] log) = Err e ->
  main fs argv log = (Ok (Exit 1), log ++ [version_payload]).
Proof.
  intros H Hver. destruct (usage_error_false argv H) as [H2 H3].
  unfold main. rewrite H2.
  destruct (pystr_eqb (nth 1 argv []) (lit "--delete-deck")).
  - rewrite (H3 eq_refl). unfold io_bind at 1.
    rewrite check_connection_spec, Hver. reflexivity.
  - unfold io_bind at 1. rewrite check_connection_spec, Hver. reflexivity.
Qed.

Lemma deleted_line_encodable (count : nat) (deck_name : pystr) :
  forallb encodable (deleted_line count deck_name) = forallb encodable deck_name.
Proof.
  unfold deleted_line. rewrite !forallb_app.
  unfold str_of_nat. rewrite encodable_digits.
  change (forallb encodable (lit "Deleted ")) with true.
  change (forallb encodable (lit " notes from '")) with true.
  change (forallb encodable (lit "'")) with true.
  cbn [andb]. rewrite andb_true_r. reflexivity.
Qed.

(** X15. The delete mode (--delete-deck with a deck name), once the version
    probe has returned a version. If standard output cannot encode the
    version, [main] exits with status 1 and nothing is deleted. Otherwise
    [main] is [delete_deck_cards] on the third argument, with the same
    requests and the same exception, followed by the line that reports the
    count: when standard output cannot encode the deck name, [main] raises
    UnicodeEncodeError after the deletion; when it can, the count reported
    is the one [delete_deck_cards] returns. The model is not provisioned and
    no file is read. *)
Theorem main_delete_mode
    (fs : pystr -> file_content) (argv : list pystr) (log : list json) (ver : json) :
  nth 1 argv [] = lit "--delete-deck" ->
  (3 <= List.length argv)%nat ->
  fst (anki_request (lit "version") [] log) = Ok ver ->
  (forallb encodable (py_str ver) = false ->
   main fs argv log = (Ok (Exit 1), log ++ [version_payload]))
  /\ (forallb encodable (py_str ver) = true ->
      main fs argv log
      = (match fst (delete_deck_cards (nth 2 argv []) (log ++ [version_payload])) with
         | Ok count =>
             if forallb encodable (nth 2 argv []) then Ok (Deleted count)
             else Err UnicodeEncodeError
         | Err e => Err e
         end,
         snd (delete_deck_cards (nth 2 argv []) (log ++ [version_payload])))).
Proof.
  intros Hflag Hlen Hver.
  assert (Hmain : main fs argv log
                  = io_bind check_connection
                      (fun connected =>
                         if negb connected then io_ret (Exit 1)
                         else
                           count <~ delete_deck_cards (nth 2 argv []) ;;
                           _ <~ io_lift (py_print (deleted_line count (nth 2 argv []))) ;;
                           io_ret (Deleted count))
                      log).
  { unfold main.
    replace (List.length argv <? 2)%nat with false
      by (symmetry; apply Nat.ltb_ge; lia).
    replace (List.length argv <? 3)%nat with false
      by (symmetry; apply Nat.ltb_ge; lia).
    rewrite Hflag.
    replace (pystr_eqb (lit "--delete-deck") (lit "--delete-deck")) with true
      by (symmetry; apply pystr_eqb_eq; reflexivity).
    reflexivity. }
  split; intros Henc; rewrite Hmain; unfold io_bind at 1;
    rewrite check_connection_spec, Hver; unfold py_print at 1;
    rewrite connected_line_encodable, Henc; [reflexivity|].
  cbn [negb]. unfold io_bind, io_ret, io_lift.
  destruct (delete_deck_cards (nth 2 argv []) (log ++ [version_payload]))
    as [[count|e] log1]; cbn [fst snd]; [|reflexivity].
  unfold py_print. rewrite deleted_line_encodable.
  destruct (forallb encodable (nth 2 argv [])); reflexivity.
Qed.

Lemma totals_loop (fs : pystr -> file_content) (paths : list pystr) :
  forall (counts : list (nat * nat)) (acc : nat * nat) (log final : list json),
    files_processed fs log paths counts final ->
    io_for_each
      (fun '(total_created, total_duplicates) filepath =>
         counts <~ process_file (fs filepath) ;;
         io_ret (total_created + fst counts, total_duplicates + snd counts))
      paths acc log
    = (Ok (fst acc + list_sum (map fst counts), snd acc + list_sum (map snd counts)),
       final).
Proof.
  induction paths as [|p paths IH]; intros counts [c d] log final H;
    destruct counts as [|[c1 d1] counts]; cbn [files_processed] in H;
    try contradiction.
  - subst final. cbn [io_for_each io_ret map list_sum fst snd].
    rewrite !Nat.add_0_r. reflexivity.
  - destruct H as (log1 & Hp & Hrest).
    cbn [io_for_each]. unfold io_bind at 1. unfold io_bind at 1. rewrite Hp.
    unfold io_ret at 1. cbn [fst snd].
    rewrite (IH counts (c + c1, d + d1) log1 final Hrest).
    apply (f_equal (fun t => (Ok t, final))).
    apply f_equal2; unfold list_sum; cbn [map fold_right fst snd]; lia.
Qed.

Lemma totals_loop_aborts (fs : pystr -> file_content) (done : list pystr) :
  forall (counts : list (nat * nat)) (acc : nat * nat) (log mid final : list json)
         (path : pystr) (rest : list pystr) (e : exn),
    files_processed fs log done counts mid ->
    process_file (fs path) mid = (Err e, final) ->
    io_for_each
      (fun '(total_created, total_duplicates) filepath =>
         counts <~ process_file (fs filepath) ;;
         io_ret (total_created + fst counts, total_duplicates + snd counts))
      (done ++ path :: rest) acc log
    = (Err e, final).
Proof.
  induction done as [|p done IH]; intros counts [c d] log mid final path rest e H Hf;
    destruct counts as [|[c1 d1] counts]; cbn [files_processed] in H;
    try contradiction.
  - subst mid. cbn [app io_for_each]. unfold io_bind. rewrite Hf. reflexivity.
  - destruct H as (log1 & Hp & Hrest).
    cbn [app io_for_each]. unfold io_bind at 1. unfold io_bind at 1. rewrite Hp.
    unfold io_ret at 1.
    exact (IH counts (c + c1, d + d1) log1 mid final path rest e Hrest Hf).
Qed.

Lemma probe_connected (log : list json) (ver : json) :
  fst (anki_request (lit "version") [] log) = Ok ver ->
  check_connection log
  = (Ok (forallb encodable (py_str ver)), log ++ [version_payload]).
Proof.
  intros Hver. rewrite check_connection_spec, Hver.
  unfold py_print. rewrite connected_line_encodable.
  destruct (forallb encodable (py_str ver)); reflexivity.
Qed.

(** X16. In the push mode, once the version probe has returned a version
    that standard output can encode and the model is provisioned, the files
    named on the command line are processed in the order of the arguments,
    each from the log the one before left; when none raises, [main] reports
    the sums of the created and of the duplicate counts of the files, and
    the log is the one the last file left. A missing file counts zero and
    sends nothing. *)
Theorem main_reports_the_sums
    (fs : pystr -> file_content) (argv : list pystr) (log log2 final : list json)
    (ver : json) (counts : list (nat * nat)) :
  (2 <= List.length argv)%nat ->
  pystr_eqb (nth 1 argv []) (lit "--delete-deck") = false ->
  fst (anki_request (lit "version") [] log) = Ok ver ->
  forallb encodable (py_str ver) = true ->
  ensure_model (log ++ [version_payload]) = (Ok (Returned tt), log2) ->
  files_processed fs log2 (tl argv) counts final ->
  main fs argv log
  = (Ok (Pushed (list_sum (map fst counts)) (list_sum (map snd counts))), final)
  /\ ((forall path, In path (tl argv) -> fs path = FileMissing) ->
      main fs argv log = (Ok (Pushed 0 0), log2)).
Proof.
  intros Hlen Hflag Hver Henc Hmodel Hfiles.
  assert (Hmain : forall counts' final',
             files_processed fs log2 (tl argv) counts' final' ->
             main fs argv log
             = (Ok (Pushed (list_sum (map fst counts')) (list_sum (map snd counts'))),
                final')).
  { intros counts' final' H. unfold main.
    replace (List.length argv <? 2)%nat with false
      by (symmetry; apply Nat.ltb_ge; lia).
    rewrite Hflag. unfold io_bind at 1. rewrite (probe_connected log ver Hver), Henc.
    cbn [negb]. unfold io_bind at 1. rewrite Hmodel.
    unfold io_bind at 1. rewrite (totals_loop fs (tl argv) counts' (0, 0) log2 final' H).
    reflexivity. }
  split; [exact (Hmain counts final Hfiles)|].
  intros Hmissing.
  assert (H0 : files_processed fs log2 (tl argv)
                 (map (fun _ => (0, 0)) (tl argv)) log2).
  { clear - Hmissing. revert Hmissing. generalize (tl argv) as paths.
    induction paths as [|p paths IH]; intros Hmissing; cbn [files_processed map];
      [reflexivity|].
    exists log2. split.
    - rewrite (Hmissing p (or_introl eq_refl)). reflexivity.
    - apply IH. intros path Hin. apply Hmissing. right. exact Hin. }
  assert (Hc : forall l : list pystr,
             list_sum (map fst (map (fun _ => (0, 0)) l)) = 0)
    by (induction l as [|p l IH]; [reflexivity|exact IH]).
  assert (Hd : forall l : list pystr,
             list_sum (map snd (map (fun _ => (0, 0)) l)) = 0)
    by (induction l as [|p l IH]; [reflexivity|exact IH]).
  rewrite (Hmain _ _ H0), Hc, Hd. reflexivity.
Qed.

(** X17. What ends a push run early, once the version probe has returned a
    version. If standard output cannot encode the version, [main] exits with
    status 1 after the version request. Otherwise: if model provisioning
    exits (the model exists without one of its fields) [main] exits with
    that status, and if it raises [main] raises, in both cases before any
    file is processed; if processing a file raises, [main] raises that
    exception at once, with the log that file left: the files after it are
    not processed and no totals are reported. *)
Theorem main_push_stops_early
    (fs : pystr -> file_content) (argv : list pystr) (log : list json) (ver : json) :
  (2 <= List.length argv)%nat ->
  pystr_eqb (nth 1 argv []) (lit "--delete-deck") = false ->
  fst (anki_request (lit "version") [] log) = Ok ver ->
  (forallb encodable (py_str ver) = false ->
   main fs argv log = (Ok (Exit 1), log ++ [version_payload]))
  /\ (forallb encodable (py_str ver) = true ->
      (forall code log2,
          ensure_model (log ++ [version_payload]) = (Ok (SystemExit code), log2) ->
          main fs argv log = (Ok (Exit code), log2))
      /\ (forall e log2,
            ensure_model (log ++ [version_payload]) = (Err e, log2) ->
            main fs argv log = (Err e, log2))
      /\ (forall log2 done path rest counts mid e final,
            ensure_model (log ++ [version_payload]) = (Ok (Returned tt), log2) ->
            tl argv = done ++ path :: rest ->
            files_processed fs log2 done counts mid ->
            process_file (fs path) mid = (Err e, final) ->
            main fs argv log = (Err e, final))).
Proof.
  intros Hlen Hflag Hver.
  assert (Hmain : main fs argv log
                  = (if negb (forallb encodable (py_str ver)) then io_ret (Exit 1)
                     else
                       io_bind ensure_model
                         (fun provisioned =>
                            match provisioned with
                            | SystemExit code => io_ret (Exit code)
                            | Returned _ =>
                                totals <~ io_for_each
                                  (fun '(total_created, total_duplicates) filepath =>
                                     counts <~ process_file (fs filepath) ;;
                                     io_ret (total_created + fst counts,
                                             total_duplicates + snd counts))
                                  (tl argv) (0, 0) ;;
                                io_ret (Pushed (fst totals) (snd totals))
                            end))
                      (log ++ [version_payload])).
  { unfold main.
    replace (List.length argv <? 2)%nat with false
      by (symmetry; apply Nat.ltb_ge; lia).
    rewrite Hflag. unfold io_bind at 1. rewrite (probe_connected log ver Hver).
    reflexivity. }
  rewrite Hmain. split; intros ->; [reflexivity|]. cbn [negb].
  split; [|split].
  - intros code log2 Hmodel. unfold io_bind at 1. rewrite Hmodel. reflexivity.
  - intros e log2 Hmodel. unfold io_bind at 1. rewrite Hmodel. reflexivity.
  - intros log2 done path rest counts mid e final Hmodel Htl Hdone Hfail.
    unfold io_bind at 1. rewrite Hmodel. unfold io_bind at 1. rewrite Htl.
    rewrite (totals_loop_aborts fs done counts (0, 0) log2 mid final path rest e
               Hdone Hfail).
    reflexivity.
Qed.

(* ----------------------------------------------------------------- *)
(** *** Further properties: answers of code and ordering cards, deletion *)

Lemma for_each_appends {A : Type} (body : pystr -> A -> result pystr)
    (f : A -> pystr) (l : list A) :
  (forall acc x, body acc x = Ok (acc ++ f x)) ->
  forall acc, for_each body l acc = Ok (acc ++ List.concat (map f l)).
Proof.
  intros Hbody. induction l as [|x l IH]; intros acc; cbn [for_each map List.concat].
  - rewrite app_nil_r. reflexivity.
  - rewrite Hbody. cbn [bind]. rewrite IH, app_assoc. reflexivity.
Qed.

Lemma for_each_ext_in {A S : Type} (f g : S -> A -> result S) (l : list A) :
  (forall acc x, In x l -> f acc x = g acc x) ->
  forall acc, for_each f l acc = for_each g l acc.
Proof.
  induction l as [|x l IH]; intros H acc; cbn [for_each]; [reflexivity|].
  rewrite (H acc x (or_introl eq_refl)).
  destruct (g acc x) as [acc'|e]; cbn [bind]; [|reflexivity].
  apply IH. intros acc0 y Hy. apply H. right. exact Hy.
Qed.

Lemma existsb_Z_mem (z : Z) (l : list Z) :
  existsb (Z.eqb z) l = true <-> In z l.
Proof.
  rewrite existsb_exists. split.
  - intros (y & Hy & Heq). apply Z.eqb_eq in Heq. subst y. exact Hy.
  - intros H. exists z. split; [exact H|apply Z.eqb_refl].
Qed.

Lemma enumerate_in_range {A : Type} (l : list A) (i : nat) (x : A) :
  In (i, x) (enumerate l) -> (i < List.length l)%nat.
Proof.
  unfold enumerate. intros H. apply in_combine_l in H. apply in_seq in H. lia.
Qed.

(** X18. The answer of a code card renders every line of a list of lines and
    never raises. Which lines carry the error mark depends only on which
    positions inside the block occur in the answer: repeated positions,
    their order, and positions outside the block (negative ones included)
    change nothing, and the heading depends only on whether the answer lists
    more than one entry. *)
Theorem error_lines_marked_by_membership (lines : list json) (e1 e2 : list Z) :
  (exists out, wrap_answer_code_hotarea (JList lines) e1 = Ok out)
  /\ ((forall i, (i < List.length lines)%nat ->
                 (In (Z.of_nat i) e1 <-> In (Z.of_nat i) e2)) ->
      (1 <? List.length e1)%nat = (1 <? List.length e2)%nat ->
      wrap_answer_code_hotarea (JList lines) e1
      = wrap_answer_code_hotarea (JList lines) e2).
Proof.
  split.
  - unfold wrap_answer_code_hotarea. cbn [py_iter bind].
    rewrite (for_each_appends
               (fun lines_html '(i, line) =>
                  let is_error := existsb (Z.eqb (Z.of_nat i)) e1 in
                  Ok (lines_html ++ answer_code_line i line is_error))
               (fun '(i, line) =>
                  answer_code_line i line (existsb (Z.eqb (Z.of_nat i)) e1))
               (enumerate lines))
      by (intros acc [i line]; reflexivity).
    cbn [bind]. eexists. reflexivity.
  - intros Hmem Hplural. unfold wrap_answer_code_hotarea. cbn [py_iter bind].
    rewrite Hplural.
    rewrite (for_each_ext_in
               (fun lines_html '(i, line) =>
                  let is_error := existsb (Z.eqb (Z.of_nat i)) e1 in
                  Ok (lines_html ++ answer_code_line i line is_error))
               (fun lines_html '(i, line) =>
                  let is_error := existsb (Z.eqb (Z.of_nat i)) e2 in
                  Ok (lines_html ++ answer_code_line i line is_error))
               (enumerate lines)); [reflexivity|].
    intros acc [i line] Hin. cbv zeta.
    replace (existsb (Z.eqb (Z.of_nat i)) e1) with (existsb (Z.eqb (Z.of_nat i)) e2);
      [reflexivity|].
    apply enumerate_in_range in Hin. specialize (Hmem i Hin).
    destruct (existsb (Z.eqb (Z.of_nat i)) e1) eqn:E1;
      destruct (existsb (Z.eqb (Z.of_nat i)) e2) eqn:E2; try reflexivity.
    + apply existsb_Z_mem in E1. apply Hmem in E1. apply existsb_Z_mem in E1.
      rewrite E1 in E2. discriminate E2.
    + apply existsb_Z_mem in E2. apply Hmem in E2. apply existsb_Z_mem in E2.
      rewrite E2 in E1. discriminate E1.
Qed.

(** X19. [delete_deck_cards] when the search does not give a list. If the
    findNotes request raises, the exception is passed on and no deleteNotes
    request is sent. If it returns a value without a length (null, a
    boolean, a number): a falsy one raises TypeError with no deleteNotes
    request; a truthy one is first sent in a deleteNotes request, and the
    call raises afterwards. *)
Theorem delete_deck_cards_without_ids (deck_name : pystr) (log : list json) :
  (forall e,
      fst (anki_request (lit "findNotes")
             [ (lit "query", JStr (lit "deck:`" ++ deck_name ++ lit "`")) ] log)
      = Err e ->
      delete_deck_cards deck_name log = (Err e, log ++ [find_payload deck_name]))
  /\ (forall v,
        fst (anki_request (lit "findNotes")
               [ (lit "query", JStr (lit "deck:`" ++ deck_name ++ lit "`")) ] log)
        = Ok v ->
        py_len v = Err TypeError ->
        (truthy v = false ->
         delete_deck_cards deck_name log
         = (Err TypeError, log ++ [find_payload deck_name]))
        /\ (truthy v = true ->
            snd (delete_deck_cards deck_name log)
            = log ++ [find_payload deck_name; delete_payload v]
            /\ exists e, fst (delete_deck_cards deck_name log) = Err e)).
Proof.
  pose proof (anki_request_log (lit "findNotes")
                [ (lit "query", JStr (lit "deck:`" ++ deck_name ++ lit "`")) ] log)
    as Hlog.
  fold (find_payload deck_name) in Hlog.
  unfold delete_deck_cards, io_bind.
  destruct (anki_request (lit "findNotes") _ log) as [r log1].
  cbn [fst snd] in Hlog |- *. subst log1.
  split.
  - intros e ->. reflexivity.
  - intros v -> Hlen. split; intros Htruthy; rewrite Htruthy.
    + unfold io_ret, io_lift. rewrite Hlen. reflexivity.
    + pose proof (anki_request_log (lit "deleteNotes") [ (lit "notes", v) ]
                    (log ++ [find_payload deck_name])) as Hlog2.
      fold (delete_payload v) in Hlog2.
      destruct (anki_request (lit "deleteNotes") _ (log ++ [find_payload deck_name]))
        as [[r2|e2] log2]; cbn [fst snd] in Hlog2 |- *; subst log2;
        unfold io_lift; rewrite <- app_assoc; cbn [app fst snd].
      * rewrite Hlen. split; [reflexivity|]. exists TypeError. reflexivity.
      * split; [reflexivity|]. exists e2. reflexivity.
Qed.

Lemma wrap_question_ordering (text : json) (n m : nat) :
  wrap_question text (JStr (lit "ordering")) n
  = wrap_question text (JStr (lit "ordering")) m.
Proof.
  unfold wrap_question.
  change (eq_str (JStr (lit "ordering")) (lit "multi-select")) with false.
  reflexivity.
Qed.

Lemma wrap_answer_ordering_entries (v : json) (out : pystr) :
  wrap_answer_ordering v = Ok out ->
  exists items,
    py_iter v = Ok items /\ out = answer_ordering_frame (ordered_entries items).
Proof.
  unfold wrap_answer_ordering. intros H.
  destruct (py_iter v) as [items|e]; cbn [bind] in H; [|discriminate H].
  rewrite (for_each_appends
             (fun items '(i, item) => Ok (items ++ answer_order_item i item))
             (fun '(i, item) => answer_order_item i item) (enumerate items))
    in H by (intros acc [i item]; reflexivity).
  cbn [bind app] in H. injection H as <-. exists items. split; reflexivity.
Qed.

Lemma same_note_for_any_ordering_answer (d1 d2 : list (pystr * json)) (deck_name : json) :
  get_or d1 (lit "type") (JStr (lit "single-choice")) = JStr (lit "ordering") ->
  (forall k, k <> lit "answer" -> dict_get d1 k = dict_get d2 k) ->
  validate_card (JDict d1) = Ok tt ->
  validate_card (JDict d2) = Ok tt ->
  card_to_note (JDict d1) deck_name = card_to_note (JDict d2) deck_name.
Proof.
  intros Hty Hsame Hv1 Hv2.
  assert (Hne : forall k, pystr_eqb k (lit "answer") = false -> k <> lit "answer").
  { intros k Hk ->. rewrite (proj2 (pystr_eqb_eq _ _) eq_refl) in Hk. discriminate Hk. }
  assert (Hget : forall k dflt,
             pystr_eqb k (lit "answer") = false ->
             py_get (JDict d2) k dflt = py_get (JDict d1) k dflt).
  { intros k dflt Hk. cbn [py_get]. rewrite (Hsame k (Hne k Hk)). reflexivity. }
  assert (Hitem : forall k,
             pystr_eqb k (lit "answer") = false ->
             py_getitem_key (JDict d2) k = py_getitem_key (JDict d1) k).
  { intros k Hk. cbn [py_getitem_key]. rewrite (Hsame k (Hne k Hk)). reflexivity. }
  unfold card_to_note. rewrite Hv1, Hv2. cbn [bind].
  rewrite (Hget (lit "type") _ eq_refl), (Hget (lit "options") _ eq_refl),
    (Hget (lit "orderItems") _ eq_refl), (Hget (lit "codeLines") _ eq_refl),
    (Hget (lit "language") _ eq_refl), (Hget (lit "tags") _ eq_refl),
    (Hitem (lit "question") eq_refl), (Hitem (lit "explanation") eq_refl),
    (Hitem (lit "keyPoints") eq_refl), (Hitem (lit "reference") eq_refl).
  change (py_get (JDict d1) (lit "type") (JStr (lit "single-choice")))
    with (Ok (get_or d1 (lit "type") (JStr (lit "single-choice")))).
  rewrite Hty. cbn [bind py_get].
  change (eq_str (JStr (lit "ordering")) (lit "single-choice")) with false.
  change (eq_str (JStr (lit "ordering")) (lit "multi-select")) with false.
  change (eq_str (JStr (lit "ordering")) (lit "ordering")) with true.
  cbv iota zeta.
  destruct (py_getitem_key (JDict d1) (lit "question")) as [question|e];
    [|reflexivity].
  cbn [bind].
  match goal with
  | |- bind (wrap_question _ _ ?n) _ = bind (wrap_question _ _ ?m) _ =>
      rewrite (wrap_question_ordering question n m)
  end.
  reflexivity.
Qed.

(** X20. The answer of an ordering card is validated and then never
    rendered: two ordering cards that pass validation and differ at most in
    their answer give the same result, note or exception. What the back of
    the note shows is the order of orderItems: the Answer field of a note
    built from an ordering card is the box around one entry per item of
    orderItems, in the order of that list, entry [i] numbered [i + 1]. *)
Theorem ordering_answer_is_not_rendered (d1 d2 : list (pystr * json)) (deck_name : json) :
  get_or d1 (lit "type") (JStr (lit "single-choice")) = JStr (lit "ordering") ->
  (forall k, k <> lit "answer" -> dict_get d1 k = dict_get d2 k) ->
  validate_card (JDict d1) = Ok tt ->
  validate_card (JDict d2) = Ok tt ->
  card_to_note (JDict d1) deck_name = card_to_note (JDict d2) deck_name
  /\ forall note,
       card_to_note (JDict d1) deck_name = Ok note ->
       exists items,
         py_iter (get_or d1 (lit "orderItems") (JList [])) = Ok items
         /\ note_field note (lit "Answer")
            = Some (JStr (answer_ordering_frame (ordered_entries items))).
Proof.
  intros Hty Hsame Hv1 Hv2.
  split; [exact (same_note_for_any_ordering_answer d1 d2 deck_name Hty Hsame Hv1 Hv2)|].
  intros note H. unfold card_to_note in H. rewrite Hv1 in H.
  cbn [py_get py_getitem_key bind] in H.
  fold (get_or d1 (lit "type") (JStr (lit "single-choice"))) in H.
  fold (get_or d1 (lit "orderItems") (JList [])) in H.
  rewrite Hty in H.
  change (eq_str (JStr (lit "ordering")) (lit "single-choice")) with false in H.
  change (eq_str (JStr (lit "ordering")) (lit "multi-select")) with false in H.
  change (eq_str (JStr (lit "ordering")) (lit "ordering")) with true in H.
  cbv iota in H.
  do 2 bind_inv H.
  destruct (wrap_answer_ordering (get_or d1 (lit "orderItems") (JList [])))
    as [answer_html|e] eqn:Ha; cbn [bind] in H; [|discriminate H].
  destruct (wrap_order_items (get_or d1 (lit "orderItems") (JList [])))
    as [order_html|e] eqn:Ho; cbn [bind] in H; [|discriminate H].
  destruct (dict_get d1 (lit "explanation")) as [explanation|];
    cbn [bind] in H; [|discriminate H].
  do 4 bind_inv H. injection H as <-.
  destruct (wrap_answer_ordering_entries _ _ Ha) as (items & Hitems & ->).
  exists items. split; [exact Hitems|reflexivity].
Qed.

(* ----------------------------------------------------------------- *)
(** *** Texts are embedded through the escaping only *)

Lemma ctx_here (m post : pystr) : m ++ post = [] ++ m ++ post.
Proof. reflexivity. Qed.

Lemma ctx_step (x L pre m post : pystr) :
  L = pre ++ m ++ post -> x ++ L = (x ++ pre) ++ m ++ post.
Proof. intros ->. rewrite <- app_assoc. reflexivity. Qed.

(** Splits a concatenation around its piece [m]. *)
Ltac ctx_around m :=
  etransitivity;
  [ repeat rewrite <- app_assoc; reflexivity
  | repeat first
      [ match goal with |- m ++ _ = _ => apply ctx_here end
      | apply ctx_step ] ].

Lemma concat_map_enumerate {A : Type} (f : A -> pystr) (l : list A) :
  List.concat (map f l) = List.concat (map (fun '(i, x) => f x) (enumerate l)).
Proof.
  unfold enumerate. generalize 0 as k.
  induction l as [|x l IH]; intros k; [reflexivity|].
  cbn [map List.concat List.length seq combine]. rewrite (IH (S k)). reflexivity.
Qed.

Lemma items_ext (item : nat -> json -> pystr) (ipre ipost : nat -> pystr)
    (l : list (nat * json)) :
  (forall i x, item i x = ipre i ++ esc x ++ ipost i) ->
  List.concat (map (fun '(i, x) => item i x) l)
  = List.concat (map (fun '(i, x) => ipre i ++ esc x ++ ipost i) l).
Proof. intros H. apply f_equal. apply map_ext. intros [i x]. apply H. Qed.

Lemma option_item_single_ctx :
  exists ipre ipost : nat -> pystr,
    forall i x, option_item_single (N.of_nat (65 + i)) x = ipre i ++ esc x ++ ipost i.
Proof.
  refine (ex_intro _ (fun i => _) _). refine (ex_intro _ (fun i => _) _).
  intros i x. cbv beta. unfold option_item_single. ctx_around (esc x).
Qed.

Lemma option_item_multi_ctx :
  exists ipre ipost : nat -> pystr,
    forall i x, option_item_multi i (N.of_nat (65 + i)) x = ipre i ++ esc x ++ ipost i.
Proof.
  refine (ex_intro _ (fun i => _) _). refine (ex_intro _ (fun i => _) _).
  intros i x. cbv beta. unfold option_item_multi. cbv zeta. ctx_around (esc x).
Qed.

Lemma key_point_item_ctx :
  exists ipre ipost : nat -> pystr,
    forall (i : nat) x, key_point_item x = ipre i ++ esc x ++ ipost i.
Proof.
  refine (ex_intro _ (fun i => _) _). refine (ex_intro _ (fun i => _) _).
  intros i x. cbv beta. unfold key_point_item. ctx_around (esc x).
Qed.

Lemma order_item_ctx :
  exists ipre ipost : nat -> pystr,
    forall i x, order_item i x = ipre i ++ esc x ++ ipost i.
Proof.
  refine (ex_intro _ (fun i => _) _). refine (ex_intro _ (fun i => _) _).
  intros i x. cbv beta. unfold order_item. ctx_around (esc x).
Qed.

Lemma answer_order_item_ctx :
  exists ipre ipost : nat -> pystr,
    forall i x, answer_order_item i x = ipre i ++ esc x ++ ipost i.
Proof.
  refine (ex_intro _ (fun i => _) _). refine (ex_intro _ (fun i => _) _).
  intros i x. cbv beta. unfold answer_order_item. ctx_around (esc x).
Qed.

Lemma code_line_ctx :
  exists ipre ipost : nat -> pystr,
    forall i x, code_line i x = ipre i ++ esc x ++ ipost i.
Proof.
  refine (ex_intro _ (fun i => _) _). refine (ex_intro _ (fun i => _) _).
  intros i x. cbv beta. unfold code_line. cbv zeta. ctx_around (esc x).
Qed.

Lemma answer_code_line_ctx (errors : list Z) :
  exists ipre ipost : nat -> pystr,
    forall i x,
      answer_code_line i x (existsb (Z.eqb (Z.of_nat i)) errors)
      = ipre i ++ esc x ++ ipost i.
Proof.
  refine (ex_intro _ (fun i => _) _). refine (ex_intro _ (fun i => _) _).
  intros i x. cbv beta. unfold answer_code_line. cbv zeta. ctx_around (esc x).
Qed.

Lemma answer_multi_item_ctx :
  exists lpre lpost : pystr -> pystr,
    forall l x, answer_multi_item (JStr l) x = lpre l ++ esc x ++ lpost l.
Proof.
  refine (ex_intro _ (fun l => _) _). refine (ex_intro _ (fun l => _) _).
  intros l x. cbv beta. unfold answer_multi_item. cbn [py_str]. ctx_around (esc x).
Qed.

Lemma wrap_question_embeds (card_type : json) (n : nat) (b : bool) :
  embeds_text (fun q => wrap_question q card_type n)
    (fun q => exists t, q = JStr t /\ contains (lit "select") (str_lower t) = b).
Proof.
  unfold embeds_text. eexists. eexists. intros q (t & -> & Hb).
  unfold wrap_question. run. rewrite Hb. cbv zeta. apply f_equal.
  unfold question_frame. ctx_around (esc (JStr t)).
Qed.

Lemma wrap_explanation_embeds :
  embeds_text (fun v => Ok (wrap_explanation v)) (fun _ => True).
Proof.
  unfold embeds_text. eexists. eexists. intros v _. apply f_equal.
  unfold wrap_explanation. ctx_around (esc v).
Qed.

Lemma wrap_options_single_embeds :
  embeds_items (fun opts => wrap_options_single (JList opts))
    (fun opts => (N.of_nat (List.length opts) <= 1114047)%N).
Proof.
  destruct option_item_single_ctx as (ipre & ipost & Hi).
  unfold embeds_items. eexists. eexists. exists ipre, ipost. intros opts Hb.
  unfold wrap_options_single, enumerate. cbn [py_iter bind].
  rewrite (lettered_loop (fun _ letter opt => option_item_single letter opt))
    by exact Hb.
  cbn [bind app]. apply f_equal.
  rewrite (items_ext (fun i x => option_item_single (N.of_nat (65 + i)) x)
             ipre ipost _ Hi).
  unfold options_frame. set (X := List.concat _). ctx_around X.
Qed.

Lemma wrap_options_multi_embeds :
  embeds_items (fun opts => wrap_options_multi (JList opts))
    (fun opts => (N.of_nat (List.length opts) <= 1114047)%N).
Proof.
  destruct option_item_multi_ctx as (ipre & ipost & Hi).
  unfold embeds_items. eexists. eexists. exists ipre, ipost. intros opts Hb.
  unfold wrap_options_multi, enumerate. cbn [py_iter bind].
  rewrite (lettered_loop option_item_multi) by exact Hb.
  cbn [bind app]. apply f_equal.
  rewrite (items_ext (fun i x => option_item_multi i (N.of_nat (65 + i)) x)
             ipre ipost _ Hi).
  unfold options_frame. set (X := List.concat _). ctx_around X.
Qed.

Lemma wrap_key_points_embeds :
  embeds_items (fun ps => wrap_key_points (JList ps)) (fun _ => True).
Proof.
  destruct key_point_item_ctx as (ipre & ipost & Hi).
  unfold embeds_items. eexists. eexists. exists ipre, ipost. intros ps _.
  unfold wrap_key_points. cbn [py_iter bind]. cbv zeta. apply f_equal.
  rewrite concat_map_enumerate.
  rewrite (items_ext (fun _ x => key_point_item x) ipre ipost _ Hi).
  set (X := List.concat _). ctx_around X.
Qed.

Lemma wrap_order_items_embeds :
  embeds_items (fun its => wrap_order_items (JList its)) (fun _ => True).
Proof.
  destruct order_item_ctx as (ipre & ipost & Hi).
  unfold embeds_items. eexists. eexists. exists ipre, ipost. intros its _.
  unfold wrap_order_items. cbn [py_iter bind].
  rewrite (for_each_appends
             (fun li_items '(i, item) => Ok (li_items ++ order_item i item))
             (fun '(i, item) => order_item i item) (enumerate its))
    by (intros acc [i x]; reflexivity).
  cbn [bind app]. apply f_equal.
  rewrite (items_ext order_item ipre ipost _ Hi).
  set (X := List.concat _). ctx_around X.
Qed.

Lemma wrap_answer_ordering_embeds :
  embeds_items (fun its => wrap_answer_ordering (JList its)) (fun _ => True).
Proof.
  destruct answer_order_item_ctx as (ipre & ipost & Hi).
  unfold embeds_items. eexists. eexists. exists ipre, ipost. intros its _.
  unfold wrap_answer_ordering. cbn [py_iter bind].
  rewrite (for_each_appends
             (fun items '(i, item) => Ok (items ++ answer_order_item i item))
             (fun '(i, item) => answer_order_item i item) (enumerate its))
    by (intros acc [i x]; reflexivity).
  cbn [bind app]. apply f_equal.
  rewrite (items_ext answer_order_item ipre ipost _ Hi).
  set (X := List.concat _). ctx_around X.
Qed.

Lemma wrap_code_hotarea_embeds_lines (language : json) :
  embeds_items (fun lines => wrap_code_hotarea (JList lines) language) (fun _ => True).
Proof.
  destruct code_line_ctx as (ipre & ipost & Hi).
  unfold embeds_items. eexists. eexists. exists ipre, ipost. intros lines _.
  unfold wrap_code_hotarea. cbn [py_iter bind].
  rewrite (for_each_appends
             (fun lines_html '(i, line) => Ok (lines_html ++ code_line i line))
             (fun '(i, line) => code_line i line) (enumerate lines))
    by (intros acc [i x]; reflexivity).
  cbn [bind app]. apply f_equal.
  rewrite (items_ext code_line ipre ipost _ Hi).
  set (X := List.concat _). ctx_around X.
Qed.

Lemma wrap_code_hotarea_embeds_language (lines : list json) :
  embeds_text (fun language => wrap_code_hotarea (JList lines) language) (fun _ => True).
Proof.
  unfold embeds_text. eexists. eexists. intros language _.
  unfold wrap_code_hotarea. cbn [py_iter bind].
  rewrite (for_each_appends
             (fun lines_html '(i, line) => Ok (lines_html ++ code_line i line))
             (fun '(i, line) => code_line i line) (enumerate lines))
    by (intros acc [i x]; reflexivity).
  cbn [bind app]. apply f_equal. ctx_around (esc language).
Qed.

Lemma wrap_answer_code_hotarea_embeds (errors : list Z) :
  embeds_items (fun lines => wrap_answer_code_hotarea (JList lines) errors)
    (fun _ => True).
Proof.
  destruct (answer_code_line_ctx errors) as (ipre & ipost & Hi).
  unfold embeds_items. eexists. eexists. exists ipre, ipost. intros lines _.
  unfold wrap_answer_code_hotarea. cbn [py_iter bind].
  rewrite (for_each_appends
             (fun lines_html '(i, line) =>
                let is_error := existsb (Z.eqb (Z.of_nat i)) errors in
                Ok (lines_html ++ answer_code_line i line is_error))
             (fun '(i, line) =>
                answer_code_line i line (existsb (Z.eqb (Z.of_nat i)) errors))
             (enumerate lines))
    by (intros acc [i x]; reflexivity).
  cbn [bind app]. cbv zeta. apply f_equal.
  rewrite (items_ext
             (fun i x => answer_code_line i x (existsb (Z.eqb (Z.of_nat i)) errors))
             ipre ipost _ Hi).
  set (X := List.concat _). ctx_around X.
Qed.

Lemma option_text_at_middle (before after : list json) (opt : json) :
  option_text_at (before ++ opt :: after) (Z.of_nat (List.length before)) = opt.
Proof.
  unfold option_text_at.
  replace ((0 <=? Z.of_nat (List.length before))%Z
           && (Z.of_nat (List.length before)
               <? Z.of_nat (List.length (before ++ opt :: after)))%Z)
    with true.
  - rewrite Nat2Z.id, app_nth2, Nat.sub_diag by lia. reflexivity.
  - symmetry. apply andb_true_iff. split; [apply Z.leb_le; lia|].
    apply Z.ltb_lt. rewrite length_app. cbn [List.length]. lia.
Qed.

Lemma wrap_answer_single_embeds (letter : pystr) (before after : list json) :
  letter_index (JStr letter) = Ok (Z.of_nat (List.length before)) ->
  embeds_text
    (fun opt => wrap_answer_single (JStr letter) (JList (before ++ opt :: after)))
    (fun opt => truthy opt = true).
Proof.
  intros Hidx. unfold embeds_text. eexists. eexists. intros opt Ht.
  unfold wrap_answer_single. rewrite Hidx. cbn [bind].
  rewrite option_at_list, option_text_at_middle. cbn [bind]. cbv zeta.
  rewrite Ht. apply f_equal. unfold answer_single_frame. cbn [py_str].
  ctx_around (esc opt).
Qed.

Lemma wrap_answer_multi_embeds (letters : list pystr) :
  Forall (fun l => List.length (str_upper l) = 1) letters ->
  exists (pre post : pystr) (lpre lpost : pystr -> pystr),
    forall options,
      wrap_answer_multi (strs letters) (JList options)
      = Ok (pre
            ++ List.concat
                 (map (fun l => lpre l
                                ++ esc (option_text_at options (letter_position l))
                                ++ lpost l) letters)
            ++ post).
Proof.
  intros Hl. destruct answer_multi_item_ctx as (lpre & lpost & Hi).
  eexists. eexists. exists lpre, lpost. intros options.
  unfold wrap_answer_multi, strs. cbn [py_iter bind].
  rewrite (answer_multi_loop options letters Hl []).
  cbn [bind app py_len]. apply f_equal.
  rewrite (map_ext
             (fun l => answer_multi_item (JStr l)
                         (option_text_at options (letter_position l)))
             (fun l => lpre l ++ esc (option_text_at options (letter_position l))
                       ++ lpost l))
    by (intros l; apply Hi).
  set (X := List.concat _). ctx_around X.
Qed.

(** C3. Every user-supplied string is embedded through [esc] only. The
    escaped text holds no raw [<], [>] or double quote, and each of its
    ampersands starts one of the five entities of [html.escape]. Every
    renderer that embeds user text (question, options, explanation, key
    points, code lines and the language of the code, order items, and the
    answers that show option texts, code lines or order items) returns the
    escaped text between pieces that do not depend on the text: the question
    and the explanation between two fixed pieces, the items of a list each
    between two pieces that depend on the position only. So for a text with
    [<], [>], [&] or a double quote the fragment holds the entities where the
    text stands and the text contributes nothing else. The markup skeleton
    of each fragment is therefore the one obtained with the texts blanked.
    The answer letter of a card is not one of these texts: the answers embed
    it as it is, in the pieces around the option text. *)
Theorem user_text_is_escaped (text : pystr) (items : list pystr) :
  markup (esc (JStr text)) = []
  /\ entities_only (esc (JStr text)) = true
  /\ (forall card_type n b,
        embeds_text (fun q => wrap_question q card_type n)
          (fun q => exists t,
                      q = JStr t /\ contains (lit "select") (str_lower t) = b))
  /\ embeds_text (fun v => Ok (wrap_explanation v)) (fun _ => True)
  /\ embeds_items (fun opts => wrap_options_single (JList opts))
       (fun opts => (N.of_nat (List.length opts) <= 1114047)%N)
  /\ embeds_items (fun opts => wrap_options_multi (JList opts))
       (fun opts => (N.of_nat (List.length opts) <= 1114047)%N)
  /\ embeds_items (fun ps => wrap_key_points (JList ps)) (fun _ => True)
  /\ (forall language,
        embeds_items (fun lines => wrap_code_hotarea (JList lines) language)
          (fun _ => True))
  /\ (forall lines,
        embeds_text (fun language => wrap_code_hotarea (JList lines) language)
          (fun _ => True))
  /\ (forall errors,
        embeds_items (fun lines => wrap_answer_code_hotarea (JList lines) errors)
          (fun _ => True))
  /\ embeds_items (fun its => wrap_order_items (JList its)) (fun _ => True)
  /\ embeds_items (fun its => wrap_answer_ordering (JList its)) (fun _ => True)
  /\ (forall letter before after,
        letter_index (JStr letter) = Ok (Z.of_nat (List.length before)) ->
        embeds_text
          (fun opt =>
             wrap_answer_single (JStr letter) (JList (before ++ opt :: after)))
          (fun opt => truthy opt = true))
  /\ (forall letters,
        Forall (fun l => List.length (str_upper l) = 1) letters ->
        exists (pre post : pystr) (lpre lpost : pystr -> pystr),
          forall options,
            wrap_answer_multi (strs letters) (JList options)
            = Ok (pre
                  ++ List.concat
                       (map (fun l =>
                               lpre l
                               ++ esc (option_text_at options (letter_position l))
                               ++ lpost l) letters)
                  ++ post))
  /\ (forall card_type n text',
        contains (lit "select") (str_lower text')
        = contains (lit "select") (str_lower text) ->
        res_map markup (wrap_question (JStr text') card_type n)
        = res_map markup (wrap_question (JStr text) card_type n))
  /\ res_map markup (wrap_options_single (strs items))
     = res_map markup (wrap_options_single (blanks items))
  /\ res_map markup (wrap_options_multi (strs items))
     = res_map markup (wrap_options_multi (blanks items))
  /\ (forall letter,
        res_map markup (wrap_answer_single letter (strs items))
        = res_map markup (wrap_answer_single letter (blanks items)))
  /\ (forall letters,
        res_map markup (wrap_answer_multi letters (strs items))
        = res_map markup (wrap_answer_multi letters (blanks items)))
  /\ markup (wrap_explanation (JStr text)) = markup (wrap_explanation (JStr []))
  /\ res_map markup (wrap_key_points (strs items))
     = res_map markup (wrap_key_points (blanks items))
  /\ (forall language,
        res_map markup (wrap_code_hotarea (strs items) (JStr language))
        = res_map markup (wrap_code_hotarea (blanks items) (JStr [])))
  /\ (forall errors,
        res_map markup (wrap_answer_code_hotarea (strs items) errors)
        = res_map markup (wrap_answer_code_hotarea (blanks items) errors))
  /\ res_map markup (wrap_order_items (strs items))
     = res_map markup (wrap_order_items (blanks items))
  /\ res_map markup (wrap_answer_ordering (strs items))
     = res_map markup (wrap_answer_ordering (blanks items)).
Proof.
  split; [apply markup_esc_str|].
  split; [apply entities_only_html_escape|].
  split; [intros card_type n b; apply wrap_question_embeds|].
  split; [apply wrap_explanation_embeds|].
  split; [apply wrap_options_single_embeds|].
  split; [apply wrap_options_multi_embeds|].
  split; [apply wrap_key_points_embeds|].
  split; [intros language; apply wrap_code_hotarea_embeds_lines|].
  split; [intros lines; apply wrap_code_hotarea_embeds_language|].
  split; [intros errors; apply wrap_answer_code_hotarea_embeds|].
  split; [apply wrap_order_items_embeds|].
  split; [apply wrap_answer_ordering_embeds|].
  split; [intros letter before after H; apply wrap_answer_single_embeds; exact H|].
  split; [intros letters H; apply wrap_answer_multi_embeds; exact H|].
  split; [intros card_type n text' H; apply markup_wrap_question; exact H|].
  split; [apply markup_wrap_options_single|].
  split; [apply markup_wrap_options_multi|].
  split; [intros letter; apply markup_wrap_answer_single|].
  split; [intros letters; apply markup_wrap_answer_multi|].
  split; [apply markup_wrap_explanation|].
  split; [apply markup_wrap_key_points|].
  split; [intros language; apply markup_wrap_code_hotarea|].
  split; [intros errors; apply markup_wrap_answer_code_hotarea|].
  split; [apply markup_wrap_order_items|apply markup_wrap_answer_ordering].
Qed.

End Script.

(* ================================================================= *)
(** ** The properties on examples *)

(** The examples run the script with the ASCII case mapping, which is what
    [str.lower] and [str.upper] do on their ASCII texts. *)

(** C1 on an example: a plain error string makes [anki_request] raise; a
    per-note error list does not make [anki_request_addnotes] raise. *)
Lemma request_raises_on_truthy_error_witness :
  fst (anki_request (const_server (JDict sample_error_body)) (lit "version") [] [])
  = Err (RuntimeError (AnkiConnect_error (JStr (lit "deck was not found"))))
  /\ fst (anki_request_addnotes (const_server (JDict sample_batch_error_body)) [JNull] [])
     = Ok (JList [JNull]).
Proof.
  pose proof (request_raises_on_truthy_error
                (const_server (JDict sample_error_body)) sample_error_body []) as H1.
  pose proof (request_raises_on_truthy_error
                (const_server (JDict sample_batch_error_body))
                sample_batch_error_body []) as H2.
  cbv zeta in H1, H2. split.
  - apply (proj1 (proj1 H1 (lit "version") [] eq_refl)). reflexivity.
  - apply (proj2 (proj2 H2 [JNull] eq_refl)). right. reflexivity.
Defined.

(** C1 as stated fails: [anki_request] raises on a list-shaped error field,
    and it does not raise on an error field that is the empty string, a
    scalar that is not null. *)
Lemma request_error_counterexample :
  fst (anki_request (const_server (JDict sample_batch_error_body)) (lit "addNotes") [] [])
  = Err (RuntimeError
           (AnkiConnect_error
              (JList [JStr (lit "cannot create note because it is a duplicate")])))
  /\ fst (anki_request (const_server (JDict sample_empty_error_body)) (lit "version") [] [])
     = Ok (JInt 6).
Proof. split; reflexivity. Qed.

(** C2 on the example of the specification: 25 notes go out as batches of
    10, 10 and 5, and the counts add up to 25. *)
Lemma push_notes_batches_witness :
  answered sample_server [] (batches sample_notes)
    (map (map slot_of_note) (batches sample_notes))
  /\ map (@List.length json) (batches sample_notes) = [10; 10; 5]
  /\ exists created duplicates,
       push_notes sample_server sample_notes []
       = (Ok (created, duplicates), [] ++ map addnotes_payload (batches sample_notes))
       /\ created + duplicates = 25.
Proof.
  assert (H : answered sample_server [] (batches sample_notes)
                (map (map slot_of_note) (batches sample_notes))).
  { vm_compute.
    repeat match goal with
           | |- _ /\ _ => split
           | |- exists _, _ => eexists
           | |- True => exact I
           | |- _ = _ => reflexivity
           end. }
  split; [exact H|]. split; [reflexivity|].
  destruct (push_notes_batches sample_server sample_notes [])
    as (_ & _ & _ & _ & _ & Hret).
  destruct (Hret _ H) as (created & duplicates & Hpush & _ & _ & _ & Hsum).
  exists created, duplicates. split; [exact Hpush|].
  apply Hsum. vm_compute. repeat constructor.
Defined.

(** C3 on an example: the explanation with the text a < b & c is the same
    two pieces as for any other text, around the text with its entities. *)
Lemma user_text_is_escaped_witness :
  exists pre post,
    wrap_explanation sample_str_other (JStr (lit "a < b & c"))
    = pre ++ lit "a &lt; b &amp; c" ++ post
    /\ wrap_explanation sample_str_other (JStr (lit "plain"))
       = pre ++ lit "plain" ++ post.
Proof.
  destruct (user_text_is_escaped ascii_lower ascii_upper sample_str_other [] [])
    as (_ & _ & _ & (pre & post & H) & _).
  exists pre, post.
  pose proof (H (JStr (lit "a < b & c")) I) as H1.
  pose proof (H (JStr (lit "plain")) I) as H2.
  injection H1 as H1. injection H2 as H2.
  split; [exact H1|exact H2].
Defined.

(** C4 on examples: the hint of a multi-select card with two answers, and its
    omission when the text mentions select. *)
Lemma question_hint_by_type_witness :
  contains (lit "select") (ascii_lower (lit "Pick two tiers")) = false
  /\ wrap_question ascii_lower sample_str_other (JStr (lit "Pick two tiers"))
       (JStr (lit "multi-select")) 2
     = Ok (question_frame (esc sample_str_other (JStr (lit "Pick two tiers")))
             (HINT_STYLE ++ lit "Select 2 answers</div>"))
  /\ contains (lit "select") (ascii_lower (lit "Select all that apply")) = true
  /\ wrap_question ascii_lower sample_str_other (JStr (lit "Select all that apply"))
       (JStr (lit "multi-select")) 2
     = Ok (question_frame (esc sample_str_other (JStr (lit "Select all that apply"))) []).
Proof.
  pose proof (question_hint_by_type ascii_lower ascii_upper sample_str_other
                (lit "Pick two tiers") 2) as H1.
  pose proof (question_hint_by_type ascii_lower ascii_upper sample_str_other
                (lit "Select all that apply") 2) as H2.
  cbv zeta in H1, H2.
  destruct H1 as (_ & _ & H1 & _). destruct H2 as (_ & H2 & _).
  split; [reflexivity|]. split; [|split; [reflexivity|apply H2; reflexivity]].
  rewrite (H1 eq_refl). vm_compute. reflexivity.
Defined.

(** C4 as stated fails for one correct answer: the hint reads Select 1
    answer, not Select 1 answers. *)
Lemma select_hint_counterexample :
  exists out,
    wrap_question ascii_lower sample_str_other (JStr (lit "Pick the right one"))
      (JStr (lit "multi-select")) 1 = Ok out
    /\ contains (lit "Select 1 answer</div>") out = true
    /\ contains (lit "Select 1 answers") out = false.
Proof. eexists. split; [reflexivity|]. split; vm_compute; reflexivity. Qed.

(** C5 on the example of the specification. *)
Lemma reference_target_witness :
  exists out,
    wrap_reference sample_str_other (JStr (lit "javascript:alert(1)")) = Ok out
    /\ href_of out = Some (lit "#")
    /\ exists out',
         wrap_reference sample_str_other (JStr (lit "https://learn.microsoft.com/?a=1&b=2"))
         = Ok out'
         /\ href_of out' = Some (lit "https://learn.microsoft.com/?a=1&amp;b=2").
Proof.
  pose proof (reference_target sample_str_other (lit "javascript:alert(1)")) as H1.
  pose proof (reference_target sample_str_other
                (lit "https://learn.microsoft.com/?a=1&b=2")) as H2.
  cbv zeta in H1, H2.
  destruct H1 as (out & Hout & Hbad & _). destruct H2 as (out' & Hout' & _ & Hgood).
  exists out. split; [exact Hout|]. split; [apply Hbad; reflexivity|].
  exists out'. split; [exact Hout'|]. rewrite (Hgood eq_refl). reflexivity.
Defined.

(** C6 on examples: a note is built from a card of each type and has the
    nine fields. *)
Lemma note_has_the_nine_model_fields_witness :
  (exists note,
      card_to_note ascii_lower ascii_upper sample_str_other sample_single
        (JStr (lit "AZ-204::01")) = Ok note
      /\ Permutation (map fst (note_fields note)) MODEL_FIELDS)
  /\ (exists note,
         card_to_note ascii_lower ascii_upper sample_str_other sample_multi
           (JStr (lit "AZ-204::01")) = Ok note
         /\ Permutation (map fst (note_fields note)) MODEL_FIELDS)
  /\ (exists note,
         card_to_note ascii_lower ascii_upper sample_str_other sample_ordering
           (JStr (lit "AZ-204::01")) = Ok note
         /\ Permutation (map fst (note_fields note)) MODEL_FIELDS)
  /\ (exists note,
         card_to_note ascii_lower ascii_upper sample_str_other sample_code
           (JStr (lit "AZ-204::01")) = Ok note
         /\ Permutation (map fst (note_fields note)) MODEL_FIELDS).
Proof.
  assert (Hbuilt : forall card,
             (exists note,
                 card_to_note ascii_lower ascii_upper sample_str_other card
                   (JStr (lit "AZ-204::01")) = Ok note) ->
             exists note,
               card_to_note ascii_lower ascii_upper sample_str_other card
                 (JStr (lit "AZ-204::01")) = Ok note
               /\ Permutation (map fst (note_fields note)) MODEL_FIELDS).
  { intros card [note Hnote]. exists note. split; [exact Hnote|].
    exact (proj1 (note_has_the_nine_model_fields ascii_lower ascii_upper
                    sample_str_other card (JStr (lit "AZ-204::01")) note Hnote)). }
  repeat split; apply Hbuilt; eexists; vm_compute; reflexivity.
Defined.

(** C7 on examples: two ids found, one deleteNotes request, count 2; no id
    found, no deleteNotes request, count 0. *)
Lemma delete_deck_cards_calls_witness :
  fst (anki_request (const_server (JDict sample_found_body)) (lit "findNotes")
         [ (lit "query", JStr (lit "deck:`" ++ lit "AZ-204::01" ++ lit "`")) ] [])
  = Ok (JList [JInt 11; JInt 12])
  /\ snd (delete_deck_cards (const_server (JDict sample_found_body)) (lit "AZ-204::01") [])
     = [ find_payload (lit "AZ-204::01"); delete_payload (JList [JInt 11; JInt 12]) ]
  /\ fst (delete_deck_cards (const_server (JDict sample_found_body)) (lit "AZ-204::01") [])
     = Ok 2
  /\ delete_deck_cards sample_server (lit "AZ-204::01") []
     = (Ok 0, [ find_payload (lit "AZ-204::01") ]).
Proof.
  assert (H : fst (anki_request (const_server (JDict sample_found_body)) (lit "findNotes")
                     [ (lit "query", JStr (lit "deck:`" ++ lit "AZ-204::01" ++ lit "`")) ] [])
              = Ok (JList [JInt 11; JInt 12])) by reflexivity.
  destruct (delete_deck_cards_calls (const_server (JDict sample_found_body))
              (lit "AZ-204::01") [JInt 11; JInt 12] [] H) as [_ Hfound].
  destruct Hfound as [Hlog Hcount]; [discriminate|].
  split; [exact H|]. split; [exact Hlog|]. split; [rewrite Hcount; reflexivity|].
  apply (proj1 (delete_deck_cards_calls sample_server (lit "AZ-204::01") [] []
                  eq_refl)).
  reflexivity.
Defined.

(** C8 on the example of the specification: a card without keyPoints fails
    validation, the error names the card q7 and the field, and its file
    raises with no addNotes request. *)
Lemma missing_required_field_aborts_the_file_witness :
  In (lit "keyPoints") REQUIRED_CARD_FIELDS
  /\ has_key sample_no_key_points (lit "keyPoints") = false
  /\ validate_card (JDict sample_no_key_points)
     = Err (ValueError
              (Card_missing_required_fields (JStr (lit "q7")) [lit "keyPoints"]))
  /\ exists e log',
       process_file ascii_lower ascii_upper sample_str_other utf8_stdout sample_other_summary sample_server
         (FileData sample_deck) [] = (Err e, log')
       /\ (log' = []
           \/ exists deck_name,
               log' = [] ++ [request_payload (lit "createDeck")
                               [ (lit "deck", deck_name) ]]).
Proof.
  assert (Hin : In (lit "keyPoints") REQUIRED_CARD_FIELDS)
    by (right; right; left; reflexivity).
  assert (Hno : has_key sample_no_key_points (lit "keyPoints") = false) by reflexivity.
  destruct (missing_required_field_aborts_the_file ascii_lower ascii_upper
              sample_str_other utf8_stdout sample_other_summary sample_server sample_no_key_points (lit "keyPoints")
              Hin Hno) as [_ Hfile].
  split; [exact Hin|]. split; [exact Hno|]. split; [reflexivity|].
  apply (Hfile sample_deck [sample_single; JDict sample_no_key_points] [] eq_refl).
  right; left; reflexivity.
Defined.

(** C9 on an example: an essay card with the required fields passes
    validation and is refused by the builder. *)
Lemma unknown_type_is_rejected_by_the_builder_witness :
  validate_card sample_essay = Ok tt
  /\ card_to_note ascii_lower ascii_upper sample_str_other sample_essay JNull
     = Err (ValueError (Unknown_card_type (JStr (lit "essay")))).
Proof.
  apply (unknown_type_is_rejected_by_the_builder ascii_lower ascii_upper sample_str_other
           sample_essay_entries (JStr (lit "essay"))
           (lit "Which tier supports <slots> & scaling?") JNull);
    try reflexivity.
  intros f [<-|[<-|[<-|[<-|[]]]]]; reflexivity.
Defined.

(** C9 as stated fails: an essay card without the required fields does not
    pass validation, and the error is about the missing fields. *)
Lemma unknown_type_counterexample :
  validate_card sample_essay_bare
  = Err (ValueError
           (Card_missing_required_fields (JStr (lit "unknown")) REQUIRED_CARD_FIELDS))
  /\ card_to_note ascii_lower ascii_upper sample_str_other sample_essay_bare JNull
     = Err (ValueError
              (Card_missing_required_fields (JStr (lit "unknown")) REQUIRED_CARD_FIELDS)).
Proof. split; reflexivity. Qed.



(** X1 on an example: the multi-select sample card passes validation. *)
Lemma validate_card_accepts_witness :
  validate_card sample_multi = Ok tt.
Proof.
  unfold sample_multi. apply (proj2 (validate_card_accepts _)).
  split; [|reflexivity].
  intros f [<-|[<-|[<-|[<-|[]]]]]; reflexivity.
Defined.

(** X2 on an example: the note of the multi-select sample card keeps its
    type and the deck name. *)
Lemma note_keeps_card_metadata_witness :
  exists note,
    card_to_note ascii_lower ascii_upper sample_str_other sample_multi
      (JStr (lit "AZ-204::01")) = Ok note
    /\ note_field note (lit "Type") = Some (JStr (lit "multi-select"))
    /\ py_getitem_key note (lit "deckName") = Ok (JStr (lit "AZ-204::01")).
Proof.
  unfold sample_multi.
  destruct (card_to_note ascii_lower ascii_upper sample_str_other
              (JDict ([ (lit "id", JStr (lit "q2")); (lit "type", JStr (lit "multi-select"));
                        (lit "options",
                         JList [JStr (lit "Free"); JStr (lit "Standard");
                                JStr (lit "Premium")]);
                        (lit "answer", JList [JStr (lit "B"); JStr (lit "C")]) ]
                      ++ sample_common))
              (JStr (lit "AZ-204::01"))) as [note|e] eqn:E;
    [|vm_compute in E; discriminate E].
  exists note. split; [reflexivity|].
  destruct (note_keeps_card_metadata ascii_lower ascii_upper sample_str_other
              _ (JStr (lit "AZ-204::01")) note E) as (Ht & Hd & _).
  split; [rewrite Ht; vm_compute; reflexivity|exact Hd].
Defined.

(** X3 on examples: a text with markup characters comes back from its
    escaped form, and a plain text is left as it is. *)
Lemma esc_is_reversible_witness :
  esc sample_str_other (JStr (lit "a < b & c")) = lit "a &lt; b &amp; c"
  /\ html_unescape (esc sample_str_other (JStr (lit "a < b & c"))) = lit "a < b & c"
  /\ esc sample_str_other (JStr (lit "plain text")) = lit "plain text".
Proof.
  destruct (esc_is_reversible sample_str_other (lit "a < b & c") []) as (Hback & _ & _).
  destruct (esc_is_reversible sample_str_other (lit "plain text") []) as (_ & _ & Hplain).
  split; [reflexivity|]. split; [exact Hback|].
  apply Hplain. reflexivity.
Defined.

(** X4 on an example: two options are lettered A and B. *)
Lemma options_are_lettered_in_order_witness :
  wrap_options_single sample_str_other (JList [JStr (lit "x"); JStr (lit "y")])
  = Ok (options_frame
          (option_items_single sample_str_other [JStr (lit "x"); JStr (lit "y")]))
  /\ option_items_single sample_str_other [JStr (lit "x"); JStr (lit "y")]
     = option_item_single sample_str_other 65%N (JStr (lit "x"))
       ++ option_item_single sample_str_other 66%N (JStr (lit "y")).
Proof.
  split; [|vm_compute; reflexivity].
  apply (options_are_lettered_in_order sample_str_other
           [JStr (lit "x"); JStr (lit "y")]).
  apply N.leb_le. reflexivity.
Defined.

(** X5 on an example: the letter c selects the third option. *)
Lemma answer_letter_selects_labelled_option_witness :
  letter_index ascii_upper (JStr (lit "c")) = Ok 2%Z
  /\ wrap_answer_single ascii_upper sample_str_other (JStr (lit "c"))
       (JList [JStr (lit "x"); JStr (lit "y"); JStr (lit "z & w")])
     = Ok (answer_single_frame (lit "c (z &amp; w)")).
Proof.
  destruct (answer_letter_selects_labelled_option ascii_upper sample_str_other
              (lit "c") [JStr (lit "x"); JStr (lit "y"); JStr (lit "z & w")] 2
              (JStr (lit "z & w")) eq_refl eq_refl) as [Hi Hw].
  split; [exact Hi|]. rewrite Hw. vm_compute. reflexivity.
Defined.

(** X6 on examples: two letters give two entries; a two-letter answer
    raises. *)
Lemma answer_multi_lists_letters_in_order_witness :
  wrap_answer_multi ascii_upper sample_str_other
    (JList (map JStr [lit "a"; lit "C"]))
    (JList [JStr (lit "x"); JStr (lit "y"); JStr (lit "z")])
  = Ok (answer_multi_frame 2
          (answer_multi_item sample_str_other (JStr (lit "a")) (JStr (lit "x"))
           ++ answer_multi_item sample_str_other (JStr (lit "C")) (JStr (lit "z"))))
  /\ wrap_answer_multi ascii_upper sample_str_other
       (JList (map JStr [lit "AB"]))
       (JList [JStr (lit "x"); JStr (lit "y"); JStr (lit "z")])
     = Err TypeError.
Proof.
  destruct (answer_multi_lists_letters_in_order ascii_upper sample_str_other
              [lit "a"; lit "C"]
              [JStr (lit "x"); JStr (lit "y"); JStr (lit "z")]) as [Hok _].
  destruct (answer_multi_lists_letters_in_order ascii_upper sample_str_other
              [lit "AB"]
              [JStr (lit "x"); JStr (lit "y"); JStr (lit "z")]) as [_ Hbad].
  split.
  - rewrite Hok; [vm_compute; reflexivity|].
    constructor; [reflexivity|]. constructor; [reflexivity|constructor].
  - apply Hbad. constructor. vm_compute. discriminate.
Defined.

(** X7 on an example: an answer with neither error nor result makes
    [anki_request] raise KeyError and [anki_request_addnotes] return the
    empty list. *)
Lemma responses_without_result_witness :
  anki_request (const_server (JDict [ (lit "error", JNull) ])) (lit "version") [] []
  = (Err (KeyError (JStr (lit "result"))), [] ++ [request_payload (lit "version") []])
  /\ anki_request_addnotes (const_server (JDict [ (lit "error", JNull) ])) [JNull] []
     = (Ok (JList []), [] ++ [addnotes_payload [JNull]]).
Proof.
  destruct (responses_without_result (const_server (JDict [ (lit "error", JNull) ]))
              (lit "version") [] [JNull] []) as (H & _ & _).
  destruct (H [ (lit "error", JNull) ] eq_refl eq_refl) as [H1 H2].
  split; [apply H1|apply H2]; reflexivity.
Defined.

(** X8 on examples: an unreachable server gives false, a server that
    answers gives true, and a server whose version is a lone surrogate gives
    false on a UTF-8 standard output. *)
Lemma check_connection_never_raises_witness :
  check_connection sample_str_other utf8_stdout down_server []
  = (Ok false, [] ++ [version_payload])
  /\ check_connection sample_str_other utf8_stdout sample_server []
     = (Ok true, [] ++ [version_payload])
  /\ check_connection sample_str_other utf8_stdout
       (const_server (JDict sample_surrogate_body)) []
     = (Ok false, [] ++ [version_payload]).
Proof.
  destruct (check_connection_never_raises sample_str_other utf8_stdout down_server [])
    as (c1 & H1 & _ & Hc1).
  destruct (check_connection_never_raises sample_str_other utf8_stdout sample_server [])
    as (c2 & H2 & _ & Hc2).
  destruct (check_connection_never_raises sample_str_other utf8_stdout
              (const_server (JDict sample_surrogate_body)) [])
    as (c3 & H3 & _ & Hc3).
  split; [|split].
  - rewrite H1. destruct c1; [|reflexivity].
    destruct (proj1 Hc1 eq_refl) as (ver & Hv & _). vm_compute in Hv.
    discriminate Hv.
  - rewrite H2, (proj2 Hc2 (ex_intro _ (JList []) (conj eq_refl eq_refl))).
    reflexivity.
  - rewrite H3. destruct c3; [|reflexivity].
    destruct (proj1 Hc3 eq_refl) as (ver & Hv & Henc). vm_compute in Hv.
    injection Hv as <-. vm_compute in Henc. discriminate Henc.
Defined.

(** X9 on examples: an existing model with all its fields is kept; one
    with the Question field only makes the script exit. *)
Lemma ensure_model_keeps_existing_model_witness :
  ensure_model (model_server (JList (map JStr MODEL_FIELDS))) []
  = (Ok (Returned tt), [] ++ [model_names_payload; model_fields_payload])
  /\ fst (ensure_model (model_server (JList [JStr (lit "Question")])) [])
     = Ok (SystemExit unit 1).
Proof.
  destruct (ensure_model_keeps_existing_model
              (model_server (JList (map JStr MODEL_FIELDS)))
              (JList [JStr (lit "Basic"); JStr MODEL_NAME]) []
              ltac:(vm_compute; reflexivity) ltac:(vm_compute; reflexivity))
    as [Hlog Hres].
  destruct (ensure_model_keeps_existing_model
              (model_server (JList [JStr (lit "Question")]))
              (JList [JStr (lit "Basic"); JStr MODEL_NAME]) []
              ltac:(vm_compute; reflexivity) ltac:(vm_compute; reflexivity))
    as [_ Hres'].
  split.
  - rewrite (surjective_pairing (ensure_model _ [])), Hlog.
    rewrite (Hres (map JStr MODEL_FIELDS) ltac:(vm_compute; reflexivity)).
    reflexivity.
  - rewrite (Hres' [JStr (lit "Question")] ltac:(vm_compute; reflexivity)).
    reflexivity.
Defined.

(** X10 on an example: a server that knows no model gets the createModel
    request. *)
Lemma ensure_model_creates_absent_model_witness :
  ensure_model sample_server []
  = (Ok (Returned tt), [] ++ [model_names_payload; create_model_payload]).
Proof.
  destruct (ensure_model_creates_absent_model sample_server (JList []) []
              ltac:(vm_compute; reflexivity) ltac:(vm_compute; reflexivity))
    as (Hlog & Hres & _).
  rewrite (surjective_pairing (ensure_model sample_server [])), Hlog, Hres.
  reflexivity.
Defined.

(** X11 on examples: the good deck is created, then its two notes are
    pushed; under a name that UTF-8 cannot encode the same deck raises
    before any request. *)
Lemma process_file_creates_deck_then_pushes_witness :
  process_file ascii_lower ascii_upper sample_str_other utf8_stdout
    sample_other_summary sample_server (FileData sample_good_deck) []
  = push_notes sample_server
      (notes_of ascii_lower ascii_upper sample_str_other
         [sample_single; sample_multi] (JStr (lit "AZ-204::02")))
      ([] ++ [create_deck_payload (JStr (lit "AZ-204::02"))])
  /\ List.length (notes_of ascii_lower ascii_upper sample_str_other
                    [sample_single; sample_multi] (JStr (lit "AZ-204::02"))) = 2
  /\ process_file ascii_lower ascii_upper sample_str_other utf8_stdout
       sample_other_summary sample_server (FileData sample_surrogate_deck) []
     = (Err UnicodeEncodeError, []).
Proof.
  split; [|split; [vm_compute; reflexivity|]].
  - apply (proj1 (proj2 (process_file_creates_deck_then_pushes ascii_lower
                           ascii_upper sample_str_other utf8_stdout
                           sample_other_summary sample_server sample_good_deck
                           (JStr (lit "AZ-204::02")) [sample_single; sample_multi]
                           (notes_of ascii_lower ascii_upper sample_str_other
                              [sample_single; sample_multi]
                              (JStr (lit "AZ-204::02")))
                           [] eq_refl eq_refl
                           (notes_of_converted ascii_lower ascii_upper
                              sample_str_other (JStr (lit "AZ-204::02"))
                              [sample_single; sample_multi]
                              ltac:(vm_compute; reflexivity)))
                   ltac:(vm_compute; reflexivity))
             JNull).
    vm_compute. reflexivity.
  - apply (proj1 (process_file_creates_deck_then_pushes ascii_lower
                    ascii_upper sample_str_other utf8_stdout
                    sample_other_summary sample_server sample_surrogate_deck
                    (JStr [55296%N]) [sample_single; sample_multi]
                    (notes_of ascii_lower ascii_upper sample_str_other
                       [sample_single; sample_multi] (JStr [55296%N]))
                    [] eq_refl eq_refl
                    (notes_of_converted ascii_lower ascii_upper
                       sample_str_other (JStr [55296%N])
                       [sample_single; sample_multi]
                       ltac:(vm_compute; reflexivity)))).
    vm_compute. reflexivity.
Defined.

(** X12 on an example: a deck whose card list holds a string raises before
    any request. *)
Lemma process_file_without_request_witness :
  exists e,
    process_file ascii_lower ascii_upper sample_str_other utf8_stdout sample_other_summary sample_server
      (FileData sample_bad_deck) [] = (Err e, []).
Proof.
  destruct (process_file_without_request ascii_lower ascii_upper sample_str_other utf8_stdout sample_other_summary
              sample_server []) as (_ & _ & _ & H).
  apply (H sample_bad_deck [sample_single; JStr (lit "oops")] (JStr (lit "oops"))
           eq_refl).
  - right. left. reflexivity.
  - left. intros d Hd. discriminate Hd.
Defined.

(** X13 on examples: no argument, or --delete-deck alone, sends nothing; a
    run over two files starts with the version probe. *)
Lemma main_probes_connection_first_witness :
  main ascii_lower ascii_upper sample_str_other utf8_stdout sample_other_summary sample_server sample_fs
    [lit "push-to-anki.py"] [] = (Ok (Exit 1), [])
  /\ main ascii_lower ascii_upper sample_str_other utf8_stdout sample_other_summary sample_server sample_fs
       [lit "push-to-anki.py"; lit "--delete-deck"] [] = (Ok (Exit 1), [])
  /\ exists ext,
       snd (main ascii_lower ascii_upper sample_str_other utf8_stdout sample_other_summary sample_server sample_fs
              sample_argv [])
       = [] ++ version_payload :: ext.
Proof.
  split; [|split].
  - apply (proj1 (main_probes_connection_first ascii_lower ascii_upper
                    sample_str_other utf8_stdout sample_other_summary sample_server sample_fs
                    [lit "push-to-anki.py"] [])).
    reflexivity.
  - apply (proj1 (main_probes_connection_first ascii_lower ascii_upper
                    sample_str_other utf8_stdout sample_other_summary sample_server sample_fs
                    [lit "push-to-anki.py"; lit "--delete-deck"] [])).
    vm_compute. reflexivity.
  - apply (proj2 (main_probes_connection_first ascii_lower ascii_upper
                    sample_str_other utf8_stdout sample_other_summary sample_server sample_fs sample_argv [])).
    vm_compute. reflexivity.
Defined.

(** X14 on an example: with the server down, a run over two files exits
    after the version probe. *)
Lemma main_exits_when_unreachable_witness :
  main ascii_lower ascii_upper sample_str_other utf8_stdout sample_other_summary down_server sample_fs sample_argv []
  = (Ok (Exit 1), [] ++ [version_payload]).
Proof.
  apply (main_exits_when_unreachable ascii_lower ascii_upper sample_str_other utf8_stdout sample_other_summary
           down_server sample_fs sample_argv [] OSError);
    vm_compute; reflexivity.
Defined.

(** X15 on examples: deleting a deck in which two notes are found; under a
    deck name that UTF-8 cannot encode the two notes are deleted and then
    the run raises. *)
Lemma main_delete_mode_witness :
  main ascii_lower ascii_upper sample_str_other utf8_stdout sample_other_summary
    (const_server (JDict sample_found_body)) sample_fs
    [lit "push-to-anki.py"; lit "--delete-deck"; lit "AZ-204::01"] []
  = (Ok (Deleted 2),
     [ version_payload; find_payload (lit "AZ-204::01");
       delete_payload (JList [JInt 11; JInt 12]) ])
  /\ main ascii_lower ascii_upper sample_str_other utf8_stdout sample_other_summary
       (const_server (JDict sample_found_body)) sample_fs
       [lit "push-to-anki.py"; lit "--delete-deck"; [55296%N]] []
     = (Err UnicodeEncodeError,
        [ version_payload; find_payload [55296%N];
          delete_payload (JList [JInt 11; JInt 12]) ]).
Proof.
  split.
  - rewrite (proj2 (main_delete_mode ascii_lower ascii_upper sample_str_other
                      utf8_stdout sample_other_summary
                      (const_server (JDict sample_found_body)) sample_fs
                      [lit "push-to-anki.py"; lit "--delete-deck"; lit "AZ-204::01"] []
                      (JList [JInt 11; JInt 12])
                      eq_refl (le_n 3) ltac:(vm_compute; reflexivity))
               ltac:(vm_compute; reflexivity)).
    vm_compute. reflexivity.
  - rewrite (proj2 (main_delete_mode ascii_lower ascii_upper sample_str_other
                      utf8_stdout sample_other_summary
                      (const_server (JDict sample_found_body)) sample_fs
                      [lit "push-to-anki.py"; lit "--delete-deck"; [55296%N]] []
                      (JList [JInt 11; JInt 12])
                      eq_refl (le_n 3) ltac:(vm_compute; reflexivity))
               ltac:(vm_compute; reflexivity)).
    vm_compute. reflexivity.
Defined.

(** X16 on an example: a missing file and a deck of two cards give two
    created notes and no duplicate. *)
Lemma main_reports_the_sums_witness :
  exists final,
    main ascii_lower ascii_upper sample_str_other utf8_stdout sample_other_summary sample_server sample_fs
      sample_argv []
    = (Ok (Pushed 2 0), final).
Proof.
  assert (Hmodel : ensure_model sample_server ([] ++ [version_payload])
                   = (Ok (Returned tt),
                      [version_payload; model_names_payload; create_model_payload]))
    by (vm_compute; reflexivity).
  assert (Hdeck : process_file ascii_lower ascii_upper sample_str_other utf8_stdout sample_other_summary sample_server
                    (sample_fs (lit "deck.json"))
                    [version_payload; model_names_payload; create_model_payload]
                  = (Ok (2, 0),
                     snd (process_file ascii_lower ascii_upper sample_str_other utf8_stdout sample_other_summary
                            sample_server (FileData sample_good_deck)
                            [version_payload; model_names_payload;
                             create_model_payload])))
    by (vm_compute; reflexivity).
  assert (Hmissing : process_file ascii_lower ascii_upper sample_str_other utf8_stdout sample_other_summary
                       sample_server (sample_fs (lit "missing.json"))
                       [version_payload; model_names_payload; create_model_payload]
                     = (Ok (0, 0),
                        [version_payload; model_names_payload; create_model_payload]))
    by (vm_compute; reflexivity).
  eexists.
  apply (proj1 (main_reports_the_sums ascii_lower ascii_upper sample_str_other utf8_stdout sample_other_summary
                  sample_server sample_fs sample_argv []
                  [version_payload; model_names_payload; create_model_payload]
                  _ (JList []) [(0, 0); (2, 0)]
                  (le_S 2 2 (le_n 2)) eq_refl eq_refl eq_refl Hmodel
                  (ex_intro _ _ (conj Hmissing (ex_intro _ _ (conj Hdeck eq_refl)))))).
Defined.

(** X17 on examples: a version that UTF-8 cannot encode makes the run exit
    with status 1 after the version request; an existing model that lacks
    fields makes it exit with status 1 after the modelFieldNames request; a
    file with a card that lacks a required field makes it raise. *)
Lemma main_push_stops_early_witness :
  main ascii_lower ascii_upper sample_str_other utf8_stdout sample_other_summary
    (const_server (JDict sample_surrogate_body)) sample_fs sample_argv []
  = (Ok (Exit 1), [] ++ [version_payload])
  /\ main ascii_lower ascii_upper sample_str_other utf8_stdout sample_other_summary
       (model_server (JList [JStr (lit "Question")])) sample_fs sample_argv []
     = (Ok (Exit 1), [version_payload; model_names_payload; model_fields_payload])
  /\ exists e final,
       main ascii_lower ascii_upper sample_str_other utf8_stdout sample_other_summary
         sample_server sample_fs
         [lit "push-to-anki.py"; lit "broken.json"; lit "deck.json"] []
       = (Err e, final).
Proof.
  split; [|split].
  - apply (proj1 (main_push_stops_early ascii_lower ascii_upper sample_str_other
                    utf8_stdout sample_other_summary
                    (const_server (JDict sample_surrogate_body)) sample_fs
                    sample_argv [] (JStr [55296%N])
                    (le_S 2 2 (le_n 2)) ltac:(vm_compute; reflexivity)
                    ltac:(vm_compute; reflexivity))).
    vm_compute. reflexivity.
  - apply (proj1 (proj2 (main_push_stops_early ascii_lower ascii_upper
                           sample_str_other utf8_stdout sample_other_summary
                           (model_server (JList [JStr (lit "Question")])) sample_fs
                           sample_argv [] JNull
                           (le_S 2 2 (le_n 2)) ltac:(vm_compute; reflexivity)
                           ltac:(vm_compute; reflexivity))
                   ltac:(vm_compute; reflexivity))).
    vm_compute. reflexivity.
  - destruct (proj2 (main_push_stops_early ascii_lower ascii_upper sample_str_other
                       utf8_stdout sample_other_summary sample_server sample_fs
                       [lit "push-to-anki.py"; lit "broken.json"; lit "deck.json"] []
                       (JList [])
                       (le_S 2 2 (le_n 2)) ltac:(vm_compute; reflexivity)
                       ltac:(vm_compute; reflexivity))
                ltac:(vm_compute; reflexivity)) as (_ & _ & Hfile).
    destruct (process_file ascii_lower ascii_upper sample_str_other utf8_stdout
                sample_other_summary sample_server
                (sample_fs (lit "broken.json"))
                [version_payload; model_names_payload; create_model_payload])
      as [[c|e] final] eqn:Hp; [vm_compute in Hp; discriminate Hp|].
    exists e, final.
    apply (Hfile [version_payload; model_names_payload; create_model_payload]
             [] (lit "broken.json") [lit "deck.json"] []
             [version_payload; model_names_payload; create_model_payload] e final
             ltac:(vm_compute; reflexivity) eq_refl eq_refl Hp).
Defined.

(** X18 on an example: in a block of two lines, the answers 1, 7, -3, 1 and
    1, 1 give the same fragment. *)
Lemma error_lines_marked_by_membership_witness :
  wrap_answer_code_hotarea sample_str_other
    (JList [JStr (lit "az group create"); JStr (lit "az webapp <up>")])
    [1; 7; -3; 1]%Z
  = wrap_answer_code_hotarea sample_str_other
      (JList [JStr (lit "az group create"); JStr (lit "az webapp <up>")])
      [1; 1]%Z.
Proof.
  apply (proj2 (error_lines_marked_by_membership sample_str_other
                  [JStr (lit "az group create"); JStr (lit "az webapp <up>")]
                  [1; 7; -3; 1]%Z [1; 1]%Z)); [|reflexivity].
  intros i Hi. destruct i as [|[|i]].
  - split; intros H; exfalso; cbn in H; intuition discriminate.
  - split; intros _; left; reflexivity.
  - exfalso. cbn in Hi. lia.
Defined.

(** X19 on examples: with the server down the search raises and nothing
    else is sent; a search that returns the number 5 is followed by a
    deleteNotes request for 5, and the call raises. *)
Lemma delete_deck_cards_without_ids_witness :
  delete_deck_cards down_server (lit "AZ-204::01") []
  = (Err OSError, [] ++ [find_payload (lit "AZ-204::01")])
  /\ snd (delete_deck_cards
            (const_server (JDict [ (lit "result", JInt 5); (lit "error", JNull) ]))
            (lit "AZ-204::01") [])
     = [] ++ [find_payload (lit "AZ-204::01"); delete_payload (JInt 5)]
  /\ exists e,
       fst (delete_deck_cards
              (const_server (JDict [ (lit "result", JInt 5); (lit "error", JNull) ]))
              (lit "AZ-204::01") [])
       = Err e.
Proof.
  destruct (delete_deck_cards_without_ids down_server (lit "AZ-204::01") [])
    as [Hraise _].
  destruct (delete_deck_cards_without_ids
              (const_server (JDict [ (lit "result", JInt 5); (lit "error", JNull) ]))
              (lit "AZ-204::01") []) as [_ Hval].
  split; [apply Hraise; reflexivity|].
  apply (proj2 (Hval (JInt 5) eq_refl eq_refl)). reflexivity.
Defined.

(** X20 on an example: the ordering sample card and the same card with the
    answer 1, 0 give the same note, whose Answer field lists Create plan
    and then Create app. *)
Lemma ordering_answer_is_not_rendered_witness :
  card_to_note ascii_lower ascii_upper sample_str_other sample_ordering
    (JStr (lit "AZ-204::01"))
  = card_to_note ascii_lower ascii_upper sample_str_other
      (JDict ([ (lit "id", JStr (lit "q3")); (lit "type", JStr (lit "ordering"));
                (lit "orderItems",
                 JList [JStr (lit "Create plan"); JStr (lit "Create app")]);
                (lit "answer", JList [JInt 1; JInt 0]) ] ++ sample_common))
      (JStr (lit "AZ-204::01"))
  /\ exists note,
       card_to_note ascii_lower ascii_upper sample_str_other sample_ordering
         (JStr (lit "AZ-204::01")) = Ok note
       /\ note_field note (lit "Answer")
          = Some (JStr (answer_ordering_frame
                          (answer_order_item sample_str_other 0
                             (JStr (lit "Create plan"))
                           ++ answer_order_item sample_str_other 1
                                (JStr (lit "Create app"))))).
Proof.
  assert (Hsame : forall k,
             k <> lit "answer" ->
             dict_get ([ (lit "id", JStr (lit "q3")); (lit "type", JStr (lit "ordering"));
                         (lit "orderItems",
                          JList [JStr (lit "Create plan"); JStr (lit "Create app")]);
                         (lit "answer", JList [JInt 0; JInt 1]) ] ++ sample_common) k
             = dict_get ([ (lit "id", JStr (lit "q3"));
                           (lit "type", JStr (lit "ordering"));
                           (lit "orderItems",
                            JList [JStr (lit "Create plan"); JStr (lit "Create app")]);
                           (lit "answer", JList [JInt 1; JInt 0]) ] ++ sample_common) k).
  { intros k Hk. unfold sample_common. cbn [app dict_get].
    destruct (pystr_eqb (lit "answer") k) eqn:E; [|reflexivity].
    apply pystr_eqb_eq in E. exfalso. apply Hk. symmetry. exact E. }
  destruct (ordering_answer_is_not_rendered ascii_lower ascii_upper sample_str_other
              ([ (lit "id", JStr (lit "q3")); (lit "type", JStr (lit "ordering"));
                 (lit "orderItems",
                  JList [JStr (lit "Create plan"); JStr (lit "Create app")]);
                 (lit "answer", JList [JInt 0; JInt 1]) ] ++ sample_common)
              ([ (lit "id", JStr (lit "q3")); (lit "type", JStr (lit "ordering"));
                 (lit "orderItems",
                  JList [JStr (lit "Create plan"); JStr (lit "Create app")]);
                 (lit "answer", JList [JInt 1; JInt 0]) ] ++ sample_common)
              (JStr (lit "AZ-204::01")) eq_refl Hsame eq_refl eq_refl)
    as [Heq Hanswer].
  split; [exact Heq|].
  destruct (card_to_note ascii_lower ascii_upper sample_str_other
              (JDict ([ (lit "id", JStr (lit "q3")); (lit "type", JStr (lit "ordering"));
                        (lit "orderItems",
                         JList [JStr (lit "Create plan"); JStr (lit "Create app")]);
                        (lit "answer", JList [JInt 0; JInt 1]) ] ++ sample_common))
              (JStr (lit "AZ-204::01"))) as [note|e] eqn:E;
    [|vm_compute in E; discriminate E].
  exists note. split; [exact E|].
  destruct (Hanswer note eq_refl) as (items & Hitems & Hfield).
  vm_compute in Hitems. injection Hitems as <-.
  rewrite Hfield. vm_compute. reflexivity.
Defined.
